(** * EverMemOS evaluation pipeline: a shallow embedding

    The development follows [evaluation/src/core/pipeline.py] (class
    [Pipeline]) and, of [evaluation/src/adapters/memu_adapter.py], the
    ingestion of one perspective and the retrieval from one and from two
    perspectives.

    Python objects that the code mutates and shares ([Dataset],
    [Conversation]) live in an explicit object store and are passed by
    reference; values that are only read ([Message], [QAPair]) are plain
    records.  Exceptions are explicit outcomes and, as in Python, the
    effects performed before a raise stay in the state. *)

From Stdlib Require Import ZArith Ascii String DecimalString Floats.
From stdpp Require Import gmap strings list sets.

Set Warnings "-register-all,-clear-no-such-hyp".
Open Scope string_scope.
Open Scope Z_scope.

(** ** Python values and exceptions *)

(** The scalar values that occur in metadata mappings. *)
Inductive pyval :=
| PyNone
| PyBool (b : bool)
| PyInt (z : Z)
| PyStr (s : string).

Global Instance pyval_eq_dec : EqDecision pyval.
Proof. solve_decision. Defined.

(** JSON-like values, as [requests] decodes them and as the result store
    writes them. *)
Inductive json :=
| JNull
| JBool (b : bool)
| JInt (z : Z)
| JFloat (f : float)
| JStr (s : string)
| JList (l : list json)
| JDict (kvs : list (string * json)).

(** [str(n)] for a Python [int]. *)
Definition py_str_int (z : Z) : string := NilZero.string_of_int (Z.to_int z).

(** A raised object: [PyException] for instances of (subclasses of)
    [Exception], [PyBaseException] for the others ([KeyboardInterrupt],
    [SystemExit], ...).  The second component is [str(e)]. *)
Inductive exn :=
| PyException (cls msg : string)
| PyBaseException (cls msg : string).

Definition exn_str (e : exn) : string :=
  match e with PyException _ m | PyBaseException _ m => m end.

Definition IndexError (msg : string) : exn := PyException "IndexError" msg.
Definition KeyError (msg : string) : exn := PyException "KeyError" msg.
Definition TypeError (msg : string) : exn := PyException "TypeError" msg.
Definition AttributeError (msg : string) : exn := PyException "AttributeError" msg.
Definition FileNotFoundError (msg : string) : exn := PyException "FileNotFoundError" msg.
Definition UnboundLocalError (msg : string) : exn := PyException "UnboundLocalError" msg.

(** A reference that points at no object.  Python cannot build one; the
    store operations below report it so that they stay total. *)
Definition dangling_reference : exn := PyException "ReferenceError" "dangling reference".

Inductive outcome (A : Type) :=
| Ret (a : A)
| Raise (e : exn).
Arguments Ret {A} a.
Arguments Raise {A} e.

(** State and exceptions: the state survives a raise. *)
Definition M (S A : Type) : Type := S → outcome A * S.

Definition m_ret {S A} (a : A) : M S A := λ s, (Ret a, s).
Definition m_bind {S A B} (m : M S A) (k : A → M S B) : M S B :=
  λ s, match m s with
       | (Ret a, s') => k a s'
       | (Raise e, s') => (Raise e, s')
       end.
Definition m_raise {S A} (e : exn) : M S A := λ s, (Raise e, s).
Definition m_get {S} : M S S := λ s, (Ret s, s).
Definition m_gets {S A} (f : S → A) : M S A := λ s, (Ret (f s), s).
Definition m_modify {S} (f : S → S) : M S unit := λ s, (Ret tt, f s).

Declare Scope py_scope.
Delimit Scope py_scope with py.
Notation "x <- m ;; k" := (m_bind m (λ x, k))
  (at level 100, m at next level, right associativity) : py_scope.
Notation "m ;;; k" := (m_bind m (λ _, k))
  (at level 100, right associativity) : py_scope.
Open Scope py_scope.

(** ** Data model (evaluation.src.core.data_models) *)

Record Message := {
  speaker_name : string;
  role : string;
  timestamp : option string;
  content : string;
}.

Record QAPair := {
  question : string;
  golden_answer : string;
  category : string;
  qa_metadata : gmap string pyval;
}.

Definition loc := nat.

Record Conversation := {
  conversation_id : string;
  messages : list Message;
  conv_metadata : gmap string pyval;
}.

(** [conversations] holds references: the list of a truncated dataset
    shares its conversation object with the dataset it was cut from. *)
Record Dataset := {
  dataset_name : string;
  conversations : list loc;
  qa_pairs : list QAPair;
  metadata : gmap string pyval;
}.

Record Heap := {
  h_convs : list Conversation;
  h_datasets : list Dataset;
}.

Definition set_messages (c : Conversation) (ms : list Message) : Conversation :=
  {| conversation_id := conversation_id c; messages := ms;
     conv_metadata := conv_metadata c |}.

Definition set_qa_pairs (d : Dataset) (qs : list QAPair) : Dataset :=
  {| dataset_name := dataset_name d; conversations := conversations d;
     qa_pairs := qs; metadata := metadata d |}.

Module Store.

Definition read_conv (c : loc) : M Heap Conversation :=
  λ h, match h_convs h !! c with
       | Some v => (Ret v, h)
       | None => (Raise dangling_reference, h)
       end.

Definition read_dataset (d : loc) : M Heap Dataset :=
  λ h, match h_datasets h !! d with
       | Some v => (Ret v, h)
       | None => (Raise dangling_reference, h)
       end.

Definition write_conv (c : loc) (v : Conversation) : M Heap unit :=
  m_modify (λ h, {| h_convs := <[c := v]> (h_convs h);
                    h_datasets := h_datasets h |}).

Definition write_dataset (d : loc) (v : Dataset) : M Heap unit :=
  m_modify (λ h, {| h_convs := h_convs h;
                    h_datasets := <[d := v]> (h_datasets h) |}).

(** A constructor call: a new object at a reference not used before. *)
Definition new_dataset (v : Dataset) : M Heap loc :=
  λ h, (Ret (length (h_datasets h)),
        {| h_convs := h_convs h; h_datasets := h_datasets h ++ [v] |}).

End Store.

(** ** Pipeline: the pre-processing of [run] *)

(** An entry of [filter_categories]: the configuration may give ints or
    strings. *)
Inductive cat_cfg :=
| CatInt (z : Z)
| CatStr (s : string).

Definition py_str_cat (c : cat_cfg) : string :=
  match c with CatInt z => py_str_int z | CatStr s => s end.

(** [l[:n]] for an [n] known to be positive. *)
Definition py_prefix {A} (n : Z) (l : list A) : list A := take (Z.to_nat n) l.

Definition py_len {A} (l : list A) : Z := Z.of_nat (length l).

(** [qa.metadata.get("conversation_id") == conv_id] *)
Definition qa_of_conv (conv_id : string) (qa : QAPair) : Prop :=
  qa_metadata qa !! "conversation_id" = Some (PyStr conv_id).

Global Instance qa_of_conv_dec conv_id qa : Decision (qa_of_conv conv_id qa).
Proof. unfold qa_of_conv. apply _. Defined.

(** [Pipeline._apply_smoke_test] *)
Definition _apply_smoke_test (dataset : loc) (num_messages num_questions : Z)
  : M Heap loc :=
  ds <- Store.read_dataset dataset ;;
  match conversations ds with
  | [] => m_ret dataset
  | first_conv :: _ =>
      conv <- Store.read_conv first_conv ;;
      let conv_id := conversation_id conv in
      (if 0 <? num_messages
       then Store.write_conv first_conv
              (set_messages conv (py_prefix num_messages (messages conv)))
       else m_ret tt) ;;;
      conv' <- Store.read_conv first_conv ;;
      let conv_qa_pairs := filter (qa_of_conv conv_id) (qa_pairs ds) in
      let selected_qa_pairs :=
        if 0 <? num_questions then py_prefix num_questions conv_qa_pairs
        else conv_qa_pairs in
      Store.new_dataset
        {| dataset_name := dataset_name ds ++ "_smoke";
           conversations := [first_conv];
           qa_pairs := selected_qa_pairs;
           metadata :=
             <["smoke_questions" :=
                 PyInt (if 0 <? num_questions then num_questions
                        else py_len selected_qa_pairs)]>
             (<["smoke_messages" :=
                 PyInt (if 0 <? num_messages then num_messages
                        else py_len (messages conv'))]>
             (<["smoke_test" := PyBool true]> (metadata ds))) |}
  end.

(** [filter_set = {str(cat) for cat in self.filter_categories}] *)
Definition filter_set (filter_categories : list cat_cfg) : gset string :=
  list_to_set (py_str_cat <$> filter_categories).

(** Lines 114-142 of [run]: the smoke-test branch (with the reads its
    console report makes) and the category filter.  Returns the reference
    bound to the local [dataset] afterwards. *)
Definition preprocess (filter_categories : list cat_cfg) (dataset : loc)
    (smoke_test : bool) (smoke_messages smoke_questions : Z) : M Heap loc :=
  dataset <-
    (if smoke_test then
       dataset <- _apply_smoke_test dataset smoke_messages smoke_questions ;;
       ds <- Store.read_dataset dataset ;;
       match conversations ds with
       | [] => m_raise (IndexError "list index out of range")
       | c :: _ => _ <- Store.read_conv c ;; m_ret dataset
       end
     else m_ret dataset) ;;
  match filter_categories with
  | [] => m_ret dataset
  | _ :: _ =>
      ds <- Store.read_dataset dataset ;;
      Store.write_dataset dataset
        (set_qa_pairs ds
           (filter (λ qa, category qa ∉ filter_set filter_categories) (qa_pairs ds))) ;;;
      m_ret dataset
  end.

(** ** Stage results and their serialised forms *)

Record SearchResult := {
  query : string;
  sr_conversation_id : string;
  results : list json;
  retrieval_metadata : json;
}.

Record AnswerResult := {
  question_id : string;
  ar_question : string;
  answer : string;
  ar_golden_answer : string;
  ar_category : string;
  ar_conversation_id : string;
  formatted_context : string;
  ar_metadata : json;
}.

Record EvaluationResult := {
  total_questions : Z;
  correct : Z;
  accuracy : float;
  detailed_results : list json;
  er_metadata : json;
}.

(** The dictionaries built by the [_*_to_dict] helpers: one entry per key. *)
Record SearchResultDict := {
  k_query : string;
  k_conversation_id : string;
  k_results : list json;
  k_retrieval_metadata : json;
}.

Record AnswerResultDict := {
  k_question_id : string;
  k_question : string;
  k_answer : string;
  k_golden_answer : string;
  k_category : string;
  k_ar_conversation_id : string;
  k_formatted_context : string;
  k_metadata : json;
}.

Record EvalResultDict := {
  k_total_questions : Z;
  k_correct : Z;
  k_accuracy : float;
  k_detailed_results : list json;
  k_er_metadata : json;
}.

Definition _search_result_to_dict (sr : SearchResult) : SearchResultDict :=
  {| k_query := query sr;
     k_conversation_id := sr_conversation_id sr;
     k_results := results sr;
     k_retrieval_metadata := retrieval_metadata sr |}.

(** [SearchResult( **d )] *)
Definition _dict_to_search_result (d : SearchResultDict) : SearchResult :=
  {| query := k_query d;
     sr_conversation_id := k_conversation_id d;
     results := k_results d;
     retrieval_metadata := k_retrieval_metadata d |}.

Definition _answer_result_to_dict (ar : AnswerResult) : AnswerResultDict :=
  {| k_question_id := question_id ar;
     k_question := ar_question ar;
     k_answer := answer ar;
     k_golden_answer := ar_golden_answer ar;
     k_category := ar_category ar;
     k_ar_conversation_id := ar_conversation_id ar;
     k_formatted_context := formatted_context ar;
     k_metadata := ar_metadata ar |}.

Definition _dict_to_answer_result (d : AnswerResultDict) : AnswerResult :=
  {| question_id := k_question_id d;
     ar_question := k_question d;
     answer := k_answer d;
     ar_golden_answer := k_golden_answer d;
     ar_category := k_category d;
     ar_conversation_id := k_ar_conversation_id d;
     formatted_context := k_formatted_context d;
     ar_metadata := k_metadata d |}.

Definition _eval_result_to_dict (er : EvaluationResult) : EvalResultDict :=
  {| k_total_questions := total_questions er;
     k_correct := correct er;
     k_accuracy := accuracy er;
     k_detailed_results := detailed_results er;
     k_er_metadata := er_metadata er |}.

(** ** Checkpoint manager and result store *)

(** Modelled from the spec: the record kept by
    [evaluation.src.utils.checkpoint.CheckpointManager], which is not among
    the sources.  Section 3 gives its content: the set of completed stages
    and three optional serialised results. *)
Record CheckpointRecord := {
  ck_completed_stages : gset string;
  ck_search_results : option (list SearchResultDict);
  ck_answer_results : option (list AnswerResultDict);
  ck_eval_results : option EvalResultDict;
}.

(** What [_generate_report] writes to [report.txt]: the system name, the
    elapsed time and, when present, the three figures of the evaluation. *)
Record Report := {
  rp_system : string;
  rp_elapsed : float;
  rp_eval : option (Z * Z * float);
}.

(** Everything outside the Python process: the artifacts of the output
    directory, the checkpoint of the run name, and the state [E] of the
    collaborators (memory backend, LLM, evaluator). *)
Record Env (E : Type) := {
  search_file : option (list SearchResultDict);
  answer_file : option (list AnswerResultDict);
  eval_file : option EvalResultDict;
  report_file : option Report;
  checkpoint_file : option CheckpointRecord;
  ext : E;
}.
Arguments search_file {E} _.
Arguments answer_file {E} _.
Arguments eval_file {E} _.
Arguments report_file {E} _.
Arguments checkpoint_file {E} _.
Arguments ext {E} _.

(** What the orchestrator does, in order.  A checkpoint save is recorded
    with the stage of [run] that issues it and the record it writes. *)
Inductive event :=
| EvAddStage (dataset : loc)
| EvAddStageDone
| EvBuildLazyIndex
| EvSleep
| EvSearchStage (qas : list QAPair)
| EvAnswerStage (qas : list QAPair) (srs : option (list SearchResult))
| EvEvaluateStage (ars : option (list AnswerResult))
| EvFileExists (name : string)
| EvLoadJson (name : string)
| EvSaveJson (name : string)
| EvLoadCheckpoint
| EvSaveCheckpoint (stage : string) (c : CheckpointRecord)
| EvReport.

(** The collaborators of the orchestrator, none of which is among the
    sources: the four stage executors, the adapter's index rebuild, its
    name and its configured wait.  An executor may raise, may change the
    environment (it is handed the adapter, the output directory and the
    checkpoint manager), and [run_add_stage] is handed the very set
    [self.completed_stages]. *)
Record Collaborators (E Index : Type) := {
  run_add_stage :
    Heap → loc → gset string → Env E → outcome (option Index) * gset string * Env E;
  build_lazy_index : Heap → list loc → Env E → outcome Index * Env E;
  run_search_stage :
    Heap → list QAPair → Index → list loc → Env E → outcome (list SearchResult) * Env E;
  run_answer_stage :
    list QAPair → option (list SearchResult) → Env E → outcome (list AnswerResult) * Env E;
  run_evaluate_stage :
    option (list AnswerResult) → Env E → outcome EvaluationResult * Env E;
  system_name : string;
  post_add_wait_seconds : Z;
}.
Arguments run_add_stage {E Index} _.
Arguments build_lazy_index {E Index} _.
Arguments run_search_stage {E Index} _.
Arguments run_answer_stage {E Index} _.
Arguments run_evaluate_stage {E Index} _.
Arguments system_name {E Index} _.
Arguments post_add_wait_seconds {E Index} _.

(** The fields of [self] that [run] reads. *)
Record Pipeline := {
  use_checkpoint : bool;
  filter_categories : list cat_cfg;
}.

(** The state [run] works on; [w_completed] is [self.completed_stages]. *)
Record World (E : Type) := {
  w_heap : Heap;
  w_env : Env E;
  w_completed : gset string;
  w_trace : list event;
}.
Arguments w_heap {E} _.
Arguments w_env {E} _.
Arguments w_completed {E} _.
Arguments w_trace {E} _.

(** The dictionary [results]. *)
Record Results (Index : Type) := {
  r_index : option Index;
  r_search_results : option (list SearchResult);
  r_answer_results : option (list AnswerResult);
  r_eval_result : option EvaluationResult;
}.
Arguments r_index {Index} _.
Arguments r_search_results {Index} _.
Arguments r_answer_results {Index} _.
Arguments r_eval_result {Index} _.

(** A local variable of [run] that some branches leave unassigned. *)
Inductive pyvar (A : Type) :=
| Unbound
| Bound (a : A).
Arguments Unbound {A}.
Arguments Bound {A} a.

(** ** Pipeline: the orchestrator *)

Section Orchestrator.
Context {E Index : Type} (K : Collaborators E Index).

Abbreviation W := (World E).

Definition log (ev : event) : M W unit :=
  m_modify (λ w, {| w_heap := w_heap w; w_env := w_env w;
                    w_completed := w_completed w;
                    w_trace := w_trace w ++ [ev] |}).

Definition set_env (env : Env E) : M W unit :=
  m_modify (λ w, {| w_heap := w_heap w; w_env := env;
                    w_completed := w_completed w; w_trace := w_trace w |}).

Definition set_completed (c : gset string) : M W unit :=
  m_modify (λ w, {| w_heap := w_heap w; w_env := w_env w;
                    w_completed := c; w_trace := w_trace w |}).

(** Code that works on the objects only. *)
Definition on_heap {A} (m : M Heap A) : M W A :=
  λ w, let '(o, h) := m (w_heap w) in
       (o, {| w_heap := h; w_env := w_env w;
              w_completed := w_completed w; w_trace := w_trace w |}).

(** A call of a collaborator. *)
Definition call {A} (f : Env E → outcome A * Env E) : M W A :=
  λ w, let '(o, env) := f (w_env w) in
       (o, {| w_heap := w_heap w; w_env := env;
              w_completed := w_completed w; w_trace := w_trace w |}).

(** Reading a local variable. *)
Definition read_var {A} (name : string) (v : pyvar A) : M W A :=
  match v with
  | Bound a => m_ret a
  | Unbound =>
      m_raise (UnboundLocalError
        ("cannot access local variable '" ++ name ++
         "' where it is not associated with a value"))
  end.

(** [[f(x) for x in v]] where [v] may be [None]. *)
Definition comprehension {A B} (f : A → B) (v : option (list A)) : M W (list B) :=
  match v with
  | Some l => m_ret (f <$> l)
  | None => m_raise (TypeError "'NoneType' object is not iterable")
  end.

(** Truthiness of a payload that is [None] or a list. *)
Definition truthy {A} (v : option (list A)) : bool :=
  match v with
  | Some (_ :: _) => true
  | _ => false
  end.

(** *** Result store ([evaluation.src.utils.saver.ResultSaver]) *)

(** Modelled from the spec: [ResultSaver] is not among the sources.
    Section 4.4: [save] writes a named artifact, [load] reads it back,
    [exists] tells whether it is there. *)
Definition save_search_json (v : list SearchResultDict) : M W unit :=
  log (EvSaveJson "search_results.json") ;;;
  env <- m_gets w_env ;;
  set_env {| search_file := Some v; answer_file := answer_file env;
             eval_file := eval_file env; report_file := report_file env;
             checkpoint_file := checkpoint_file env; ext := ext env |}.

Definition save_answer_json (v : list AnswerResultDict) : M W unit :=
  log (EvSaveJson "answer_results.json") ;;;
  env <- m_gets w_env ;;
  set_env {| search_file := search_file env; answer_file := Some v;
             eval_file := eval_file env; report_file := report_file env;
             checkpoint_file := checkpoint_file env; ext := ext env |}.

Definition save_eval_json (v : EvalResultDict) : M W unit :=
  log (EvSaveJson "eval_results.json") ;;;
  env <- m_gets w_env ;;
  set_env {| search_file := search_file env; answer_file := answer_file env;
             eval_file := Some v; report_file := report_file env;
             checkpoint_file := checkpoint_file env; ext := ext env |}.

Definition write_report (v : Report) : M W unit :=
  log EvReport ;;;
  env <- m_gets w_env ;;
  set_env {| search_file := search_file env; answer_file := answer_file env;
             eval_file := eval_file env; report_file := Some v;
             checkpoint_file := checkpoint_file env; ext := ext env |}.

(** [file_exists] followed, when the file is there, by [load_json]. *)
Definition load_search_json : M W (option (list SearchResultDict)) :=
  log (EvFileExists "search_results.json") ;;;
  env <- m_gets w_env ;;
  match search_file env with
  | Some v => log (EvLoadJson "search_results.json") ;;; m_ret (Some v)
  | None => m_ret None
  end.

Definition load_answer_json : M W (option (list AnswerResultDict)) :=
  log (EvFileExists "answer_results.json") ;;;
  env <- m_gets w_env ;;
  match answer_file env with
  | Some v => log (EvLoadJson "answer_results.json") ;;; m_ret (Some v)
  | None => m_ret None
  end.

(** *** Checkpoint manager *)

(** Modelled from the spec: [CheckpointManager.load_checkpoint].
    Section 4.2: the record of the run name, or nothing. *)
Definition load_checkpoint : M W (option CheckpointRecord) :=
  log EvLoadCheckpoint ;;;
  env <- m_gets w_env ;;
  m_ret (checkpoint_file env).

(** Modelled from the spec: [CheckpointManager.save_checkpoint].
    Section 4.2: a save replaces the record as a whole; a result that is
    not supplied is not kept. *)
Definition save_checkpoint (stage : string) (completed_stages : gset string)
    (search_results : option (list SearchResultDict))
    (answer_results : option (list AnswerResultDict))
    (eval_results : option EvalResultDict) : M W unit :=
  let c := {| ck_completed_stages := completed_stages;
              ck_search_results := search_results;
              ck_answer_results := answer_results;
              ck_eval_results := eval_results |} in
  log (EvSaveCheckpoint stage c) ;;;
  env <- m_gets w_env ;;
  set_env {| search_file := search_file env; answer_file := answer_file env;
             eval_file := eval_file env; report_file := report_file env;
             checkpoint_file := Some c; ext := ext env |}.

(** *** The stages of [run] *)

Definition has_stage (s : string) (stages : list string) : bool :=
  bool_decide (s ∈ stages).

Definition is_completed (s : string) : M W bool :=
  c <- m_gets w_completed ;; m_ret (bool_decide (s ∈ c)).

Definition mark_completed (s : string) : M W unit :=
  c <- m_gets w_completed ;; set_completed (c ∪ {[ s ]}).

(** Lines 144-156: the two payloads recovered from the checkpoint. *)
Definition try_load_checkpoint (p : Pipeline)
  : M W (option (list SearchResultDict) * option (list AnswerResultDict)) :=
  if use_checkpoint p then
    checkpoint_data <- load_checkpoint ;;
    match checkpoint_data with
    | Some c =>
        set_completed (ck_completed_stages c) ;;;
        m_ret (ck_search_results c, ck_answer_results c)
    | None => m_ret (None, None)
    end
  else m_ret (None, None).

Definition set_index (r : Results Index) (i : Index) : Results Index :=
  {| r_index := Some i; r_search_results := r_search_results r;
     r_answer_results := r_answer_results r; r_eval_result := r_eval_result r |}.

Definition set_search_results (r : Results Index) (v : list SearchResult) : Results Index :=
  {| r_index := r_index r; r_search_results := Some v;
     r_answer_results := r_answer_results r; r_eval_result := r_eval_result r |}.

Definition set_answer_results (r : Results Index) (v : list AnswerResult) : Results Index :=
  {| r_index := r_index r; r_search_results := r_search_results r;
     r_answer_results := Some v; r_eval_result := r_eval_result r |}.

Definition set_eval_result (r : Results Index) (v : EvaluationResult) : Results Index :=
  {| r_index := r_index r; r_search_results := r_search_results r;
     r_answer_results := r_answer_results r; r_eval_result := Some v |}.

(** [self.adapter.build_lazy_index(dataset.conversations, self.output_dir)] *)
Definition rebuild_index (dataset : loc) (r : Results Index) : M W (Results Index) :=
  ds <- on_heap (Store.read_dataset dataset) ;;
  h <- m_gets w_heap ;;
  log EvBuildLazyIndex ;;;
  index <- call (build_lazy_index K h (conversations ds)) ;;
  m_ret (set_index r index).

(** The call of [run_add_stage], which is handed [self.completed_stages]
    and may change it. *)
Definition call_add_stage (h : Heap) (dataset : loc) : M W (option Index) :=
  λ w, let '(o, completed, env) :=
         run_add_stage K h dataset (w_completed w) (w_env w) in
       (o, {| w_heap := w_heap w; w_env := env;
              w_completed := completed; w_trace := w_trace w |}).

(** Lines 164-194.  Returns [results] and [add_just_completed]. *)
Definition stage_add (dataset : loc) (stages : list string) (r : Results Index)
  : M W (Results Index * bool) :=
  done <- is_completed "add" ;;
  if has_stage "add" stages && negb done then
    log (EvAddStage dataset) ;;;
    h <- m_gets w_heap ;;
    stage_results <- call_add_stage h dataset ;;
    log EvAddStageDone ;;;
    m_ret (match stage_results with
           | Some i => set_index r i
           | None => r
           end, true)
  else if done then
    r <- rebuild_index dataset r ;; m_ret (r, false)
  else
    r <- rebuild_index dataset r ;; m_ret (r, false).

(** [for i in range(wait_seconds): time.sleep(1)] *)
Fixpoint sleep_loop (n : nat) : M W unit :=
  match n with
  | O => m_ret tt
  | S n => log EvSleep ;;; sleep_loop n
  end.

(** Lines 196-225. *)
Definition post_add_wait (stages : list string) (add_just_completed : bool) : M W unit :=
  if add_just_completed then
    let wait_seconds := post_add_wait_seconds K in
    if (0 <? wait_seconds) && has_stage "search" stages
    then sleep_loop (Z.to_nat wait_seconds)
    else m_ret tt
  else m_ret tt.

(** The locals shared by the last three stages. *)
Record Locals := {
  l_results : Results Index;
  l_search_results_data : option (list SearchResultDict);
  l_answer_results_data : option (list AnswerResultDict);
  l_search_results : pyvar (option (list SearchResult));
  l_answer_results : pyvar (option (list AnswerResult));
}.

Definition bind_search (l : Locals) (v : list SearchResult) : Locals :=
  {| l_results := set_search_results (l_results l) v;
     l_search_results_data := l_search_results_data l;
     l_answer_results_data := l_answer_results_data l;
     l_search_results := Bound (Some v);
     l_answer_results := l_answer_results l |}.

Definition bind_answer (l : Locals) (v : list AnswerResult) : Locals :=
  {| l_results := set_answer_results (l_results l) v;
     l_search_results_data := l_search_results_data l;
     l_answer_results_data := l_answer_results_data l;
     l_search_results := l_search_results l;
     l_answer_results := Bound (Some v) |}.

Definition set_search_results_data (l : Locals) (v : list SearchResultDict) : Locals :=
  {| l_results := l_results l;
     l_search_results_data := Some v;
     l_answer_results_data := l_answer_results_data l;
     l_search_results := l_search_results l;
     l_answer_results := l_answer_results l |}.

Definition search_none (l : Locals) : Locals :=
  {| l_results := l_results l;
     l_search_results_data := l_search_results_data l;
     l_answer_results_data := l_answer_results_data l;
     l_search_results := Bound None;
     l_answer_results := l_answer_results l |}.

Definition answer_none (l : Locals) : Locals :=
  {| l_results := l_results l;
     l_search_results_data := l_search_results_data l;
     l_answer_results_data := l_answer_results_data l;
     l_search_results := l_search_results l;
     l_answer_results := Bound None |}.

Definition set_eval (l : Locals) (v : EvaluationResult) : Locals :=
  {| l_results := set_eval_result (l_results l) v;
     l_search_results_data := l_search_results_data l;
     l_answer_results_data := l_answer_results_data l;
     l_search_results := l_search_results l;
     l_answer_results := l_answer_results l |}.

(** Lines 227-277. *)
Definition stage_search (p : Pipeline) (dataset : loc) (stages : list string)
    (l : Locals) : M W Locals :=
  done <- is_completed "search" ;;
  if has_stage "search" stages && negb done then
    ds <- on_heap (Store.read_dataset dataset) ;;
    index <-
      match r_index (l_results l) with
      | Some i => m_ret i
      | None => m_raise (KeyError "'index'")
      end ;;
    h <- m_gets w_heap ;;
    log (EvSearchStage (qa_pairs ds)) ;;;
    search_results <-
      call (run_search_stage K h (qa_pairs ds) index (conversations ds)) ;;
    save_search_json (_search_result_to_dict <$> search_results) ;;;
    let l := bind_search l search_results in
    mark_completed "search" ;;;
    if use_checkpoint p then
      let search_results_data := _search_result_to_dict <$> search_results in
      completed <- m_gets w_completed ;;
      save_checkpoint "search" completed (Some search_results_data) None None ;;;
      m_ret (set_search_results_data l search_results_data)
    else m_ret l
  else if done then
    if truthy (l_search_results_data l) then
      m_ret (bind_search l
               (_dict_to_search_result <$> default [] (l_search_results_data l)))
    else
      search_data <- load_search_json ;;
      match search_data with
      | Some d => m_ret (bind_search l (_dict_to_search_result <$> d))
      | None => m_ret l
      end
  else if has_stage "answer" stages || has_stage "eval" stages then
    search_data <- load_search_json ;;
    match search_data with
    | Some d => m_ret (bind_search l (_dict_to_search_result <$> d))
    | None =>
        m_raise (FileNotFoundError
                   "Search results not found. Please run 'search' stage first.")
    end
  else m_ret (search_none l).

(** The argument [search_results=...] of the last two checkpoint saves. *)
Definition search_payload (l : Locals) : M W (list SearchResultDict) :=
  if truthy (l_search_results_data l)
  then m_ret (default [] (l_search_results_data l))
  else
    search_results <- read_var "search_results" (l_search_results l) ;;
    comprehension _search_result_to_dict search_results.

(** Lines 279-329. *)
Definition stage_answer (p : Pipeline) (dataset : loc) (stages : list string)
    (l : Locals) : M W Locals :=
  done <- is_completed "answer" ;;
  if has_stage "answer" stages && negb done then
    ds <- on_heap (Store.read_dataset dataset) ;;
    search_results <- read_var "search_results" (l_search_results l) ;;
    log (EvAnswerStage (qa_pairs ds) search_results) ;;;
    answer_results <- call (run_answer_stage K (qa_pairs ds) search_results) ;;
    save_answer_json (_answer_result_to_dict <$> answer_results) ;;;
    let l := bind_answer l answer_results in
    mark_completed "answer" ;;;
    if use_checkpoint p then
      let answer_results_dict := _answer_result_to_dict <$> answer_results in
      completed <- m_gets w_completed ;;
      search_arg <- search_payload l ;;
      save_checkpoint "answer" completed (Some search_arg) (Some answer_results_dict) None ;;;
      m_ret l
    else m_ret l
  else if done then
    if truthy (l_answer_results_data l) then
      m_ret (bind_answer l
               (_dict_to_answer_result <$> default [] (l_answer_results_data l)))
    else
      answer_data <- load_answer_json ;;
      match answer_data with
      | Some d => m_ret (bind_answer l (_dict_to_answer_result <$> d))
      | None => m_ret l
      end
  else if has_stage "evaluate" stages then
    answer_data <- load_answer_json ;;
    match answer_data with
    | Some d => m_ret (bind_answer l (_dict_to_answer_result <$> d))
    | None =>
        m_raise (FileNotFoundError
                   "Answer results not found. Please run 'answer' stage first.")
    end
  else m_ret (answer_none l).

(** Lines 331-356. *)
Definition stage_evaluate (p : Pipeline) (stages : list string) (l : Locals)
  : M W Locals :=
  done <- is_completed "evaluate" ;;
  if has_stage "evaluate" stages && negb done then
    answer_results <- read_var "answer_results" (l_answer_results l) ;;
    log (EvEvaluateStage answer_results) ;;;
    eval_result <- call (run_evaluate_stage K answer_results) ;;
    save_eval_json (_eval_result_to_dict eval_result) ;;;
    let l := set_eval l eval_result in
    mark_completed "evaluate" ;;;
    if use_checkpoint p then
      completed <- m_gets w_completed ;;
      search_arg <- search_payload l ;;
      answer_arg <-
        (if truthy (l_answer_results_data l)
         then m_ret (default [] (l_answer_results_data l))
         else comprehension _answer_result_to_dict answer_results) ;;
      save_checkpoint "evaluate" completed (Some search_arg) (Some answer_arg)
        (Some (_eval_result_to_dict eval_result)) ;;;
      m_ret l
    else m_ret l
  else m_ret l.

(** [Pipeline._generate_report] *)
Definition _generate_report (r : Results Index) (elapsed_time : float) : M W unit :=
  write_report
    {| rp_system := system_name K;
       rp_elapsed := elapsed_time;
       rp_eval :=
         match r_eval_result r with
         | Some er => Some (total_questions er, correct er, accuracy er)
         | None => None
         end |}.

(** Lines 144-362: everything after the pre-processing. *)
Definition run_stages (p : Pipeline) (dataset : loc) (stages : option (list string))
    (elapsed_time : float) : M W (Results Index) :=
  payloads <- try_load_checkpoint p ;;
  let '(search_results_data, answer_results_data) := payloads in
  let stages := default ["add"; "search"; "answer"; "evaluate"] stages in
  let results :=
    {| r_index := None; r_search_results := None;
       r_answer_results := None; r_eval_result := None |} in
  added <- stage_add dataset stages results ;;
  let '(results, add_just_completed) := added in
  post_add_wait stages add_just_completed ;;;
  l <- stage_search p dataset stages
         {| l_results := results;
            l_search_results_data := search_results_data;
            l_answer_results_data := answer_results_data;
            l_search_results := Unbound;
            l_answer_results := Unbound |} ;;
  l <- stage_answer p dataset stages l ;;
  l <- stage_evaluate p stages l ;;
  _generate_report (l_results l) elapsed_time ;;;
  m_ret (l_results l).

(** [Pipeline.run].  [elapsed_time] stands for the two clock readings. *)
Definition run (p : Pipeline) (dataset : loc) (stages : option (list string))
    (smoke_test : bool) (smoke_messages smoke_questions : Z)
    (elapsed_time : float) : M W (Results Index) :=
  dataset <- on_heap (preprocess (filter_categories p) dataset
                        smoke_test smoke_messages smoke_questions) ;;
  run_stages p dataset stages elapsed_time.

End Orchestrator.

(** ** Memu adapter: single-perspective search *)

Module Memu.

(** What the code uses of a [requests.Response]: what
    [raise_for_status()] raises, if anything, and what [json()] returns
    or raises. *)
Record Response := {
  raise_for_status : option exn;
  json_body : outcome json;
}.

Record Request := {
  rq_url : string;
  rq_headers : list (string * string);
  rq_json : json;
}.

(** The fields of [self] that the methods below read. *)
Record MemuAdapter := {
  base_url : string;
  agent_id : string;
  agent_name : string;
  max_retries : Z;
  headers : list (string * string);
  _prompts : json;
}.

(** The network, of state [N], the lines printed on the console and the
    arguments of the calls of [time.sleep]. *)
Record World (N : Type) := {
  net : N;
  console : list string;
  slept : list Z;
}.
Arguments net {N} _.
Arguments console {N} _.
Arguments slept {N} _.

(** [try: body except Exception as e: handler(e)]: an object that is not
    an [Exception] passes through. *)
Definition try_except {S A} (body : M S A) (handler : exn → M S A) : M S A :=
  λ s, match body s with
       | (Raise (PyException cls msg), s') => handler (PyException cls msg) s'
       | r => r
       end.

(** [type(v).__name__] *)
Definition py_type_name (v : json) : string :=
  match v with
  | JNull => "NoneType"
  | JBool _ => "bool"
  | JInt _ => "int"
  | JFloat _ => "float"
  | JStr _ => "str"
  | JList _ => "list"
  | JDict _ => "dict"
  end.

(** [bool(v)] *)
Definition py_truthy (v : json) : bool :=
  match v with
  | JNull => false
  | JBool b => b
  | JInt z => negb (z =? 0)
  | JFloat f => negb (f =? 0)%float
  | JStr s => negb (String.eqb s "")
  | JList l => match l with [] => false | _ => true end
  | JDict kvs => match kvs with [] => false | _ => true end
  end.

Fixpoint assoc (k : string) (kvs : list (string * json)) : option json :=
  match kvs with
  | [] => None
  | (k', v) :: kvs => if String.eqb k k' then Some v else assoc k kvs
  end.

(** [d.get(key, default)]; only a dictionary has the method. *)
Definition dict_get {S} (d : json) (key : string) (dflt : json) : M S json :=
  match d with
  | JDict kvs => m_ret (default dflt (assoc key kvs))
  | _ => m_raise (AttributeError
                    ("'" ++ py_type_name d ++ "' object has no attribute 'get'"))
  end.

(** [d[key]] for a string [key]. *)
Definition getitem_str {S} (d : json) (key : string) : M S json :=
  match d with
  | JDict kvs =>
      match assoc key kvs with
      | Some v => m_ret v
      | None => m_raise (KeyError ("'" ++ key ++ "'"))
      end
  | JList _ =>
      m_raise (TypeError "list indices must be integers or slices, not str")
  | JStr _ =>
      m_raise (TypeError "string indices must be integers, not 'str'")
  | _ => m_raise (TypeError
                    ("'" ++ py_type_name d ++ "' object is not subscriptable"))
  end.

Fixpoint chars (s : string) : list json :=
  match s with
  | EmptyString => []
  | String c r => JStr (String c EmptyString) :: chars r
  end.

(** The items a [for] loop draws from a value. *)
Definition py_iter {S} (v : json) : M S (list json) :=
  match v with
  | JList l => m_ret l
  | JStr s => m_ret (chars s)
  | JDict kvs => m_ret ((λ kv, JStr kv.1) <$> kvs)
  | _ => m_raise (TypeError
                    ("'" ++ py_type_name v ++ "' object is not iterable"))
  end.

Fixpoint m_map {S A B} (f : A → M S B) (l : list A) : M S (list B) :=
  match l with
  | [] => m_ret []
  | x :: l => y <- f x ;; ys <- m_map f l ;; m_ret (y :: ys)
  end.

(** [l[:k]] *)
Definition py_slice_to {A} (k : Z) (l : list A) : list A :=
  if 0 <=? k then take (Z.to_nat k) l
  else take (Z.to_nat (py_len l + k)) l.

(** [range(n)] *)
Definition py_range (n : Z) : list Z := Z.of_nat <$> seq 0 (Z.to_nat n).

(** [s.split("T")[0]] when ["T" in s], and [s] otherwise. *)
Fixpoint before_T (s : string) : string :=
  match s with
  | EmptyString => EmptyString
  | String c r => if Ascii.eqb c "T"%char then EmptyString else String c (before_T r)
  end.

Definition is_T (v : json) : bool :=
  match v with JStr s => String.eqb s "T" | _ => false end.

(** [str.lower] on the letters of ASCII.  The other bytes of the text
    stay: the methods below only ask whether the lowered text starts
    with "user" or "assistant". *)
Definition ascii_lower (c : ascii) : ascii :=
  let n := nat_of_ascii c in
  if (65 <=? n)%nat && (n <=? 90)%nat then ascii_of_nat (n + 32) else c.

Fixpoint py_lower (s : string) : string :=
  match s with
  | EmptyString => EmptyString
  | String c r => String (ascii_lower c) (py_lower r)
  end.

(** The inner function [is_standard_role] of [_need_dual_perspective]. *)
Definition is_standard_role (speaker : string) : bool :=
  let speaker := py_lower speaker in
  if bool_decide (speaker ∈ ["user"; "assistant"]) then true
  else if String.prefix "user" speaker || String.prefix "assistant" speaker
  then true
  else false.

(** [MemuAdapter._need_dual_perspective] *)
Definition _need_dual_perspective (speaker_a speaker_b : string) : bool :=
  negb (is_standard_role speaker_a && is_standard_role speaker_b).

Section Adapter.
Context {N : Type}.
(** [requests.post] *)
Variable requests_post : Request → N → outcome Response * N.
(** The builtin [str] on decoded values, as the f-strings apply it. *)
Variable py_str : json → string.

Definition post (rq : Request) : M (World N) Response :=
  λ w, let '(o, n) := requests_post rq (net w) in
       (o, {| net := n; console := console w; slept := slept w |}).

Definition console_print (line : string) : M (World N) unit :=
  m_modify (λ w, {| net := net w; console := console w ++ [line];
                    slept := slept w |}).

Definition time_sleep (seconds : Z) : M (World N) unit :=
  m_modify (λ w, {| net := net w; console := console w;
                    slept := slept w ++ [seconds] |}).

(** [response.raise_for_status()] followed by [response.json()]. *)
Definition decode (response : Response) : M (World N) json :=
  match raise_for_status response with
  | Some e => m_raise e
  | None =>
      match json_body response with
      | Ret result => m_ret result
      | Raise e => m_raise e
      end
  end.

(** *** Ingestion of one perspective *)

Section AddSingleUser.
(** [self._conversation_to_messages], of the base class. *)
Variable _conversation_to_messages : Conversation → string → string → outcome json.
(** [datetime.isoformat], on the text that stands for the timestamp. *)
Variable isoformat : string → string.

(** [base_messages[i]] *)
Definition getitem_int (v : json) (i : nat) : M (World N) json :=
  match v with
  | JList l =>
      match l !! i with
      | Some x => m_ret x
      | None => m_raise (IndexError "list index out of range")
      end
  | JStr s =>
      match chars s !! i with
      | Some x => m_ret x
      | None => m_raise (IndexError "string index out of range")
      end
  | JDict kvs =>
      m_raise (KeyError (py_str_int (Z.of_nat i)))
  | _ => m_raise (TypeError
                    ("'" ++ py_type_name v ++ "' object is not subscriptable"))
  end.

(** The body of the loop over [conv.messages]. *)
Definition conversation_message (base_messages : json) (user_name : string)
    (i : nat) (msg : Message) : M (World N) json :=
  let msg_time :=
    match timestamp msg with
    | Some t => JStr (isoformat t ++ "Z")
    | None => JNull
    end in
  base <- getitem_int base_messages i ;;
  role <- getitem_str base "role" ;;
  let name := if String.eqb (speaker_name msg) "" then user_name
              else speaker_name msg in
  base <- getitem_int base_messages i ;;
  content <- getitem_str base "content" ;;
  m_ret (JDict [("role", role); ("name", JStr name); ("time", msg_time);
                ("content", content)]).

Fixpoint conversation_messages (base_messages : json) (user_name : string)
    (i : nat) (msgs : list Message) : M (World N) (list json) :=
  match msgs with
  | [] => m_ret []
  | msg :: msgs =>
      m <- conversation_message base_messages user_name i msg ;;
      ms <- conversation_messages base_messages user_name (S i) msgs ;;
      m_ret (m :: ms)
  end.

(** The request of the [try] block of the retry loop. *)
Definition memorize_request (self : MemuAdapter) (payload : json) : Request :=
  {| rq_url := base_url self ++ "/api/v1/memory/memorize";
     rq_headers := headers self;
     rq_json := payload |}.

(** The [try] block: submit, check, decode, read the task id, report. *)
Definition submit (self : MemuAdapter) (payload : json) : M (World N) json :=
  response <- post (memorize_request self payload) ;;
  result <- decode response ;;
  task_id <- dict_get result "task_id" JNull ;;
  status <- dict_get result "status" JNull ;;
  console_print ("      ✅ Task created: " ++ py_str task_id ++
                 " (status: " ++ py_str status ++ ")") ;;;
  m_ret task_id.

(** [for attempt in range(self.max_retries)], the attempts left being
    [attempts].  A normal end of the [try] block leaves the loop with
    the task id; the loop that runs out leaves [task_id] as it was,
    [None]. *)
Fixpoint retry_loop (self : MemuAdapter) (payload : json) (attempts : list Z)
  : M (World N) json :=
  match attempts with
  | [] => m_ret JNull
  | attempt :: attempts =>
      r <- try_except
             (task_id <- submit self payload ;; m_ret (Some task_id))
             (λ e,
                if attempt <? max_retries self - 1 then
                  console_print ("      ⚠️  Retry " ++ py_str_int (attempt + 1) ++
                                 "/" ++ py_str_int (max_retries self) ++ ": " ++
                                 exn_str e) ;;;
                  time_sleep (2 ^ attempt) ;;;
                  m_ret None
                else
                  console_print ("      ❌ Failed after " ++
                                 py_str_int (max_retries self) ++
                                 " retries: " ++ exn_str e) ;;;
                  m_raise e) ;;
      match r with
      | Some task_id => m_ret task_id
      | None => retry_loop self payload attempts
      end
  end.

(** The payload of the request. *)
Definition memorize_payload (self : MemuAdapter) (conversation_messages : list json)
    (user_id user_name session_date : string) : json :=
  JDict [("conversation", JList conversation_messages);
         ("user_id", JStr user_id);
         ("user_name", JStr user_name);
         ("agent_id", JStr (agent_id self));
         ("agent_name", JStr (agent_name self));
         ("session_date", JStr session_date)].

(** [MemuAdapter._add_single_user] *)
Definition _add_single_user (self : MemuAdapter) (conv : Conversation)
    (user_id user_name session_date perspective : string) : M (World N) json :=
  base_messages <-
    (match _conversation_to_messages conv "basic" perspective with
     | Ret v => m_ret v
     | Raise e => m_raise e
     end) ;;
  conversation_messages <-
    conversation_messages base_messages user_name 0 (messages conv) ;;
  console_print ("   📤 Adding for " ++ user_name ++ " (" ++ user_id ++ "): " ++
                 py_str_int (py_len conversation_messages) ++ " messages") ;;;
  retry_loop self
    (memorize_payload self conversation_messages user_id user_name session_date)
    (py_range (max_retries self)).

End AddSingleUser.

(** *** Retrieval *)

(** [happened_at.split("T")[0] if "T" in happened_at else happened_at],
    as the text that ends in the context. *)
Definition date_str (happened_at : json) : M (World N) string :=
  match happened_at with
  | JStr s => m_ret (before_T s)
  | JList l =>
      if existsb is_T l
      then m_raise (AttributeError "'list' object has no attribute 'split'")
      else m_ret (py_str happened_at)
  | JDict kvs =>
      if existsb (λ kv, String.eqb kv.1 "T") kvs
      then m_raise (AttributeError "'dict' object has no attribute 'split'")
      else m_ret (py_str happened_at)
  | _ => m_raise (TypeError
                    ("argument of type '" ++ py_type_name happened_at ++
                     "' is not iterable"))
  end.

(** One round of the loop of [_build_memu_context], which is also the
    loop of [_build_dual_perspective_context]. *)
Definition memory_text (idx : Z) (result : json) : M (World N) string :=
  content <- dict_get result "content" (JStr "") ;;
  metadata <- dict_get result "metadata" (JDict []) ;;
  happened_at <- dict_get metadata "happened_at" (JStr "") ;;
  category <- dict_get metadata "category" (JStr "") ;;
  let memory_text := py_str_int idx ++ ". " ++ py_str content in
  date_part <-
    (if py_truthy happened_at
     then d <- date_str happened_at ;; m_ret ["Date: " ++ d]
     else m_ret []) ;;
  let category_part :=
    if py_truthy category then ["Category: " ++ py_str category] else [] in
  let metadata_parts := app date_part category_part in
  m_ret (match metadata_parts with
         | [] => memory_text
         | _ => memory_text ++ " (" ++ String.concat ", " metadata_parts ++ ")"
         end).

Fixpoint enumerate_from {A} (start : Z) (l : list A) : list (Z * A) :=
  match l with
  | [] => []
  | x :: l => (start, x) :: enumerate_from (start + 1) l
  end.

Definition newline : string := String "010" EmptyString.

(** [MemuAdapter._build_memu_context] *)
Definition _build_memu_context (search_results : list json) : M (World N) string :=
  match search_results with
  | [] => m_ret ""
  | _ =>
      context_parts <-
        m_map (λ ir, memory_text ir.1 ir.2)
              (enumerate_from 1 (take 10 search_results)) ;;
      m_ret (String.concat (newline ++ newline) context_parts)
  end.

(** The body of the loop over [related_memories]. *)
Definition convert_item (user_id : string) (item : json) : M (World N) json :=
  memory <- dict_get item "memory" (JDict []) ;;
  content <- dict_get memory "content" (JStr "") ;;
  score <- dict_get item "similarity_score" (JFloat 0) ;;
  id <- dict_get memory "memory_id" (JStr "") ;;
  category <- dict_get memory "category" (JStr "") ;;
  created_at <- dict_get memory "created_at" (JStr "") ;;
  happened_at <- dict_get memory "happened_at" (JStr "") ;;
  m_ret (JDict [("content", content);
                ("score", score);
                ("user_id", JStr user_id);
                ("metadata",
                 JDict [("id", id);
                        ("category", category);
                        ("created_at", created_at);
                        ("happened_at", happened_at)])]).

(** The request of the [try] block: [url], [self.headers] and [payload]. *)
Definition search_request (self : MemuAdapter) (query user_id : string)
    (top_k : Z) (min_similarity : float) : Request :=
  {| rq_url := base_url self ++ "/api/v1/memory/retrieve/related-memory-items";
     rq_headers := headers self;
     rq_json :=
       JDict [("user_id", JStr user_id);
              ("agent_id", JStr (agent_id self));
              ("query", JStr query);
              ("top_k", JInt top_k);
              ("min_similarity", JFloat min_similarity)] |}.

(** The [try] block: build the request, post it, check the status,
    decode the body. *)
Definition request_memories (self : MemuAdapter) (query user_id : string)
    (top_k : Z) (min_similarity : float) : M (World N) json :=
  response <- post (search_request self query user_id top_k min_similarity) ;;
  decode response.

(** [MemuAdapter._search_single_perspective].  The handler returns from
    the function: [inr] carries its result past the rest. *)
Definition _search_single_perspective (self : MemuAdapter)
    (query conversation_id user_id : string) (top_k : Z)
    (min_similarity : float) : M (World N) SearchResult :=
  attempt <-
    try_except
      (result <- request_memories self query user_id top_k min_similarity ;;
       m_ret (inl result))
      (λ e,
         console_print ("❌ Memu search error: " ++ exn_str e) ;;;
         m_ret (inr {| query := query;
                       sr_conversation_id := conversation_id;
                       results := [];
                       retrieval_metadata :=
                         JDict [("error", JStr (exn_str e));
                                ("user_ids", JList [JStr user_id])] |})) ;;
  match attempt with
  | inr early => m_ret early
  | inl result =>
      related_memories <- dict_get result "related_memories" (JList []) ;;
      items <- py_iter related_memories ;;
      search_results <- m_map (convert_item user_id) items ;;
      formatted_context <- _build_memu_context search_results ;;
      total_found <- dict_get result "total_found"
                       (JInt (py_len search_results)) ;;
      m_ret {| query := query;
               sr_conversation_id := conversation_id;
               results := search_results;
               retrieval_metadata :=
                 JDict [("system", JStr "memu");
                        ("user_ids", JList [JStr user_id]);
                        ("top_k", JInt top_k);
                        ("min_similarity", JFloat min_similarity);
                        ("total_found", total_found);
                        ("formatted_context", JStr formatted_context)] |}
  end.

(** *** Retrieval from two perspectives *)

Section DualPerspective.
(** [all_results.sort(key=lambda x: x.get("score", 0), reverse=True)],
    as the list it leaves. *)
Variable sort_by_score : list json → outcome (list json).
(** [template.format(speaker_1=..., speaker_1_memories=..., speaker_2=...,
    speaker_2_memories=...)] *)
Variable str_format : json → string → string → string → string → outcome string.

(** The memories of one speaker, as the template receives them. *)
Definition speaker_memories (results : list json) : M (World N) string :=
  memories <-
    (match results with
     | [] => m_ret []
     | _ => m_map (λ ir, memory_text ir.1 ir.2)
                  (enumerate_from 1 (take 5 results))
     end) ;;
  m_ret (match memories with
         | [] => "(No memories found)"
         | _ => String.concat newline memories
         end).

(** [self._prompts["online_api"].get("templates", {}).get("default", "")] *)
Definition default_template (self : MemuAdapter) : M (World N) json :=
  online_api <- getitem_str (_prompts self) "online_api" ;;
  templates <- dict_get online_api "templates" (JDict []) ;;
  dict_get templates "default" (JStr "").

(** [MemuAdapter._build_dual_perspective_context] *)
Definition _build_dual_perspective_context (self : MemuAdapter)
    (speaker_a speaker_b : string) (results_a results_b : list json)
  : M (World N) string :=
  speaker_a_memories_text <- speaker_memories results_a ;;
  speaker_b_memories_text <- speaker_memories results_b ;;
  template <- default_template self ;;
  match str_format template speaker_a speaker_a_memories_text
          speaker_b speaker_b_memories_text with
  | Ret text => m_ret text
  | Raise e => m_raise e
  end.

(** [MemuAdapter._search_dual_perspective] *)
Definition _search_dual_perspective (self : MemuAdapter)
    (query conversation_id speaker_a speaker_b
       speaker_a_user_id speaker_b_user_id : string)
    (top_k : Z) (min_similarity : float) : M (World N) SearchResult :=
  result_a <- _search_single_perspective self query conversation_id
                speaker_a_user_id top_k min_similarity ;;
  result_b <- _search_single_perspective self query conversation_id
                speaker_b_user_id top_k min_similarity ;;
  all_results <-
    (match sort_by_score (app (results result_a) (results result_b)) with
     | Ret l => m_ret l
     | Raise e => m_raise e
     end) ;;
  let all_results := py_slice_to top_k all_results in
  formatted_context <-
    _build_dual_perspective_context self speaker_a speaker_b
      (results result_a) (results result_b) ;;
  m_ret {| query := query;
           sr_conversation_id := conversation_id;
           results := all_results;
           retrieval_metadata :=
             JDict [("system", JStr "memu");
                    ("user_ids", JList [JStr speaker_a_user_id;
                                        JStr speaker_b_user_id]);
                    ("top_k", JInt top_k);
                    ("min_similarity", JFloat min_similarity);
                    ("total_found", JInt (py_len all_results));
                    ("formatted_context", JStr formatted_context);
                    ("dual_perspective", JBool true)] |}.

End DualPerspective.

End Adapter.

End Memu.

(** ** Vocabulary of the statements *)

(** The stages [run] works with once [stages is None] is resolved. *)
Definition requested (stages : option (list string)) : list string :=
  default ["add"; "search"; "answer"; "evaluate"] stages.

(** [self.completed_stages] as it stands after lines 144-156: the set of
    the checkpoint when checkpointing is on and a checkpoint exists, the
    set the object already held otherwise. *)
Definition effective_completed {E} (p : Pipeline) (w : World E) : gset string :=
  if use_checkpoint p then
    match checkpoint_file (w_env w) with
    | Some c => ck_completed_stages c
    | None => w_completed w
    end
  else w_completed w.

(** The search results a later run can recover: the payload of the
    checkpoint when it is a non-empty list, the persisted artifact
    otherwise. *)
Definition recovered_search {E} (p : Pipeline) (env : Env E) : option (list SearchResult) :=
  let payload :=
    if use_checkpoint p then
      match checkpoint_file env with
      | Some c => ck_search_results c
      | None => None
      end
    else None in
  match payload with
  | Some (d :: ds) => Some (_dict_to_search_result <$> (d :: ds))
  | _ =>
      match search_file env with
      | Some l => Some (_dict_to_search_result <$> l)
      | None => None
      end
  end.

Definition is_sleep (ev : event) : bool :=
  match ev with EvSleep => true | _ => false end.

Definition is_add_or_search (ev : event) : bool :=
  match ev with EvAddStage _ | EvSearchStage _ => true | _ => false end.

Definition is_evaluate (ev : event) : bool :=
  match ev with EvEvaluateStage _ => true | _ => false end.


(** The index rebuild writes no result artifact and no checkpoint. *)
Definition index_rebuild_keeps_store {E Index} (K : Collaborators E Index) : Prop :=
  ∀ h cs env,
    search_file (build_lazy_index K h cs env).2 = search_file env ∧
    answer_file (build_lazy_index K h cs env).2 = answer_file env ∧
    checkpoint_file (build_lazy_index K h cs env).2 = checkpoint_file env.

(** The part of [run] an event comes from. *)
Definition origin (ev : event) : string :=
  let of_file (name : string) : string :=
    if String.eqb name "search_results.json" then "search"
    else if String.eqb name "answer_results.json" then "answer"
    else if String.eqb name "eval_results.json" then "evaluate"
    else "" in
  match ev with
  | EvLoadCheckpoint => "checkpoint"
  | EvAddStage _ | EvAddStageDone | EvBuildLazyIndex => "add"
  | EvSleep => "wait"
  | EvSearchStage _ => "search"
  | EvAnswerStage _ _ => "answer"
  | EvEvaluateStage _ => "evaluate"
  | EvFileExists name | EvLoadJson name | EvSaveJson name => of_file name
  | EvSaveCheckpoint stage _ => stage
  | EvReport => "report"
  end.

(** The gate of the post-add wait, as a property of the record of a run
    that started in [w0]: [EvAddStageDone] is there only when Add was
    requested and not completed, and [EvSleep] is there exactly when
    [EvAddStageDone] is and the wait is due. *)
Definition wait_due {E Index} (K : Collaborators E Index)
    (stages : option (list string)) : Prop :=
  0 < post_add_wait_seconds K ∧ "search" ∈ requested stages.

Definition add_ran {E} (p : Pipeline) (stages : option (list string))
    (w0 : World E) (t : list event) : Prop :=
  EvAddStageDone ∈ t →
  "add" ∈ requested stages ∧ "add" ∉ effective_completed p w0.

Definition wait_gated {E Index} (K : Collaborators E Index) (p : Pipeline)
    (stages : option (list string)) (w0 : World E) (t : list event) : Prop :=
  (EvSleep ∈ t ↔ EvAddStageDone ∈ t ∧ wait_due K stages) ∧ add_ran p stages w0 t.

(** Assertions on a computation: from a state in [P], a normal end
    satisfies [Q] and an exceptional one [X]. *)
Definition hoare {S A} (P : S → Prop) (m : M S A) (Q : A → S → Prop)
    (X : S → Prop) : Prop :=
  ∀ s, P s → match m s with (Ret a, s') => Q a s' | (Raise _, s') => X s' end.

(** The computation only adds events that satisfy [P] to the record. *)
Definition appends {E A} (P : event → Prop) (m : M (World E) A) : Prop :=
  ∀ w, ∃ t, w_trace (m w).2 = (w_trace w ++ t)%list ∧ Forall P t.

(** Updates of the world, to state what a part of [run] leaves. *)
Definition logged {E} (t : list event) (w : World E) : World E :=
  {| w_heap := w_heap w; w_env := w_env w;
     w_completed := w_completed w; w_trace := (w_trace w ++ t)%list |}.

Definition with_env {E} (env : Env E) (w : World E) : World E :=
  {| w_heap := w_heap w; w_env := env;
     w_completed := w_completed w; w_trace := w_trace w |}.

Definition with_completed {E} (c : gset string) (w : World E) : World E :=
  {| w_heap := w_heap w; w_env := w_env w;
     w_completed := c; w_trace := w_trace w |}.

(** What lines 144-156 recover from the checkpoint. *)
Definition checkpoint_payloads {E} (p : Pipeline) (w : World E)
  : option (list SearchResultDict) * option (list AnswerResultDict) :=
  if use_checkpoint p then
    match checkpoint_file (w_env w) with
    | Some c => (ck_search_results c, ck_answer_results c)
    | None => (None, None)
    end
  else (None, None).

(** The last three stages and the report. *)
Definition tail_stages {E Index} (K : Collaborators E Index) (p : Pipeline)
    (d : loc) (stages : list string) (elapsed : float)
    (l : Locals (Index:=Index)) : M (World E) (Results Index) :=
  l <- stage_search K p d stages l ;;
  l <- stage_answer K p d stages l ;;
  l <- stage_evaluate K p stages l ;;
  _generate_report K (l_results l) elapsed ;;;
  m_ret (l_results l).

(** The world and the locals that the last three stages start from when
    Add is not executed and the index rebuild returns [i], leaving
    [env]. *)
Definition resumed_world {E} (p : Pipeline) (env : Env E) (w : World E) : World E :=
  with_env env
    (logged [EvBuildLazyIndex]
       (with_completed (effective_completed p w)
          (logged (if use_checkpoint p then [EvLoadCheckpoint] else []) w))).

Definition resumed_locals {E Index} (p : Pipeline) (i : Index) (w : World E)
  : Locals (Index:=Index) :=
  {| l_results := {| r_index := Some i; r_search_results := None;
                     r_answer_results := None; r_eval_result := None |};
     l_search_results_data := (checkpoint_payloads p w).1;
     l_answer_results_data := (checkpoint_payloads p w).2;
     l_search_results := Unbound;
     l_answer_results := Unbound |}.

(** The world after the pre-processing of a run that started in [w],
    the pre-processing having left the objects as [h]. *)
Definition preprocessed {E} (h : Heap) (w : World E) : World E :=
  {| w_heap := h; w_env := w_env w;
     w_completed := w_completed w; w_trace := [] |}.

(** The stage whose executor an event is the call of. *)
Definition stage_called (ev : event) : option string :=
  match ev with
  | EvAddStage _ => Some "add"
  | EvSearchStage _ => Some "search"
  | EvAnswerStage _ _ => Some "answer"
  | EvEvaluateStage _ => Some "evaluate"
  | _ => None
  end.

(** Calls of the checkpoint manager. *)
Definition is_checkpoint_call (ev : event) : bool :=
  match ev with
  | EvLoadCheckpoint | EvSaveCheckpoint _ _ => true
  | _ => false
  end.

(** The place of an event in the order of [run]. *)
Definition rank (ev : event) : nat :=
  match ev with
  | EvLoadCheckpoint => 0
  | EvAddStage _ | EvAddStageDone | EvBuildLazyIndex => 1
  | EvSleep => 2
  | EvSearchStage _ => 3
  | EvAnswerStage _ _ => 4
  | EvEvaluateStage _ => 5
  | EvFileExists name | EvLoadJson name | EvSaveJson name =>
      if String.eqb name "search_results.json" then 3
      else if String.eqb name "answer_results.json" then 4
      else 5
  | EvSaveCheckpoint stage _ =>
      if String.eqb stage "search" then 3
      else if String.eqb stage "answer" then 4
      else 5
  | EvReport => 6
  end%nat.

(** The record is in the order of [run]: an event never comes after one
    of a later place. *)
Definition in_order (t : list event) : Prop :=
  ∀ i j a b,
    (i < j)%nat → t !! i = Some a → t !! j = Some b → (rank a ≤ rank b)%nat.

(** In order, and nothing later than place [n]. *)
Definition ordered_upto (n : nat) (t : list event) : Prop :=
  in_order t ∧ Forall (λ ev, (rank ev ≤ n)%nat) t.


(** The computation only adds to [self.completed_stages]. *)
Definition keeps_completed {E A} (m : M (World E) A) : Prop :=
  ∀ w, w_completed w ⊆ w_completed (m w).2.

(** The executors called in the record are those of stages outside [c]. *)
Definition calls_outside (c : gset string) (t : list event) : Prop :=
  Forall (λ ev, ∀ s, stage_called ev = Some s → s ∉ c) t.

(** The world a run starts in: same objects, environment and
    [self.completed_stages], with an empty record of events. *)
Definition fresh_trace {E} (w : World E) : World E :=
  {| w_heap := w_heap w; w_env := w_env w;
     w_completed := w_completed w; w_trace := [] |}.

(** The pre-processing leaves the caller's dataset as it was: the object
    [dataset] and the conversations it lists read the same afterwards. *)
Definition leaves_dataset_unchanged (filter_categories : list cat_cfg)
    (dataset : loc) (smoke_test : bool) (smoke_messages smoke_questions : Z)
    (h : Heap) : Prop :=
  ∀ dataset' h',
    preprocess filter_categories dataset smoke_test smoke_messages smoke_questions h
      = (Ret dataset', h') →
    h_datasets h' !! dataset = h_datasets h !! dataset ∧
    ∀ ds c, h_datasets h !! dataset = Some ds → c ∈ conversations ds →
            h_convs h' !! c = h_convs h !! c.

(** The pieces of the heap that the pre-processing builds, named for the
    lemmas that compute it. *)
Definition truncated_conversation (nm : Z) (conv : Conversation) : Conversation :=
  if 0 <? nm then set_messages conv (py_prefix nm (messages conv)) else conv.

Definition selected_questions (nq : Z) (conv : Conversation) (ds : Dataset)
  : list QAPair :=
  let l := filter (qa_of_conv (conversation_id conv)) (qa_pairs ds) in
  if 0 <? nq then py_prefix nq l else l.

Definition smoke_dataset (nm nq : Z) (conv : Conversation) (ds : Dataset)
    (c : loc) : Dataset :=
  {| dataset_name := dataset_name ds ++ "_smoke";
     conversations := [c];
     qa_pairs := selected_questions nq conv ds;
     metadata :=
       <["smoke_questions" :=
           PyInt (if 0 <? nq then nq else py_len (selected_questions nq conv ds))]>
       (<["smoke_messages" :=
           PyInt (if 0 <? nm then nm
                  else py_len (messages (truncated_conversation nm conv)))]>
       (<["smoke_test" := PyBool true]> (metadata ds))) |}.

Definition kept_questions (fc : list cat_cfg) (qs : list QAPair) : list QAPair :=
  filter (λ qa, category qa ∉ filter_set fc) qs.

Definition category_filtered (fc : list cat_cfg) (d : loc) (h : Heap) : Heap :=
  match fc, h_datasets h !! d with
  | _ :: _, Some ds =>
      {| h_convs := h_convs h;
         h_datasets :=
           <[d := set_qa_pairs ds (kept_questions fc (qa_pairs ds))]> (h_datasets h) |}
  | _, _ => h
  end.

(** The HTTP request or the decoding of its response fails with [e],
    leaving the network in state [n']: [requests.post] raises [e], or the
    response it returns raises [e] in [raise_for_status()] or, the status
    being fine, in [json()]. *)
Definition request_fails {N} (post : Memu.Request → N → outcome Memu.Response * N)
    (rq : Memu.Request) (n : N) (e : exn) (n' : N) : Prop :=
  post rq n = (Raise e, n') ∨
  ∃ response,
    post rq n = (Ret response, n') ∧
    (Memu.raise_for_status response = Some e ∨
     Memu.raise_for_status response = None ∧ Memu.json_body response = Raise e).

(** The decoded body of the response to [rq] is [result], the network
    being left in state [n']. *)
Definition request_returns {N} (post : Memu.Request → N → outcome Memu.Response * N)
    (rq : Memu.Request) (n : N) (result : json) (n' : N) : Prop :=
  ∃ response,
    post rq n = (Ret response, n') ∧
    Memu.raise_for_status response = None ∧
    Memu.json_body response = Ret result.

(** An attempt of the retry loop fails with [e]: the request fails, or
    the body it returns is not a dictionary, so that [result.get]
    raises. *)
Definition submit_fails {N} (post : Memu.Request → N → outcome Memu.Response * N)
    (rq : Memu.Request) (n : N) (e : exn) (n' : N) : Prop :=
  request_fails post rq n e n' ∨
  ∃ result,
    request_returns post rq n result n' ∧
    (∀ kvs, result ≠ JDict kvs) ∧
    e = AttributeError
          ("'" ++ Memu.py_type_name result ++ "' object has no attribute 'get'").

(** Attempts in a row that fail with the exceptions [es], all instances
    of [Exception], and take the network from [n] to [n']. *)
Inductive submits_fail {N} (post : Memu.Request → N → outcome Memu.Response * N)
    (rq : Memu.Request) : N → list exn → N → Prop :=
| submits_fail_nil n : submits_fail post rq n [] n
| submits_fail_cons n cls msg n' es n'' :
    submit_fails post rq n (PyException cls msg) n' →
    submits_fail post rq n' es n'' →
    submits_fail post rq n (PyException cls msg :: es) n''.

(** The pauses before the attempts 1, ..., [k]: 1, 2, 4, ... seconds. *)
Definition backoff (k : nat) : list Z := (λ i, 2 ^ Z.of_nat i) <$> seq 0 k.

(** ** Sample data *)

Module Example.

Definition message (n : string) : Message :=
  {| speaker_name := "Caroline"; role := "user"; timestamp := None;
     content := n |}.

Definition conv_1 : Conversation :=
  {| conversation_id := "conv_1";
     messages := message <$> ["m1"; "m2"; "m3"; "m4"; "m5"];
     conv_metadata := {[ "speaker_a" := PyStr "Caroline" ]} |}.

Definition conv_2 : Conversation :=
  {| conversation_id := "conv_2";
     messages := message <$> ["n1"; "n2"];
     conv_metadata := ∅ |}.

Definition qa (cat conv : string) : QAPair :=
  {| question := "q" ++ cat; golden_answer := "a"; category := cat;
     qa_metadata := {[ "conversation_id" := PyStr conv ]} |}.

(** Categories 1, 2, 5, 5, 3. *)
Definition dataset : Dataset :=
  {| dataset_name := "locomo";
     conversations := [0%nat; 1%nat];
     qa_pairs := [qa "1" "conv_1"; qa "2" "conv_1"; qa "5" "conv_2";
                  qa "5" "conv_1"; qa "3" "conv_1"];
     metadata := ∅ |}.

Definition heap : Heap :=
  {| h_convs := [conv_1; conv_2]; h_datasets := [dataset] |}.

(** A dataset that holds no conversation. *)
Definition empty_dataset : Dataset :=
  {| dataset_name := "empty"; conversations := []; qa_pairs := [];
     metadata := ∅ |}.

Definition empty_heap : Heap :=
  {| h_convs := []; h_datasets := [empty_dataset] |}.

Definition search_of (q : QAPair) : SearchResult :=
  {| query := question q; sr_conversation_id := "conv_1"; results := [];
     retrieval_metadata := JDict [] |}.

Definition answer_of (q : QAPair) : AnswerResult :=
  {| question_id := question q; ar_question := question q; answer := "a";
     ar_golden_answer := golden_answer q; ar_category := category q;
     ar_conversation_id := "conv_1"; formatted_context := "";
     ar_metadata := JDict [] |}.

(** Collaborators that always succeed; the state of the backend counts
    the calls of the adapter's [add]. *)
Definition collaborators : Collaborators nat unit :=
  {| run_add_stage := λ _ _ completed env,
       (Ret (Some tt), completed ∪ {[ "add" ]},
        {| search_file := search_file env; answer_file := answer_file env;
           eval_file := eval_file env; report_file := report_file env;
           checkpoint_file := checkpoint_file env; ext := S (ext env) |});
     build_lazy_index := λ _ _ env, (Ret tt, env);
     run_search_stage := λ _ qas _ _ env, (Ret (search_of <$> qas), env);
     run_answer_stage := λ qas _ env, (Ret (answer_of <$> qas), env);
     run_evaluate_stage := λ ars env,
       (Ret {| total_questions := py_len (default [] ars); correct := 0;
               accuracy := 0%float; detailed_results := [];
               er_metadata := JDict [] |}, env);
     system_name := "toy";
     post_add_wait_seconds := 2 |}.

Definition env : Env nat :=
  {| search_file := None; answer_file := None; eval_file := None;
     report_file := None; checkpoint_file := None; ext := O |}.

Definition world : World nat :=
  {| w_heap := heap; w_env := env; w_completed := ∅; w_trace := [] |}.

Definition with_checkpoint : Pipeline :=
  {| use_checkpoint := true; filter_categories := [] |}.

Definition without_checkpoint : Pipeline :=
  {| use_checkpoint := false; filter_categories := [] |}.

(** The environment in which only [search_results.json] exists. *)
Definition env_search_only : Env nat :=
  {| search_file := Some [_search_result_to_dict (search_of (qa "1" "conv_1"))];
     answer_file := None; eval_file := None;
     report_file := None; checkpoint_file := None; ext := O |}.

(** The environment in which only [answer_results.json] exists. *)
Definition env_answer_only : Env nat :=
  {| search_file := None;
     answer_file := Some [_answer_result_to_dict (answer_of (qa "1" "conv_1"))];
     eval_file := None;
     report_file := None; checkpoint_file := None; ext := O |}.

Definition world_with (e : Env nat) : World nat :=
  {| w_heap := heap; w_env := e; w_completed := ∅; w_trace := [] |}.

(** A network that refuses every connection. *)
Definition refused (rq : Memu.Request) (n : unit)
  : outcome Memu.Response * unit :=
  (Raise (PyException "ConnectionError" "connection refused"), n).

Definition memu : Memu.MemuAdapter :=
  {| Memu.base_url := "https://api.memu.so"; Memu.agent_id := "default_agent";
     Memu.agent_name := "Assistant"; Memu.max_retries := 5;
     Memu.headers := [("Authorization", "Bearer key");
                      ("Content-Type", "application/json")];
     Memu._prompts :=
       JDict [("online_api",
               JDict [("templates", JDict [("default", JStr "{speaker_1}")])])] |}.

Definition memu_world : Memu.World unit :=
  {| Memu.net := tt; Memu.console := []; Memu.slept := [] |}.

(** A body with two memories, and a network that answers with it. *)
Definition memories : list json :=
  [JDict [("memory", JDict [("content", JStr "a sunset");
                            ("happened_at", JStr "2023-05-08T10:00:00")]);
          ("similarity_score", JFloat 0.5)];
   JDict [("memory", JDict [("content", JStr "a horse")])]].

Definition answering (rq : Memu.Request) (n : unit)
  : outcome Memu.Response * unit :=
  (Ret {| Memu.raise_for_status := None;
          Memu.json_body := Ret (JDict [("related_memories", JList memories)]) |},
   n).

End Example.

(** * Properties *)

Open Scope list_scope.

(** ** Pre-processing: what [preprocess] computes *)

Section Preprocessing.
Implicit Types (h : Heap) (d c : loc) (ds : Dataset) (conv : Conversation).
Implicit Types (nm nq : Z) (fc : list cat_cfg).

Lemma apply_smoke_test_run d ds c cs conv nm nq h :
  h_datasets h !! d = Some ds →
  conversations ds = c :: cs →
  h_convs h !! c = Some conv →
  _apply_smoke_test d nm nq h =
    (Ret (length (h_datasets h)),
     {| h_convs := <[c := truncated_conversation nm conv]> (h_convs h);
        h_datasets := h_datasets h ++ [smoke_dataset nm nq conv ds c] |}).
Proof.
  intros Hd Hc Hconv.
  unfold _apply_smoke_test, m_bind, Store.read_dataset.
  rewrite Hd, Hc. unfold Store.read_conv at 1. rewrite Hconv.
  unfold smoke_dataset, selected_questions, truncated_conversation.
  destruct (0 <? nm) eqn:Hnm; simpl.
  - unfold Store.read_conv. simpl.
    rewrite list_lookup_insert_eq by (eapply lookup_lt_Some; eauto).
    reflexivity.
  - unfold Store.read_conv. rewrite Hconv.
    rewrite list_insert_id by done. reflexivity.
Qed.

Lemma apply_smoke_test_empty d ds nm nq h :
  h_datasets h !! d = Some ds →
  conversations ds = [] →
  _apply_smoke_test d nm nq h = (Ret d, h).
Proof.
  intros Hd Hc. unfold _apply_smoke_test, m_bind, Store.read_dataset.
  by rewrite Hd, Hc.
Qed.

Lemma preprocess_plain fc d ds nm nq h :
  h_datasets h !! d = Some ds →
  preprocess fc d false nm nq h = (Ret d, category_filtered fc d h).
Proof.
  intros Hd. unfold preprocess, category_filtered, m_bind, m_ret. simpl.
  destruct fc; [done|].
  unfold Store.read_dataset. by rewrite Hd.
Qed.

Lemma preprocess_smoke fc d ds c cs conv nm nq h :
  h_datasets h !! d = Some ds →
  conversations ds = c :: cs →
  h_convs h !! c = Some conv →
  preprocess fc d true nm nq h =
    (Ret (length (h_datasets h)),
     category_filtered fc (length (h_datasets h))
       {| h_convs := <[c := truncated_conversation nm conv]> (h_convs h);
          h_datasets := h_datasets h ++ [smoke_dataset nm nq conv ds c] |}).
Proof.
  intros Hd Hc Hconv. unfold preprocess, m_bind.
  rewrite (apply_smoke_test_run d ds c cs conv nm nq h Hd Hc Hconv).
  unfold Store.read_dataset; simpl.
  rewrite lookup_app_r by lia. rewrite Nat.sub_diag. simpl.
  unfold Store.read_conv; simpl.
  rewrite list_lookup_insert_eq by (eapply lookup_lt_Some; eauto).
  unfold category_filtered, m_ret; simpl.
  destruct fc; [reflexivity|].
  cbn [h_datasets h_convs].
  rewrite (lookup_app_r (h_datasets h)) by lia.
  rewrite Nat.sub_diag. reflexivity.
Qed.

Lemma preprocess_smoke_empty fc d ds nm nq h :
  h_datasets h !! d = Some ds →
  conversations ds = [] →
  preprocess fc d true nm nq h =
    (Raise (IndexError "list index out of range"), h).
Proof.
  intros Hd Hc. unfold preprocess, m_bind.
  rewrite (apply_smoke_test_empty d ds nm nq h Hd Hc).
  unfold Store.read_dataset. by rewrite Hd, Hc.
Qed.

(** The filter is the last step: with a filter the pre-processing does
    what it does without one, and then rebinds [qa_pairs]. *)
Lemma preprocess_then_filter fc d smoke nm nq h d0 h0 :
  preprocess [] d smoke nm nq h = (Ret d0, h0) →
  preprocess fc d smoke nm nq h =
    match fc with
    | [] => (Ret d0, h0)
    | _ :: _ =>
        match h_datasets h0 !! d0 with
        | Some ds0 => (Ret d0, category_filtered fc d0 h0)
        | None => (Raise dangling_reference, h0)
        end
    end.
Proof.
  unfold preprocess, m_bind.
  match goal with
  | |- context [match ?m h with _ => _ end] => destruct (m h) as [[d1|e] h1]
  end; [|done].
  unfold m_ret. intros [= -> ->].
  destruct fc; [done|].
  unfold category_filtered, Store.read_dataset.
  by destruct (h_datasets h0 !! d0).
Qed.

Lemma kept_questions_idemp fc (qs : list QAPair) :
  kept_questions fc (kept_questions fc qs) = kept_questions fc qs.
Proof. unfold kept_questions. by apply list_filter_filter_r. Qed.

Lemma truncated_conversation_idemp nm conv :
  truncated_conversation nm (truncated_conversation nm conv)
  = truncated_conversation nm conv.
Proof.
  unfold truncated_conversation. destruct (0 <? nm); [|done].
  unfold set_messages, py_prefix; simpl. by rewrite take_idemp.
Qed.

Lemma smoke_dataset_truncated nm nq conv ds c :
  smoke_dataset nm nq (truncated_conversation nm conv) ds c
  = smoke_dataset nm nq conv ds c.
Proof.
  unfold smoke_dataset. rewrite truncated_conversation_idemp.
  unfold selected_questions, truncated_conversation.
  by destruct (0 <? nm).
Qed.

End Preprocessing.

(** ** Claims about the pre-processing *)

(** C1.  Category filtering.  Take the dataset [ds0] that [run] works on
    when no filter is configured (the caller's dataset, or the smoke-test
    cut of it).  With a non-empty filter the pre-processing succeeds just
    the same and leaves, in that dataset, exactly the QAPairs of [ds0]
    whose category is not in the filter set, in their original order:
    every QAPair of a filtered category is gone, every other one is kept,
    and the result is a subsequence of the original.  Without smoke test
    [ds0] is the caller's dataset. *)
Theorem C1_category_filter (fc : list cat_cfg) (d : loc) (smoke : bool)
    (nm nq : Z) (h : Heap) (d0 : loc) (h0 : Heap) (ds0 : Dataset) :
  fc ≠ [] →
  preprocess [] d smoke nm nq h = (Ret d0, h0) →
  h_datasets h0 !! d0 = Some ds0 →
  ∃ h' ds',
    preprocess fc d smoke nm nq h = (Ret d0, h') ∧
    h_datasets h' !! d0 = Some ds' ∧
    qa_pairs ds' = filter (λ qa, category qa ∉ filter_set fc) (qa_pairs ds0) ∧
    (∀ qa, qa ∈ qa_pairs ds' ↔ qa ∈ qa_pairs ds0 ∧ category qa ∉ filter_set fc) ∧
    (∀ qa cat, qa ∈ qa_pairs ds' → cat ∈ fc → category qa ≠ py_str_cat cat) ∧
    qa_pairs ds' `sublist_of` qa_pairs ds0 ∧
    (smoke = false → d0 = d ∧ h_datasets h !! d = Some ds0).
Proof.
  intros Hfc Hrun Hds0.
  pose proof (preprocess_then_filter fc d smoke nm nq h d0 h0 Hrun) as Hfilter.
  destruct fc as [|cat0 fc]; [done|]. rewrite Hds0 in Hfilter.
  set (F := cat0 :: fc) in *.
  exists (category_filtered F d0 h0),
         (set_qa_pairs ds0 (kept_questions F (qa_pairs ds0))).
  split; [exact Hfilter|].
  split.
  { unfold category_filtered, F. rewrite Hds0. cbn [h_datasets].
    apply list_lookup_insert_eq. eapply lookup_lt_Some; eauto. }
  split; [reflexivity|].
  split.
  { intros qa. cbn [qa_pairs set_qa_pairs]. unfold kept_questions.
    rewrite list_elem_of_filter. tauto. }
  split.
  { intros qa cat Hqa Hcat Heq. cbn [qa_pairs set_qa_pairs] in Hqa.
    unfold kept_questions in Hqa. apply list_elem_of_filter in Hqa as [Hnot _].
    apply Hnot. unfold filter_set. apply elem_of_list_to_set.
    rewrite Heq. apply list_elem_of_fmap. eauto. }
  split; [apply sublist_filter|].
  intros ->. unfold preprocess, m_bind, m_ret in Hrun. simpl in Hrun.
  by injection Hrun as -> ->.
Qed.

(** The example of the claim: categories 1, 2, 5, 5, 3 and the filter
    [5] leave three QAPairs, of categories 1, 2, 3 in that order. *)
Lemma C1_category_filter_witness :
  ∃ h' ds',
    preprocess [CatInt 5] 0%nat false 0 0 Example.heap = (Ret 0%nat, h') ∧
    h_datasets h' !! 0%nat = Some ds' ∧
    category <$> qa_pairs Example.dataset = ["1"; "2"; "5"; "5"; "3"] ∧
    category <$> qa_pairs ds' = ["1"; "2"; "3"] ∧
    length (qa_pairs ds') = 3%nat.
Proof.
  destruct (C1_category_filter [CatInt 5] 0%nat false 0 0 Example.heap
              0%nat Example.heap Example.dataset)
    as (h' & ds' & Hrun & Hds' & Hqa & _); [discriminate | reflexivity | reflexivity |].
  exists h', ds'. rewrite Hqa.
  split; [exact Hrun|]. split; [exact Hds'|].
  split; [reflexivity|]. split; vm_compute; reflexivity.
Defined.

(** C4.  Smoke-test truncation.  For a dataset with at least one
    conversation, [_apply_smoke_test] returns a new dataset whose only
    conversation is the original first one; that conversation keeps its
    id and holds the first [min(message_count, length)] messages when
    [message_count > 0] and all of them when [message_count = 0]; the
    QAPairs are the first [question_count] (all when [question_count = 0])
    of those whose [conversation_id] metadata is the id of the kept
    conversation, in original order. *)
Theorem C4_smoke_test_truncation (d : loc) (ds : Dataset) (c : loc)
    (cs : list loc) (conv : Conversation) (nm nq : Z) (h : Heap) :
  h_datasets h !! d = Some ds →
  conversations ds = c :: cs →
  h_convs h !! c = Some conv →
  ∃ d' h' ds' conv',
    _apply_smoke_test d nm nq h = (Ret d', h') ∧
    h_datasets h' !! d' = Some ds' ∧
    conversations ds' = [c] ∧
    h_convs h' !! c = Some conv' ∧
    conversation_id conv' = conversation_id conv ∧
    (0 < nm →
       messages conv' = take (Z.to_nat nm) (messages conv) ∧
       py_len (messages conv') = Z.min nm (py_len (messages conv))) ∧
    (nm = 0 → messages conv' = messages conv) ∧
    (0 < nq →
       qa_pairs ds' =
         take (Z.to_nat nq)
           (filter (qa_of_conv (conversation_id conv)) (qa_pairs ds))) ∧
    (nq = 0 →
       qa_pairs ds' = filter (qa_of_conv (conversation_id conv)) (qa_pairs ds)).
Proof.
  intros Hd Hc Hconv.
  eexists _, _, (smoke_dataset nm nq conv ds c), (truncated_conversation nm conv).
  split; [by apply (apply_smoke_test_run d ds c cs conv nm nq h)|].
  cbn [h_datasets h_convs].
  split. { rewrite lookup_app_r by lia. by rewrite Nat.sub_diag. }
  split; [reflexivity|].
  split. { apply list_lookup_insert_eq. eapply lookup_lt_Some; eauto. }
  unfold truncated_conversation, smoke_dataset, selected_questions, py_prefix.
  cbn [qa_pairs].
  split. { by destruct (0 <? nm). }
  split.
  { intros Hnm. apply Z.ltb_lt in Hnm as Hb. rewrite Hb.
    cbn [messages set_messages]. split; [reflexivity|].
    unfold py_len. rewrite length_take. lia. }
  split. { by intros ->. }
  split. { intros Hnq. apply Z.ltb_lt in Hnq. by rewrite Hnq. }
  by intros ->.
Qed.

(** Conversations [C1, C2] and [message_count = 3]: one conversation,
    [C1], with [min(3, 5) = 3] messages; two questions asked, two kept. *)
Lemma C4_smoke_test_truncation_witness :
  ∃ d' h' ds' conv',
    _apply_smoke_test 0%nat 3 2 Example.heap = (Ret d', h') ∧
    h_datasets h' !! d' = Some ds' ∧
    conversations ds' = [0%nat] ∧
    h_convs h' !! 0%nat = Some conv' ∧
    length (messages conv') = 3%nat ∧
    length (qa_pairs ds') = 2%nat.
Proof.
  destruct (C4_smoke_test_truncation 0%nat Example.dataset 0%nat [1%nat]
              Example.conv_1 3 2 Example.heap)
    as (d' & h' & ds' & conv' & Hrun & Hds & Hconvs & Hconv & _ & Hm & _ & Hq & _);
    [reflexivity | reflexivity | reflexivity |].
  exists d', h', ds', conv'.
  destruct (Hm ltac:(lia)) as [-> _]. rewrite (Hq ltac:(lia)).
  repeat split; try assumption; vm_compute; reflexivity.
Defined.

Section PreprocessingEffects.
Implicit Types (h : Heap) (d c : loc) (ds : Dataset) (conv : Conversation).
Implicit Types (nm nq : Z) (fc : list cat_cfg).

Lemma category_filtered_convs fc d h :
  h_convs (category_filtered fc d h) = h_convs h.
Proof.
  unfold category_filtered. destruct fc; [done|].
  by destruct (h_datasets h !! d).
Qed.

Lemma category_filtered_lookup fc d ds h :
  h_datasets h !! d = Some ds →
  h_datasets (category_filtered fc d h) !! d =
    Some (match fc with
          | [] => ds
          | _ :: _ => set_qa_pairs ds (kept_questions fc (qa_pairs ds))
          end).
Proof.
  intros Hd. unfold category_filtered. destruct fc; [done|]. rewrite Hd.
  cbn [h_datasets]. apply list_lookup_insert_eq. eapply lookup_lt_Some; eauto.
Qed.

Lemma category_filtered_lookup_ne fc d d' h :
  d' ≠ d →
  h_datasets (category_filtered fc d h) !! d' = h_datasets h !! d'.
Proof.
  intros Hne. unfold category_filtered. destruct fc; [done|].
  destruct (h_datasets h !! d); [|done].
  cbn [h_datasets]. by apply list_lookup_insert_ne.
Qed.

Lemma category_filtered_idemp fc d h :
  category_filtered fc d (category_filtered fc d h) = category_filtered fc d h.
Proof.
  destruct (h_datasets h !! d) as [ds|] eqn:Hd.
  - pose proof (category_filtered_lookup fc d ds h Hd) as Hl.
    unfold category_filtered at 1. rewrite Hl. destruct fc; [done|].
    rewrite category_filtered_convs.
    unfold category_filtered. rewrite Hd. cbn [h_datasets h_convs].
    rewrite list_insert_insert_eq. cbn [qa_pairs set_qa_pairs].
    by rewrite kept_questions_idemp.
  - unfold category_filtered. destruct fc; [done|]. by rewrite !Hd.
Qed.

End PreprocessingEffects.

(** C2, as amended.  The pre-processing succeeds on a dataset whose
    references are valid (with smoke test: that has a first conversation)
    and changes two things only in the objects of the caller.  Without
    smoke test and with a non-empty filter, [qa_pairs] of the caller's
    dataset is rebound to the filtered list; with smoke test and
    [message_count > 0], [messages] of the first conversation is rebound
    to its first [message_count] elements.  Name, conversation list and
    metadata of the dataset, [qa_pairs] in the other cases, and every
    other conversation (and the id and metadata of the first) stay as they
    were; no object is removed.  A second pre-processing of the same
    dataset with the same settings yields the same pre-processed dataset
    and changes nothing more. *)
Theorem C2_preprocess_effects (fc : list cat_cfg) (d : loc) (ds : Dataset)
    (smoke : bool) (nm nq : Z) (h : Heap) :
  h_datasets h !! d = Some ds →
  (smoke = true →
     ∃ c conv, head (conversations ds) = Some c ∧ h_convs h !! c = Some conv) →
  ∃ d' h' ds1,
    preprocess fc d smoke nm nq h = (Ret d', h') ∧
    h_datasets h' !! d = Some ds1 ∧
    dataset_name ds1 = dataset_name ds ∧
    conversations ds1 = conversations ds ∧
    metadata ds1 = metadata ds ∧
    qa_pairs ds1 =
      (if smoke then qa_pairs ds
       else match fc with
            | [] => qa_pairs ds
            | _ :: _ => filter (λ qa, category qa ∉ filter_set fc) (qa_pairs ds)
            end) ∧
    length (h_convs h') = length (h_convs h) ∧
    (∀ c conv, h_convs h !! c = Some conv →
       h_convs h' !! c =
         Some (if smoke && bool_decide (head (conversations ds) = Some c)
                  && (0 <? nm)
               then set_messages conv (take (Z.to_nat nm) (messages conv))
               else conv)) ∧
    ∃ d'' h'',
      preprocess fc d smoke nm nq h' = (Ret d'', h'') ∧
      h_convs h'' = h_convs h' ∧
      h_datasets h'' !! d'' = h_datasets h' !! d' ∧
      h_datasets h'' !! d = h_datasets h' !! d.
Proof.
  intros Hd Hsmoke. destruct smoke.
  - destruct (Hsmoke eq_refl) as (c & conv & Hhead & Hconv).
    assert (∃ cs, conversations ds = c :: cs) as [cs Hc].
    { destruct (conversations ds); [done|]. injection Hhead as ->. eauto. }
    pose proof (lookup_lt_Some _ _ _ Hd) as Hlt.
    pose proof (lookup_lt_Some _ _ _ Hconv) as Hltc.
    set (tc := truncated_conversation nm conv).
    set (sd := smoke_dataset nm nq conv ds c).
    set (L := length (h_datasets h)).
    set (H1 := {| h_convs := <[c := tc]> (h_convs h);
                  h_datasets := h_datasets h ++ [sd] |}).
    set (h' := category_filtered fc L H1).
    assert (Hrun : preprocess fc d true nm nq h = (Ret L, h'))
      by (by apply (preprocess_smoke fc d ds c cs conv nm nq h)).
    assert (Hd' : h_datasets h' !! d = Some ds).
    { unfold h'. rewrite category_filtered_lookup_ne by (unfold L; lia).
      cbn [H1 h_datasets]. by rewrite lookup_app_l. }
    assert (Hconvs' : h_convs h' = <[c := tc]> (h_convs h))
      by (unfold h'; by rewrite category_filtered_convs).
    assert (HL : h_datasets H1 !! L = Some sd).
    { cbn [H1 h_datasets]. rewrite lookup_app_r by (unfold L; lia).
      unfold L. by rewrite Nat.sub_diag. }
    exists L, h', ds. split; [exact Hrun|]. split; [exact Hd'|].
    do 4 (split; [reflexivity|]).
    split. { rewrite Hconvs'. apply length_insert. }
    split.
    { intros c' conv' Hc'. rewrite Hconvs', Hc. cbn [andb head].
      destruct (decide (c = c')) as [<-|Hne].
      - rewrite bool_decide_eq_true_2 by done.
        rewrite list_lookup_insert_eq by done. f_equal.
        rewrite Hconv in Hc'. injection Hc' as <-.
        unfold tc, truncated_conversation, py_prefix. by destruct (0 <? nm).
      - rewrite bool_decide_eq_false_2 by congruence.
        by rewrite list_lookup_insert_ne. }
    assert (Hconv' : h_convs h' !! c = Some tc)
      by (rewrite Hconvs'; by apply list_lookup_insert_eq).
    pose proof (preprocess_smoke fc d ds c cs tc nm nq h' Hd' Hc Hconv') as Hrun2.
    rewrite (truncated_conversation_idemp nm conv
               : truncated_conversation nm tc = tc) in Hrun2.
    rewrite (smoke_dataset_truncated nm nq conv ds c
               : smoke_dataset nm nq tc ds c = sd) in Hrun2.
    eexists _, _. split; [exact Hrun2|].
    rewrite category_filtered_convs. cbn [h_convs h_datasets].
    split. { rewrite Hconvs'. apply list_insert_insert_eq. }
    split.
    { etransitivity.
      - apply (category_filtered_lookup fc _ sd). cbn [h_datasets].
        rewrite lookup_app_r by lia. by rewrite Nat.sub_diag.
      - symmetry. apply (category_filtered_lookup fc L sd H1 HL). }
    assert (d < length (h_datasets h'))%nat by (eapply lookup_lt_Some; eauto).
    rewrite category_filtered_lookup_ne by lia.
    cbn [h_datasets]. by rewrite lookup_app_l.
  - clear Hsmoke.
    pose proof (category_filtered_lookup fc d ds h Hd) as Hl.
    exists d, (category_filtered fc d h); eexists.
    split; [by apply (preprocess_plain fc d ds)|].
    split; [exact Hl|].
    split; [by destruct fc|]. split; [by destruct fc|]. split; [by destruct fc|].
    split; [by destruct fc|].
    split; [by rewrite category_filtered_convs|].
    split. { intros c conv Hc. by rewrite category_filtered_convs. }
    exists d, (category_filtered fc d h).
    split.
    { erewrite preprocess_plain by exact Hl.
      by rewrite category_filtered_idemp. }
    done.
Qed.

Lemma C2_preprocess_effects_witness :
  ∃ d' h' ds1,
    preprocess [CatInt 5] 0%nat true 3 2 Example.heap = (Ret d', h') ∧
    h_datasets h' !! 0%nat = Some ds1 ∧
    qa_pairs ds1 = qa_pairs Example.dataset ∧
    conversations ds1 = conversations Example.dataset ∧
    h_convs h' !! 1%nat = Some Example.conv_2.
Proof.
  destruct (C2_preprocess_effects [CatInt 5] 0%nat Example.dataset true 3 2
              Example.heap)
    as (d' & h' & ds1 & Hrun & Hds1 & _ & Hc & _ & Hq & _ & Hconv & _).
  - reflexivity.
  - intros _. exists 0%nat, Example.conv_1. split; reflexivity.
  - exists d', h', ds1. repeat split; try assumption.
    exact (Hconv 1%nat Example.conv_2 eq_refl).
Defined.

(** C2, as stated, fails twice over.  Without smoke test the filter
    rebinds [qa_pairs] of the caller's dataset; with smoke test the cut
    rebinds [messages] of the caller's first conversation. *)
Lemma C2_counterexample :
  ¬ leaves_dataset_unchanged [CatInt 5] 0%nat false 0 0 Example.heap ∧
  ¬ leaves_dataset_unchanged [] 0%nat true 3 0 Example.heap.
Proof.
  split; intros Hclaim.
  - destruct (Hclaim 0%nat (category_filtered [CatInt 5] 0%nat Example.heap) eq_refl)
      as [Hsame _].
    vm_compute in Hsame. discriminate Hsame.
  - destruct (Hclaim _ _ eq_refl) as [_ Hsame].
    specialize (Hsame Example.dataset 0%nat eq_refl).
    assert (0%nat ∈ conversations Example.dataset) as Hin by (left).
    specialize (Hsame Hin). vm_compute in Hsame. discriminate Hsame.
Qed.

(** ** The orchestrator: events of each stage *)

Section Events.
Context {E Index : Type} (K : Collaborators E Index).
Implicit Types (P : event → Prop) (w : World E).

Lemma appends_ret {A} P (a : A) : appends (E:=E) P (m_ret a).
Proof. intros w. exists []. by rewrite app_nil_r. Qed.

Lemma appends_raise {A} P e : appends (E:=E) (A:=A) P (m_raise e).
Proof. intros w. exists []. by rewrite app_nil_r. Qed.

Lemma appends_gets {A} P (f : World E → A) : appends P (m_gets f).
Proof. intros w. exists []. by rewrite app_nil_r. Qed.

Lemma appends_bind {A B} P (m : M (World E) A) (k : A → M (World E) B) :
  appends P m → (∀ a, appends P (k a)) → appends P (m_bind m k).
Proof.
  intros Hm Hk w. unfold m_bind.
  destruct (Hm w) as (t1 & Ht1 & HP1).
  destruct (m w) as [[a|e] w1]; simpl in *.
  - destruct (Hk a w1) as (t2 & Ht2 & HP2).
    exists (t1 ++ t2). rewrite Ht2, Ht1, app_assoc.
    split; [done|]. by apply Forall_app.
  - by exists t1.
Qed.

Lemma appends_log P ev : P ev → appends (E:=E) P (log ev).
Proof. intros HP w. exists [ev]. split; [done|]. by constructor. Qed.

Lemma appends_set_env P env : appends (E:=E) P (set_env env).
Proof. intros w. exists []. by rewrite app_nil_r. Qed.

Lemma appends_set_completed P c : appends (E:=E) P (set_completed c).
Proof. intros w. exists []. by rewrite app_nil_r. Qed.

Lemma appends_on_heap {A} P (m : M Heap A) : appends (E:=E) P (on_heap m).
Proof.
  intros w. exists []. unfold on_heap. destruct (m (w_heap w)).
  by rewrite app_nil_r.
Qed.

Lemma appends_call {A} P (f : Env E → outcome A * Env E) : appends P (call f).
Proof.
  intros w. exists []. unfold call. destruct (f (w_env w)).
  by rewrite app_nil_r.
Qed.

Lemma appends_call_add_stage P h d : appends P (call_add_stage K h d).
Proof.
  intros w. exists []. unfold call_add_stage.
  destruct (run_add_stage K h d (w_completed w) (w_env w)) as [[o c] env].
  by rewrite app_nil_r.
Qed.

Lemma appends_weaken {A} P Q (m : M (World E) A) :
  (∀ ev, P ev → Q ev) → appends P m → appends Q m.
Proof.
  intros HPQ Hm w. destruct (Hm w) as (t & Ht & HP).
  exists t. split; [done|]. eapply Forall_impl; eauto.
Qed.

(** A property of the record that adding events of [P] keeps is kept by
    a computation that appends events of [P] only. *)
Lemma appends_hoare {A} P (Φ : list event → Prop) (m : M (World E) A) :
  appends P m →
  (∀ t ev, Φ t → P ev → Φ (t ++ [ev])) →
  hoare (λ w, Φ (w_trace w)) m (λ _ w, Φ (w_trace w)) (λ w, Φ (w_trace w)).
Proof.
  intros Hm Hstep w HΦ.
  destruct (Hm w) as (t & Ht & HP).
  assert (Φ (w_trace (m w).2)) as Hend.
  { rewrite Ht. clear Ht. revert t HP.
    apply (Forall_rev_ind P (λ t, Φ (w_trace w ++ t))).
    - by rewrite app_nil_r.
    - intros ev t Hev _ IH. rewrite app_assoc. by apply Hstep. }
  destruct (m w) as [[a|e] w']; exact Hend.
Qed.

End Events.

(** Each part of [run] records events of its own only. *)

Ltac appends_step :=
  first
    [ apply appends_ret | apply appends_raise | apply appends_gets
    | apply appends_set_env | apply appends_set_completed
    | apply appends_on_heap | apply appends_call | apply appends_call_add_stage
    | apply appends_log; reflexivity
    | apply appends_bind; [| intros ?]
    | match goal with
      | |- appends _ (if ?b then _ else _) => destruct b
      | |- appends _ (match ?x with _ => _ end) => destruct x
      end ].

Ltac appends_auto := repeat appends_step.

Section Origins.
Context {E Index : Type} (K : Collaborators E Index).

Lemma load_checkpoint_origin (p : Pipeline) :
  appends (E:=E) (λ ev, origin ev = "checkpoint") (try_load_checkpoint p).
Proof. unfold try_load_checkpoint, load_checkpoint. appends_auto. Qed.


Lemma sleep_loop_origin n :
  appends (E:=E) (λ ev, origin ev = "wait") (sleep_loop n).
Proof. induction n; simpl; appends_auto. exact IHn. Qed.

Lemma post_add_wait_origin stages b :
  appends (λ ev, origin ev = "wait") (post_add_wait K stages b).
Proof. unfold post_add_wait. appends_auto. apply sleep_loop_origin. Qed.

Lemma stage_search_origin p d stages l :
  appends (λ ev, origin ev = "search") (stage_search K p d stages l).
Proof.
  unfold stage_search, is_completed, mark_completed, save_search_json,
    save_checkpoint, load_search_json.
  appends_auto.
Qed.

Lemma search_payload_origin P (l : Locals (Index:=Index)) :
  appends (E:=E) P (search_payload l).
Proof. unfold search_payload, read_var, comprehension. appends_auto. Qed.

Lemma stage_answer_origin p d stages l :
  appends (λ ev, origin ev = "answer") (stage_answer K p d stages l).
Proof.
  unfold stage_answer, is_completed, mark_completed, save_answer_json,
    save_checkpoint, load_answer_json, read_var.
  appends_auto; apply search_payload_origin.
Qed.

Lemma stage_evaluate_origin p stages l :
  appends (λ ev, origin ev = "evaluate") (stage_evaluate K p stages l).
Proof.
  unfold stage_evaluate, is_completed, mark_completed, save_eval_json,
    save_checkpoint, read_var, comprehension.
  appends_auto; apply search_payload_origin.
Qed.

Lemma generate_report_origin r el :
  appends (λ ev, origin ev = "report") (_generate_report K r el).
Proof. unfold _generate_report, write_report. appends_auto. Qed.

End Origins.

(** ** Assertions *)

Section Hoare.
Context {S : Type}.
Implicit Types (P X : S → Prop).

Lemma hoare_bind {A B} P (m : M S A) (Q' : A → S → Prop) X
    (k : A → M S B) (Q : B → S → Prop) :
  hoare P m Q' X → (∀ a, hoare (Q' a) (k a) Q X) → hoare P (m_bind m k) Q X.
Proof.
  intros Hm Hk s HP. unfold m_bind. specialize (Hm s HP).
  destruct (m s) as [[a|e] s']; [|done]. by apply Hk.
Qed.

Lemma hoare_ret {A} P (a : A) (Q : A → S → Prop) X :
  (∀ s, P s → Q a s) → hoare P (m_ret a) Q X.
Proof. intros H s HP. by apply H. Qed.

Lemma hoare_conseq {A} P P' (m : M S A) (Q Q' : A → S → Prop) X X' :
  hoare P' m Q' X' →
  (∀ s, P s → P' s) → (∀ a s, Q' a s → Q a s) → (∀ s, X' s → X s) →
  hoare P m Q X.
Proof.
  intros Hm HP HQ HX s Hs. specialize (Hm s (HP s Hs)).
  destruct (m s) as [[a|e] s']; auto.
Qed.

Lemma hoare_run {A} P (m : M S A) (Q : A → S → Prop) X s :
  hoare P m Q X → P s →
  match (m s).1 with Ret a => Q a (m s).2 | Raise _ => X (m s).2 end.
Proof. intros Hm HP. specialize (Hm s HP). by destruct (m s) as [[a|e] s']. Qed.

End Hoare.

(** ** C6: the wait after the Add stage *)

Section Wait.
Context {E Index : Type} (K : Collaborators E Index).
Variables (p : Pipeline) (stages : option (list string)) (w0 : World E).

Abbreviation due := (wait_due K stages).
Abbreviation ran := (add_ran p stages w0).
Abbreviation gated := (wait_gated K p stages w0).

Lemma gated_tail t ev :
  gated t →
  origin ev = "search" ∨ origin ev = "answer" ∨ origin ev = "evaluate"
    ∨ origin ev = "report" →
  gated (t ++ [ev]).
Proof.
  unfold wait_gated, add_ran. intros [Hiff Hran] Hev.
  assert (EvSleep ≠ ev) by (intros <-; simpl in Hev; intuition discriminate).
  assert (EvAddStageDone ≠ ev)
    by (intros <-; simpl in Hev; intuition discriminate).
  rewrite !elem_of_app, !list_elem_of_singleton. tauto.
Qed.

Lemma try_load_checkpoint_wait :
  hoare (λ w, w_trace w = [] ∧ w_env w = w_env w0 ∧ w_completed w = w_completed w0)
    (try_load_checkpoint p)
    (λ _ w, (w_trace w = [EvLoadCheckpoint] ∨ w_trace w = [])
            ∧ w_completed w = effective_completed p w0)
    (λ w, gated (w_trace w)).
Proof.
  intros w (Ht & Henv & Hc).
  unfold try_load_checkpoint, effective_completed, load_checkpoint, log,
    set_completed, m_bind, m_gets, m_modify, m_ret.
  destruct (use_checkpoint p); simpl; [|by split; [right|]].
  rewrite Henv. destruct (checkpoint_file (w_env w0)); simpl; rewrite Ht;
    by split; [left|].
Qed.

Lemma stage_add_wait d r :
  hoare (λ w, (w_trace w = [EvLoadCheckpoint] ∨ w_trace w = [])
              ∧ w_completed w = effective_completed p w0)
    (stage_add K d (requested stages) r)
    (λ rb w, (EvSleep ∉ w_trace w) ∧ ran (w_trace w)
             ∧ (rb.2 = true ↔ EvAddStageDone ∈ w_trace w))
    (λ w, gated (w_trace w)).
Proof.
  intros w (Ht & Hc).
  unfold wait_gated, add_ran. rewrite <- Hc.
  unfold stage_add, rebuild_index, is_completed, call_add_stage, on_heap, call,
    log, has_stage, m_bind, m_gets, m_modify, m_ret. simpl.
  destruct (decide ("add" ∈ requested stages)) as [Hin|Hin];
    destruct (decide ("add" ∈ w_completed w)) as [Hdone|Hdone];
    rewrite ?(bool_decide_eq_true_2 _ Hin), ?(bool_decide_eq_false_2 _ Hin),
      ?(bool_decide_eq_true_2 _ Hdone), ?(bool_decide_eq_false_2 _ Hdone);
    simpl.
  2: { destruct (run_add_stage K (w_heap w) d (w_completed w) (w_env w))
         as [[[o|e] c] env]; simpl;
         destruct Ht as [-> | ->]; simpl; set_solver. }
  all: destruct (Store.read_dataset d (w_heap w)) as [[ds|e] h']; simpl;
    [ destruct (build_lazy_index K h' (conversations ds) (w_env w)) as [[i|e] env];
      simpl |];
    destruct Ht as [-> | ->]; simpl; set_solver.
Qed.

Lemma sleep_loop_trace n (w : World E) :
  sleep_loop n w =
    (Ret tt, {| w_heap := w_heap w; w_env := w_env w;
                w_completed := w_completed w;
                w_trace := w_trace w ++ replicate n EvSleep |}).
Proof.
  revert w. induction n as [|n IH]; intros w; simpl.
  - rewrite app_nil_r. by destruct w.
  - unfold m_bind, log, m_modify. rewrite IH. simpl.
    by rewrite <- app_assoc.
Qed.

Lemma post_add_wait_gated b :
  hoare (λ w, (EvSleep ∉ w_trace w) ∧ ran (w_trace w)
              ∧ (b = true ↔ EvAddStageDone ∈ w_trace w))
    (post_add_wait K (requested stages) b)
    (λ _ w, gated (w_trace w))
    (λ w, gated (w_trace w)).
Proof.
  intros w (Hno & Hran & Hb). unfold post_add_wait, has_stage.
  destruct b.
  - assert (Hdone : EvAddStageDone ∈ w_trace w) by (by apply Hb).
    destruct (Z.ltb_spec 0 (post_add_wait_seconds K)) as [Hpos|Hneg];
      destruct (decide ("search" ∈ requested stages)) as [Hin|Hin];
      rewrite ?(bool_decide_eq_true_2 _ Hin), ?(bool_decide_eq_false_2 _ Hin);
      simpl.
    1: { rewrite sleep_loop_trace. simpl. split.
         - split.
           + intros _. split; [apply elem_of_app; by left | done].
           + intros _. apply elem_of_app. right. apply elem_of_replicate.
             split; [done|lia].
         - intros _. by apply Hran. }
    all: unfold m_ret, wait_gated, wait_due; split; [|done];
      split; [done|]; intros [_ [? ?]]; first [lia | done].
  - unfold m_ret, wait_gated, wait_due. split; [|done].
    split; [done|]. intros [Hin _]. apply Hb in Hin. discriminate.
Qed.

Lemma gated_nil : gated [].
Proof.
  split; [|by intros ?%elem_of_nil].
  split; [by intros ?%elem_of_nil | by intros [?%elem_of_nil _]].
Qed.

Lemma tail_gated {A} (m : M (World E) A) (o : string) :
  appends (λ ev, origin ev = o) m →
  o = "search" ∨ o = "answer" ∨ o = "evaluate" ∨ o = "report" →
  hoare (λ w, gated (w_trace w)) m (λ _ w, gated (w_trace w))
    (λ w, gated (w_trace w)).
Proof.
  intros Hm Ho. eapply (appends_hoare _ gated); [exact Hm|].
  intros t ev Ht Hev. apply gated_tail; [done|]. by rewrite Hev.
Qed.

Lemma run_stages_gated d el :
  hoare (λ w, w_trace w = [] ∧ w_env w = w_env w0 ∧ w_completed w = w_completed w0)
    (run_stages K p d stages el)
    (λ _ w, gated (w_trace w)) (λ w, gated (w_trace w)).
Proof.
  unfold run_stages. fold (requested stages).
  eapply hoare_bind; [apply try_load_checkpoint_wait|].
  intros [sd ad]. eapply hoare_bind; [apply stage_add_wait|].
  intros [r b]. eapply hoare_bind; [apply post_add_wait_gated|]. intros u.
  eapply hoare_bind; [eapply tail_gated; [apply stage_search_origin|tauto]|].
  intros l1.
  eapply hoare_bind; [eapply tail_gated; [apply stage_answer_origin|tauto]|].
  intros l2.
  eapply hoare_bind; [eapply tail_gated; [apply stage_evaluate_origin|tauto]|].
  intros l3.
  eapply hoare_bind; [eapply tail_gated; [apply generate_report_origin|tauto]|].
  intros u'. by apply hoare_ret.
Qed.

End Wait.

(** C6.  Post-ingest wait gating.  In the record of any run, a sleep of
    the post-add wait occurs if and only if the Add stage was executed in
    this run (its executor was called and returned), the configured
    [post_add_wait_seconds] is positive and "search" is among the
    requested stages.  The Add stage is executed only when it is requested
    and not already completed, so the wait never occurs when Add is
    skipped. *)
Theorem C6_post_add_wait_gating {E Index : Type} (K : Collaborators E Index)
    (p : Pipeline) (d : loc) (stages : option (list string)) (smoke : bool)
    (nm nq : Z) (el : float) (w : World E) :
  let t := w_trace (run K p d stages smoke nm nq el (fresh_trace w)).2 in
  (EvSleep ∈ t ↔
     EvAddStageDone ∈ t ∧ 0 < post_add_wait_seconds K
     ∧ "search" ∈ requested stages) ∧
  (EvAddStageDone ∈ t →
     "add" ∈ requested stages ∧ "add" ∉ effective_completed p w) ∧
  ("add" ∉ requested stages ∨ "add" ∈ effective_completed p w → EvSleep ∉ t).
Proof.
  intros t.
  assert (wait_gated K p stages (fresh_trace w) t) as [Hiff Hran].
  { unfold t, run.
    pose proof (hoare_run (λ w', w' = fresh_trace w)
      (dataset <- on_heap (preprocess (filter_categories p) d smoke nm nq) ;;
       run_stages K p dataset stages el)
      (λ _ w', wait_gated K p stages (fresh_trace w) (w_trace w'))
      (λ w', wait_gated K p stages (fresh_trace w) (w_trace w'))
      (fresh_trace w)) as Hrun.
    match type of Hrun with _ → _ → match ?o with _ => _ end =>
      destruct o; apply Hrun; try done end.
    all: eapply hoare_bind; [|intros d'; apply run_stages_gated].
    all: intros w' ->; unfold on_heap; simpl;
      destruct (preprocess (filter_categories p) d smoke nm nq (w_heap w))
        as [[d'|e'] h']; simpl; [done|apply gated_nil]. }
  unfold add_ran, wait_due, effective_completed in *. simpl in *.
  split; [exact Hiff|]. split; [exact Hran|].
  intros Hskip Hsleep. apply Hiff in Hsleep as [Hdone _].
  apply Hran in Hdone. tauto.
Qed.

(** ** The orchestrator: what each gate does *)

Section Gates.
Context {E Index : Type} (K : Collaborators E Index).
Implicit Types (p : Pipeline) (w : World E) (l : Locals (Index:=Index)).

Lemma bind_ret {S A B} (m : M S A) (k : A → M S B) s a s' :
  m s = (Ret a, s') → m_bind m k s = k a s'.
Proof. unfold m_bind. by intros ->. Qed.

Lemma bind_raise {S A B} (m : M S A) (k : A → M S B) s e s' :
  m s = (Raise e, s') → m_bind m k s = (Raise e, s').
Proof. unfold m_bind. by intros ->. Qed.

Lemma is_completed_run s w :
  is_completed (E:=E) s w = (Ret (bool_decide (s ∈ w_completed w)), w).
Proof. done. Qed.

Lemma has_stage_requested s stages :
has_stage s stages = bool_decide (s ∈ stages).
Proof. done. Qed.

Lemma try_load_checkpoint_run p w :
try_load_checkpoint p w =
  (Ret (checkpoint_payloads p w),
   with_completed (effective_completed p w)
     (logged (if use_checkpoint p then [EvLoadCheckpoint] else []) w)).
Proof.
unfold try_load_checkpoint, checkpoint_payloads, effective_completed,
  load_checkpoint, log, set_completed, m_bind, m_gets, m_modify, m_ret,
  with_completed, logged.
destruct (use_checkpoint p); simpl.
- destruct (checkpoint_file (w_env w)); simpl; [done|]. by destruct w.
- rewrite app_nil_r. by destruct w.
Qed.

(** Add is not executed: the index is rebuilt. *)
Lemma stage_add_skip d stages r w :
has_stage "add" stages && negb (bool_decide ("add" ∈ w_completed w)) = false →
stage_add K d stages r w =
  match h_datasets (w_heap w) !! d with
  | Some ds =>
      match build_lazy_index K (w_heap w) (conversations ds) (w_env w) with
      | (Ret i, env) =>
          (Ret (set_index r i, false), with_env env (logged [EvBuildLazyIndex] w))
      | (Raise e, env) =>
          (Raise e, with_env env (logged [EvBuildLazyIndex] w))
      end
  | None => (Raise dangling_reference, w)
  end.
Proof.
intros Hskip.
unfold stage_add. rewrite (bind_ret _ _ _ _ _ (is_completed_run _ w)).
rewrite Hskip.
assert (∀ (X : M (World E) (Results Index * bool)),
          (if bool_decide ("add" ∈ w_completed w) then X else X) = X) as ->
  by (intros X; by destruct (bool_decide _)).
unfold rebuild_index, on_heap, call, log, Store.read_dataset,
  m_bind, m_gets, m_modify, m_ret, with_env, logged. simpl.
destruct (h_datasets (w_heap w) !! d) as [ds|]; simpl; [|by destruct w].
by destruct (build_lazy_index K (w_heap w) (conversations ds) (w_env w))
  as [[i|e] env].
Qed.

Lemma post_add_wait_skip stages w :
post_add_wait K stages false w = (Ret tt, w).
Proof. done. Qed.

(** Search is neither executed nor needed: nothing is read. *)
Lemma stage_search_unneeded p d stages l w :
has_stage "search" stages = false →
"search" ∉ w_completed w →
has_stage "answer" stages || has_stage "eval" stages = false →
stage_search K p d stages l w = (Ret (search_none l), w).
Proof.
intros Hs Hdone Hneed.
unfold stage_search. rewrite (bind_ret _ _ _ _ _ (is_completed_run _ w)).
rewrite Hs, Hneed, (bool_decide_eq_false_2 _ Hdone). done.
Qed.

(** Search is skipped as completed: the payload of the checkpoint when it
  is a non-empty list, the persisted artifact otherwise, and nothing
  when there is neither. *)
Lemma stage_search_completed p d stages l w :
"search" ∈ w_completed w →
stage_search K p d stages l w =
  if truthy (l_search_results_data l) then
    (Ret (bind_search l
            (_dict_to_search_result <$> default [] (l_search_results_data l))), w)
  else
    match search_file (w_env w) with
    | Some f =>
        (Ret (bind_search l (_dict_to_search_result <$> f)),
         logged [EvFileExists "search_results.json";
                 EvLoadJson "search_results.json"] w)
    | None => (Ret l, logged [EvFileExists "search_results.json"] w)
    end.
Proof.
intros Hdone.
unfold stage_search. rewrite (bind_ret _ _ _ _ _ (is_completed_run _ w)).
rewrite (bool_decide_eq_true_2 _ Hdone), andb_false_r.
destruct (truthy (l_search_results_data l)); [done|].
unfold load_search_json, log, m_bind, m_gets, m_modify, m_ret, logged. simpl.
destruct (search_file (w_env w)); simpl; [|done].
by rewrite <- app_assoc.
Qed.

(** Search is skipped but needed: the persisted artifact, or the error. *)
Lemma stage_search_needed p d stages l w :
has_stage "search" stages = false →
"search" ∉ w_completed w →
has_stage "answer" stages || has_stage "eval" stages = true →
stage_search K p d stages l w =
  match search_file (w_env w) with
  | Some f =>
      (Ret (bind_search l (_dict_to_search_result <$> f)),
       logged [EvFileExists "search_results.json";
               EvLoadJson "search_results.json"] w)
  | None =>
      (Raise (FileNotFoundError
                "Search results not found. Please run 'search' stage first."),
       logged [EvFileExists "search_results.json"] w)
  end.
Proof.
intros Hs Hdone Hneed.
unfold stage_search. rewrite (bind_ret _ _ _ _ _ (is_completed_run _ w)).
rewrite Hs, Hneed, (bool_decide_eq_false_2 _ Hdone). simpl.
unfold load_search_json, log, m_bind, m_gets, m_modify, m_ret, m_raise, logged.
simpl.
destruct (search_file (w_env w)); simpl; [|done].
by rewrite <- app_assoc.
Qed.

(** Answer is skipped but needed by Evaluate. *)
Lemma stage_answer_needed p d stages l w :
has_stage "answer" stages = false →
"answer" ∉ w_completed w →
has_stage "evaluate" stages = true →
stage_answer K p d stages l w =
  match answer_file (w_env w) with
  | Some f =>
      (Ret (bind_answer l (_dict_to_answer_result <$> f)),
       logged [EvFileExists "answer_results.json";
               EvLoadJson "answer_results.json"] w)
  | None =>
      (Raise (FileNotFoundError
                "Answer results not found. Please run 'answer' stage first."),
       logged [EvFileExists "answer_results.json"] w)
  end.
Proof.
intros Hs Hdone Hneed.
unfold stage_answer. rewrite (bind_ret _ _ _ _ _ (is_completed_run _ w)).
rewrite Hs, Hneed, (bool_decide_eq_false_2 _ Hdone). simpl.
unfold load_answer_json, log, m_bind, m_gets, m_modify, m_ret, m_raise, logged.
simpl.
destruct (answer_file (w_env w)); simpl; [|done].
by rewrite <- app_assoc.
Qed.

Lemma stage_answer_completed p d stages l w :
"answer" ∈ w_completed w →
stage_answer K p d stages l w =
  if truthy (l_answer_results_data l) then
    (Ret (bind_answer l
            (_dict_to_answer_result <$> default [] (l_answer_results_data l))), w)
  else
    match answer_file (w_env w) with
    | Some f =>
        (Ret (bind_answer l (_dict_to_answer_result <$> f)),
         logged [EvFileExists "answer_results.json";
                 EvLoadJson "answer_results.json"] w)
    | None => (Ret l, logged [EvFileExists "answer_results.json"] w)
    end.
Proof.
intros Hdone.
unfold stage_answer. rewrite (bind_ret _ _ _ _ _ (is_completed_run _ w)).
rewrite (bool_decide_eq_true_2 _ Hdone), andb_false_r.
destruct (truthy (l_answer_results_data l)); [done|].
unfold load_answer_json, log, m_bind, m_gets, m_modify, m_ret, logged. simpl.
destruct (answer_file (w_env w)); simpl; [|done].
by rewrite <- app_assoc.
Qed.


Lemma stage_evaluate_skip p stages l w :
has_stage "evaluate" stages && negb (bool_decide ("evaluate" ∈ w_completed w))
  = false →
stage_evaluate K p stages l w = (Ret l, w).
Proof.
intros Hskip.
unfold stage_evaluate. rewrite (bind_ret _ _ _ _ _ (is_completed_run _ w)).
by rewrite Hskip.
Qed.

End Gates.

(** ** Requesting only Evaluate *)

Section OnlyEvaluate.
Context {E Index : Type} (K : Collaborators E Index).
Implicit Types (p : Pipeline) (w : World E).

Lemma run_unfold p dataset stages smoke nm nq elapsed w :
  run K p dataset stages smoke nm nq elapsed w =
    match preprocess (filter_categories p) dataset smoke nm nq (w_heap w) with
    | (Ret d, h) =>
        run_stages K p d stages elapsed
          {| w_heap := h; w_env := w_env w;
             w_completed := w_completed w; w_trace := w_trace w |}
    | (Raise e, h) =>
        (Raise e, {| w_heap := h; w_env := w_env w;
                     w_completed := w_completed w; w_trace := w_trace w |})
    end.
Proof.
  unfold run, m_bind, on_heap.
  by destruct (preprocess _ _ _ _ _ _) as [[d|e] h].
Qed.

Lemma run_stages_resume p d stages elapsed w ds i env :
  "add" ∉ requested stages ∨ "add" ∈ effective_completed p w →
  h_datasets (w_heap w) !! d = Some ds →
  build_lazy_index K (w_heap w) (conversations ds) (w_env w) = (Ret i, env) →
  run_stages K p d stages elapsed w =
    tail_stages K p d (requested stages) elapsed (resumed_locals p i w)
      (resumed_world p env w).
Proof.
  intros Hadd Hds Hidx. unfold run_stages.
  rewrite (bind_ret _ _ _ _ _ (try_load_checkpoint_run p w)).
  destruct (checkpoint_payloads p w) as [sd ad] eqn:Hpay.
  fold (requested stages).
  rewrite (bind_ret _ _ _
             (set_index {| r_index := None; r_search_results := None;
                           r_answer_results := None; r_eval_result := None |} i,
              false)
             (resumed_world p env w)).
  - rewrite (bind_ret _ _ _ _ _ (post_add_wait_skip K _ _)).
    unfold tail_stages, resumed_locals. by rewrite Hpay.
  - rewrite stage_add_skip.
    + cbn [with_completed logged w_heap w_env]. by rewrite Hds, Hidx.
    + cbn [with_completed logged w_completed]. unfold has_stage.
      destruct Hadd as [Hadd|Hadd].
      * by rewrite (bool_decide_eq_false_2 _ Hadd).
      * by rewrite (bool_decide_eq_true_2 _ Hadd), andb_false_r.
Qed.

Lemma run_stages_index_unbuilt p d stages elapsed w :
  "add" ∉ requested stages ∨ "add" ∈ effective_completed p w →
  (h_datasets (w_heap w) !! d = None ∨
   ∃ ds e env, h_datasets (w_heap w) !! d = Some ds ∧
     build_lazy_index K (w_heap w) (conversations ds) (w_env w) = (Raise e, env)) →
  ∃ e w', run_stages K p d stages elapsed w = (Raise e, w') ∧
          w_trace w' ⊆ w_trace w ++ [EvLoadCheckpoint; EvBuildLazyIndex].
Proof.
  intros Hadd Hbad. unfold run_stages.
  rewrite (bind_ret _ _ _ _ _ (try_load_checkpoint_run p w)).
  destruct (checkpoint_payloads p w) as [sd ad] eqn:Hpay.
  fold (requested stages).
  assert (has_stage "add" (requested stages)
          && negb (bool_decide ("add" ∈ effective_completed p w)) = false) as Hskip.
  { unfold has_stage. destruct Hadd as [Hadd|Hadd].
    - by rewrite (bool_decide_eq_false_2 _ Hadd).
    - by rewrite (bool_decide_eq_true_2 _ Hadd), andb_false_r. }
  destruct Hbad as [Hnone|(ds & e & env & Hds & Hidx)].
  - eexists _, _. split.
    + apply bind_raise. rewrite stage_add_skip by done.
      cbn [with_completed logged w_heap w_env]. by rewrite Hnone.
    + cbn. intros x. rewrite !elem_of_app, !elem_of_cons.
      destruct (use_checkpoint p); set_solver.
  - eexists _, _. split.
    + apply bind_raise. rewrite stage_add_skip by done.
      cbn [with_completed logged w_heap w_env]. by rewrite Hds, Hidx.
    + cbn. intros x. rewrite !elem_of_app, !elem_of_cons.
      destruct (use_checkpoint p); set_solver.
Qed.

(** Search is neither requested nor needed: at most the persisted
    artifact is read, and the gate is passed. *)
Lemma stage_search_passed p d stages l w :
  has_stage "search" stages = false →
  has_stage "answer" stages || has_stage "eval" stages = false →
  ∃ l' t,
    stage_search K p d stages l w = (Ret l', logged t w) ∧
    t ⊆ [EvFileExists "search_results.json"; EvLoadJson "search_results.json"].
Proof.
  intros Hs Hneed.
  destruct (decide ("search" ∈ w_completed w)) as [Hdone|Hdone].
  - rewrite stage_search_completed by done.
    destruct (truthy _).
    + exists (bind_search l (_dict_to_search_result <$>
                               default [] (l_search_results_data l))), [].
      split; [|set_solver]. unfold logged. rewrite app_nil_r. by destruct w.
    + destruct (search_file (w_env w)); eexists _, _; (split; [done|set_solver]).
  - rewrite stage_search_unneeded by done.
    exists (search_none l), []. split; [|set_solver].
    unfold logged. rewrite app_nil_r. by destruct w.
Qed.

End OnlyEvaluate.

(** X1. A run that requests only the "evaluate" stage, with the answer
    stage not completed (in the checkpoint, or in the set the pipeline
    holds when there is none) and no persisted [answer_results.json],
    ends with an exception and never calls the evaluate executor, so no
    [EvaluationResult] is produced; whenever the pre-processing and the
    index rebuild succeed, the exception is the [FileNotFoundError] that
    names the answer stage. *)
Theorem evaluate_only_without_answers {E Index} (K : Collaborators E Index)
    (p : Pipeline) (dataset : loc) (smoke_test : bool)
    (smoke_messages smoke_questions : Z) (elapsed_time : float) (w : World E) :
  "answer" ∉ effective_completed p w →
  answer_file (w_env w) = None →
  index_rebuild_keeps_store K →
  ∃ e w',
    run K p dataset (Some ["evaluate"]) smoke_test smoke_messages smoke_questions
      elapsed_time (fresh_trace w) = (Raise e, w') ∧
    Forall (λ ev, is_evaluate ev = false) (w_trace w') ∧
    (∀ d h ds i env,
       preprocess (filter_categories p) dataset smoke_test smoke_messages
         smoke_questions (w_heap w) = (Ret d, h) →
       h_datasets h !! d = Some ds →
       build_lazy_index K h (conversations ds) (w_env w) = (Ret i, env) →
       e = FileNotFoundError
             "Answer results not found. Please run 'answer' stage first.").
Proof.
  intros Hdone Hfile Hkeep.
  rewrite run_unfold. cbn [fresh_trace w_heap w_env w_completed w_trace].
  destruct (preprocess _ _ _ _ _ _) as [[d|e] h] eqn:Hpre.
  2:{ eexists _, _. split; [done|]. split; [by constructor|].
      intros ?????; congruence. }
  set (w1 := {| w_heap := h; w_env := w_env w;
                w_completed := w_completed w; w_trace := [] |}).
  assert (effective_completed p w1 = effective_completed p w) as Heff by done.
  assert (∀ t : list event,
            t ⊆ w_trace w1 ++ [EvLoadCheckpoint; EvBuildLazyIndex] →
            Forall (λ ev, is_evaluate ev = false) t) as Hsub.
  { intros t Ht. apply Forall_forall. intros ev Hev. apply Ht in Hev.
    cbn in Hev. set_solver. }
  destruct (h_datasets h !! d) as [ds|] eqn:Hds.
  2:{ destruct (run_stages_index_unbuilt K p d (Some ["evaluate"]) elapsed_time w1)
        as (e & w' & -> & Ht).
      - left. cbn. set_solver.
      - by left.
      - exists e, w'. split; [done|]. split; [by apply Hsub|].
        intros ?????; congruence. }
  destruct (build_lazy_index K h (conversations ds) (w_env w))
    as [[i|e] env] eqn:Hidx.
  2:{ destruct (run_stages_index_unbuilt K p d (Some ["evaluate"]) elapsed_time w1)
        as (e' & w' & -> & Ht).
      - left. cbn. set_solver.
      - right. by exists ds, e, env.
      - exists e', w'. split; [done|]. split; [by apply Hsub|].
        intros ?????; congruence. }
  rewrite (run_stages_resume K p d (Some ["evaluate"]) elapsed_time w1 ds i env);
    [|left; cbn; set_solver|done|done].
  unfold tail_stages. cbn [requested default].
  destruct (stage_search_passed K p d ["evaluate"] (resumed_locals p i w1)
              (resumed_world p env w1)) as (l' & t & Hsearch & Ht); [done..|].
  rewrite (bind_ret _ _ _ _ _ Hsearch).
  assert (answer_file env = None) as Hfile'.
  { destruct (Hkeep h (conversations ds) (w_env w)) as (_ & Ha & _).
    rewrite Hidx in Ha. cbn in Ha. congruence. }
  eexists _, _. split.
  - apply bind_raise. rewrite stage_answer_needed; [|done| |done].
    + cbn [logged resumed_world with_env w_env]. by rewrite Hfile'.
    + cbn [logged resumed_world with_env with_completed w_completed].
      by rewrite Heff.
  - split.
    + cbn. apply Forall_forall. intros ev Hev.
      rewrite !elem_of_app in Hev.
      destruct Hev as [[[Hev|Hev]|Hev]|Hev].
      * destruct (use_checkpoint p); set_solver.
      * set_solver.
      * apply Ht in Hev. set_solver.
      * set_solver.
    + intros d0 h0 ds0 i0 env0 Hpre0 Hds0 Hidx0. done.
Qed.

(** The sample run: checkpointing off, an empty store. *)
Lemma evaluate_only_without_answers_witness :
  ∃ e w',
    run Example.collaborators Example.without_checkpoint 0%nat (Some ["evaluate"])
      false 0 0 0%float (fresh_trace Example.world) = (Raise e, w') ∧
    Forall (λ ev, is_evaluate ev = false) (w_trace w') ∧
    (∀ d h ds i env,
       preprocess (filter_categories Example.without_checkpoint) 0%nat false 0 0
         (w_heap Example.world) = (Ret d, h) →
       h_datasets h !! d = Some ds →
       build_lazy_index Example.collaborators h (conversations ds)
         (w_env Example.world) = (Ret i, env) →
       e = FileNotFoundError
             "Answer results not found. Please run 'answer' stage first.").
Proof.
  apply (evaluate_only_without_answers Example.collaborators
           Example.without_checkpoint 0%nat false 0 0 0%float Example.world).
  - vm_compute. set_solver.
  - reflexivity.
  - intros h cs env. by vm_compute.
Defined.

(** ** The checkpoint save of Evaluate *)

Section EvaluateSave.
Context {E Index : Type} (K : Collaborators E Index).
Implicit Types (p : Pipeline) (w : World E) (l : Locals (Index:=Index)).



End EvaluateSave.




(** ** Runs that do not execute Add *)

Section Resumed.
Context {E Index : Type} (K : Collaborators E Index).
Implicit Types (p : Pipeline) (w : World E).

(** Either the pre-processing and the index rebuild succeed and the run
    is the last three stages, or the run ends there with an exception. *)
Lemma run_resume p dataset stages smoke nm nq elapsed w :
  "add" ∉ requested stages ∨ "add" ∈ effective_completed p w →
  (∃ d h ds i env,
     preprocess (filter_categories p) dataset smoke nm nq (w_heap w) = (Ret d, h) ∧
     h_datasets h !! d = Some ds ∧
     build_lazy_index K h (conversations ds) (w_env w) = (Ret i, env) ∧
     run K p dataset stages smoke nm nq elapsed (fresh_trace w) =
       tail_stages K p d (requested stages) elapsed (resumed_locals p i w)
         (resumed_world p env (preprocessed h w)))
  ∨ (∃ e w',
       run K p dataset stages smoke nm nq elapsed (fresh_trace w) = (Raise e, w') ∧
       w_trace w' ⊆ [EvLoadCheckpoint; EvBuildLazyIndex] ∧
       ∀ d h ds i env,
         preprocess (filter_categories p) dataset smoke nm nq (w_heap w) = (Ret d, h) →
         h_datasets h !! d = Some ds →
         build_lazy_index K h (conversations ds) (w_env w) = (Ret i, env) →
         False).
Proof.
  intros Hadd.
  rewrite run_unfold. cbn [fresh_trace w_heap w_env w_completed w_trace].
  destruct (preprocess _ _ _ _ _ _) as [[d|e] h] eqn:Hpre.
  2:{ right. eexists _, _. split; [done|]. split; [set_solver|].
      intros ?????; congruence. }
  fold (preprocessed h w).
  destruct (h_datasets h !! d) as [ds|] eqn:Hds.
  2:{ right.
      destruct (run_stages_index_unbuilt K p d stages elapsed (preprocessed h w))
        as (e & w' & -> & Ht); [done|by left|].
      exists e, w'. split; [done|]. split; [done|].
      intros ?????; congruence. }
  destruct (build_lazy_index K h (conversations ds) (w_env w))
    as [[i|e] env] eqn:Hidx.
  2:{ right.
      destruct (run_stages_index_unbuilt K p d stages elapsed (preprocessed h w))
        as (e' & w' & -> & Ht); [done|right; by exists ds, e, env|].
      exists e', w'. split; [done|]. split; [done|].
      intros ?????; congruence. }
  left. exists d, h, ds, i, env. repeat (split; [done|]).
  by rewrite (run_stages_resume K p d stages elapsed (preprocessed h w) ds i env).
Qed.

End Resumed.

(** X3. Search is not requested and not
    completed, "answer" is requested, Add is not executed (not requested,
    or completed) and there is no [search_results.json]: the run ends
    with an exception and calls none of the stage executors; whenever
    the pre-processing and the index rebuild succeed, the exception is
    the [FileNotFoundError] that names the search stage. *)
Theorem answer_without_search_results {E Index} (K : Collaborators E Index)
    (p : Pipeline) (dataset : loc) (stages : option (list string))
    (smoke_test : bool) (smoke_messages smoke_questions : Z)
    (elapsed_time : float) (w : World E) :
  "search" ∉ requested stages →
  "answer" ∈ requested stages →
  "add" ∉ requested stages ∨ "add" ∈ effective_completed p w →
  "search" ∉ effective_completed p w →
  search_file (w_env w) = None →
  index_rebuild_keeps_store K →
  ∃ e w',
    run K p dataset stages smoke_test smoke_messages smoke_questions
      elapsed_time (fresh_trace w) = (Raise e, w') ∧
    Forall (λ ev, stage_called ev = None) (w_trace w') ∧
    (∀ d h ds i env,
       preprocess (filter_categories p) dataset smoke_test smoke_messages
         smoke_questions (w_heap w) = (Ret d, h) →
       h_datasets h !! d = Some ds →
       build_lazy_index K h (conversations ds) (w_env w) = (Ret i, env) →
       e = FileNotFoundError
             "Search results not found. Please run 'search' stage first.").
Proof.
  intros Hsearch Hanswer Hadd Hdone Hfile Hkeep.
  destruct (run_resume K p dataset stages smoke_test smoke_messages
              smoke_questions elapsed_time w Hadd)
    as [(d & h & ds & i & env & Hpre & Hds & Hidx & ->)
       |(e & w' & -> & Ht & Hbad)].
  - assert (search_file env = None) as Hfile'.
    { destruct (Hkeep h (conversations ds) (w_env w)) as (Hs & _).
      rewrite Hidx in Hs. cbn in Hs. congruence. }
    unfold tail_stages. eexists _, _. split.
    + apply bind_raise. rewrite stage_search_needed.
      * cbn [resumed_world with_env w_env]. by rewrite Hfile'.
      * apply (bool_decide_eq_false_2 _ Hsearch).
      * done.
      * unfold has_stage. by rewrite (bool_decide_eq_true_2 _ Hanswer).
    + split.
      * cbn. apply Forall_forall. intros ev Hev.
        destruct (use_checkpoint p); set_solver.
      * intros. done.
  - exists e, w'. split; [done|]. split.
    + apply Forall_forall. intros ev Hev. apply Ht in Hev. set_solver.
    + intros d h ds i env Hpre Hds Hidx. destruct (Hbad d h ds i env Hpre Hds Hidx).
Qed.

(** The sample run: "answer" requested, an empty store. *)
Lemma answer_without_search_results_witness :
  ∃ e w',
    run Example.collaborators Example.without_checkpoint 0%nat (Some ["answer"])
      false 0 0 0%float (fresh_trace Example.world) = (Raise e, w') ∧
    Forall (λ ev, stage_called ev = None) (w_trace w') ∧
    (∀ d h ds i env,
       preprocess (filter_categories Example.without_checkpoint) 0%nat false 0 0
         (w_heap Example.world) = (Ret d, h) →
       h_datasets h !! d = Some ds →
       build_lazy_index Example.collaborators h (conversations ds)
         (w_env Example.world) = (Ret i, env) →
       e = FileNotFoundError
             "Search results not found. Please run 'search' stage first.").
Proof.
  apply (answer_without_search_results Example.collaborators
           Example.without_checkpoint 0%nat (Some ["answer"]) false 0 0 0%float
           Example.world).
  - cbn. set_solver.
  - cbn. set_solver.
  - left. cbn. set_solver.
  - vm_compute. set_solver.
  - reflexivity.
  - intros h cs env. by vm_compute.
Defined.

Section SearchUnread.
Context {E Index : Type} (K : Collaborators E Index).
Implicit Types (p : Pipeline) (w : World E) (l : Locals (Index:=Index)).

Lemma stage_answer_keeps_search p d stages l w l' w' :
  stage_answer K p d stages l w = (Ret l', w') →
  r_search_results (l_results l') = r_search_results (l_results l) ∧
  l_search_results l' = l_search_results l.
Proof.
  unfold stage_answer, is_completed, mark_completed, save_answer_json,
    save_checkpoint, load_answer_json, search_payload, read_var, comprehension,
    set_env, set_completed, log, call, on_heap, Store.read_dataset,
    m_bind, m_gets, m_modify, m_ret, m_raise.
  intros H.
  repeat (simpl in H;
          match type of H with
          | context [match ?x with _ => _ end] => destruct x eqn:?
          | context [if ?b then _ else _] => destruct b eqn:?
          end);
    simpl in H; try discriminate; by injection H as <- <-.
Qed.

Lemma stage_evaluate_keeps_search p stages l w l' w' :
  stage_evaluate K p stages l w = (Ret l', w') →
  r_search_results (l_results l') = r_search_results (l_results l).
Proof.
  unfold stage_evaluate, is_completed, mark_completed, save_eval_json,
    save_checkpoint, search_payload, read_var, comprehension,
    set_env, set_completed, log, call, m_bind, m_gets, m_modify, m_ret, m_raise.
  intros H.
  repeat (simpl in H;
          match type of H with
          | context [match ?x with _ => _ end] => destruct x eqn:?
          | context [if ?b then _ else _] => destruct b eqn:?
          end);
    simpl in H; try discriminate; by injection H as <-.
Qed.

(** What follows the search gate records no event of Search. *)
Lemma after_search_origin p d stages elapsed l :
  appends (λ ev, origin ev ≠ "search")
    (l <- stage_answer K p d stages l ;;
     l <- stage_evaluate K p stages l ;;
     _generate_report K (l_results l) elapsed ;;;
     m_ret (l_results l)).
Proof.
  apply appends_bind; [|intros l1; apply appends_bind; [|intros l2]].
  - eapply appends_weaken; [|apply stage_answer_origin]. by intros ev ->.
  - eapply appends_weaken; [|apply stage_evaluate_origin]. by intros ev ->.
  - apply appends_bind; [|intros; apply appends_ret].
    eapply appends_weaken; [|apply generate_report_origin]. by intros ev ->.
Qed.

End SearchUnread.

(** X4. The gate of lines 266-277 asks for
    "answer" and "eval".  When none of "search", "answer" and "eval" is
    requested, Search is not completed and Add is not executed, the run
    never looks for [search_results.json], whether "evaluate" is
    requested or not, and the results it returns hold no search
    result. *)
Theorem unneeded_search_results_unread {E Index} (K : Collaborators E Index)
    (p : Pipeline) (dataset : loc) (stages : option (list string))
    (smoke_test : bool) (smoke_messages smoke_questions : Z)
    (elapsed_time : float) (w : World E) o w' :
  "search" ∉ requested stages →
  "answer" ∉ requested stages →
  "eval" ∉ requested stages →
  "add" ∉ requested stages ∨ "add" ∈ effective_completed p w →
  "search" ∉ effective_completed p w →
  run K p dataset stages smoke_test smoke_messages smoke_questions
    elapsed_time (fresh_trace w) = (o, w') →
  (EvFileExists "search_results.json" ∉ w_trace w') ∧
  (EvLoadJson "search_results.json" ∉ w_trace w') ∧
  ∀ r, o = Ret r → r_search_results r = None.
Proof.
  intros Hsearch Hanswer Heval Hadd Hdone.
  destruct (run_resume K p dataset stages smoke_test smoke_messages
              smoke_questions elapsed_time w Hadd)
    as [(d & h & ds & i & env & Hpre & Hds & Hidx & ->)
       |(e & w0 & -> & Ht & Hbad)].
  2:{ intros [= <- <-]. split; [|split]; [set_solver..|done]. }
  unfold tail_stages.
  rewrite (bind_ret _ _ _ _ _
             (stage_search_unneeded K p d (requested stages)
                (resumed_locals p i w) (resumed_world p env (preprocessed h w))
                (bool_decide_eq_false_2 _ Hsearch) Hdone
                ltac:(by unfold has_stage;
                      rewrite (bool_decide_eq_false_2 _ Hanswer),
                              (bool_decide_eq_false_2 _ Heval)))).
  intros Hrun.
  destruct (after_search_origin K p d (requested stages) elapsed_time
              (search_none (resumed_locals p i w))
              (resumed_world p env (preprocessed h w))) as (t & Ht & Horigin).
  rewrite Hrun in Ht. cbn in Ht.
  assert (∀ ev, origin ev = "search" → ev ∉ w_trace w') as Hno.
  { intros ev Hev. rewrite Ht, !elem_of_app.
    intros [[Hin|Hin]|Hin].
    - destruct (use_checkpoint p); [|set_solver].
      apply list_elem_of_singleton in Hin. by subst.
    - apply list_elem_of_singleton in Hin. by subst.
    - by apply (proj1 (Forall_forall _ _) Horigin ev Hin). }
  split; [by apply Hno|]. split; [by apply Hno|].
  intros r ->. revert Hrun. unfold m_bind at 1.
  destruct (stage_answer _ _ _ _ _ _) as [[l1|e1] w1] eqn:Hans; [|done].
  apply stage_answer_keeps_search in Hans as [Hans _].
  unfold m_bind at 1.
  destruct (stage_evaluate _ _ _ _ _) as [[l2|e2] w2] eqn:Hev; [|done].
  apply stage_evaluate_keeps_search in Hev.
  unfold m_bind at 1.
  destruct (_generate_report _ _ _ _) as [[[]|e3] w3]; [|done].
  intros [= <- <-]. by rewrite Hev, Hans.
Qed.

(** The sample run: only "evaluate" requested, [answer_results.json]
    there. *)
Lemma unneeded_search_results_unread_witness :
  let end_of_run :=
    run Example.collaborators Example.without_checkpoint 0%nat (Some ["evaluate"])
      false 0 0 0%float (fresh_trace (Example.world_with Example.env_answer_only)) in
  (EvFileExists "search_results.json" ∉ w_trace end_of_run.2) ∧
  (EvLoadJson "search_results.json" ∉ w_trace end_of_run.2) ∧
  ∀ r, end_of_run.1 = Ret r → r_search_results r = None.
Proof.
  apply (unneeded_search_results_unread Example.collaborators
           Example.without_checkpoint 0%nat (Some ["evaluate"]) false 0 0 0%float
           (Example.world_with Example.env_answer_only)).
  - cbn. set_solver.
  - cbn. set_solver.
  - cbn. set_solver.
  - left. cbn. set_solver.
  - vm_compute. set_solver.
  - apply surjective_pairing.
Defined.

(** ** What every run keeps to *)

Ltac appends_by tac :=
  repeat first
    [ apply appends_ret | apply appends_raise | apply appends_gets
    | apply appends_set_env | apply appends_set_completed
    | apply appends_on_heap | apply appends_call | apply appends_call_add_stage
    | apply appends_log; tac
    | apply appends_bind; [| intros ?]
    | match goal with
      | |- appends _ (if ?b then _ else _) => destruct b eqn:?
      | |- appends _ (match ?x with _ => _ end) => destruct x eqn:?
      end ].

Section EveryRun.
Context {E Index : Type} (K : Collaborators E Index).
Implicit Types (p : Pipeline) (w : World E) (l : Locals (Index:=Index)).

Lemma sleep_loop_appends (P : event → Prop) n :
  P EvSleep → appends (E:=E) P (sleep_loop n).
Proof. intros HP. induction n; simpl; appends_by ltac:(assumption). exact IHn. Qed.

Lemma run_appends (P : event → Prop) p dataset stages smoke nm nq elapsed :
  appends (E:=E) P (try_load_checkpoint p) →
  (∀ d r, appends P (stage_add K d (requested stages) r)) →
  P EvSleep →
  (∀ d l, appends P (stage_search K p d (requested stages) l)) →
  (∀ d l, appends P (stage_answer K p d (requested stages) l)) →
  (∀ l, appends P (stage_evaluate K p (requested stages) l)) →
  P EvReport →
  appends P (run K p dataset stages smoke nm nq elapsed).
Proof.
  intros Hck Hadd Hsleep Hsearch Hanswer Heval Hreport.
  unfold run, run_stages. fold (requested stages).
  apply appends_bind; [apply appends_on_heap|intros d].
  apply appends_bind; [apply Hck|intros [sd ad]].
  apply appends_bind; [apply Hadd|intros [r b]].
  apply appends_bind.
  { unfold post_add_wait. appends_by ltac:(assumption). by apply sleep_loop_appends. }
  intros _.
  apply appends_bind; [apply Hsearch|intros l1].
  apply appends_bind; [apply Hanswer|intros l2].
  apply appends_bind; [apply Heval|intros l3].
  apply appends_bind; [|intros; apply appends_ret].
  unfold _generate_report, write_report. appends_by ltac:(assumption).
Qed.

Lemma run_calls_requested p dataset stages smoke nm nq elapsed :
  appends (λ ev : event, ∀ s, stage_called ev = Some s → s ∈ requested stages)
    (run K p dataset stages smoke nm nq elapsed).
Proof.
  apply run_appends; try (by intros s' [=]).
  - unfold try_load_checkpoint, load_checkpoint.
    appends_by ltac:(by intros s' [=]).
  - intros d r. unfold stage_add, rebuild_index, is_completed.
    appends_by ltac:(idtac); try (by intros s' [=]).
    intros s' [= <-]. apply andb_prop in Heqb as [Hin _].
    by apply bool_decide_eq_true in Hin.
  - intros d l. unfold stage_search, is_completed, mark_completed,
      save_search_json, save_checkpoint, load_search_json.
    appends_by ltac:(idtac); try (by intros s' [=]).
    all: intros s' [= <-]; apply andb_prop in Heqb as [Hin _];
      by apply bool_decide_eq_true in Hin.
  - intros d l. unfold stage_answer, is_completed, mark_completed,
      save_answer_json, save_checkpoint, load_answer_json, search_payload,
      read_var, comprehension.
    appends_by ltac:(idtac); try (by intros s' [=]).
    all: intros s' [= <-]; apply andb_prop in Heqb as [Hin _];
      by apply bool_decide_eq_true in Hin.
  - intros l. unfold stage_evaluate, is_completed, mark_completed,
      save_eval_json, save_checkpoint, search_payload, read_var, comprehension.
    appends_by ltac:(idtac); try (by intros s' [=]).
    all: intros s' [= <-]; apply andb_prop in Heqb as [Hin _];
      by apply bool_decide_eq_true in Hin.
Qed.

End EveryRun.

(** X5. In every run, whatever it starts
    from and however it ends, the executor of a stage is called only
    when the stage is among the requested ones. *)
Theorem executors_only_when_requested {E Index} (K : Collaborators E Index)
    (p : Pipeline) (dataset : loc) (stages : option (list string))
    (smoke_test : bool) (smoke_messages smoke_questions : Z)
    (elapsed_time : float) (w : World E) (ev : event) (s : string) :
  ev ∈ w_trace (run K p dataset stages smoke_test smoke_messages smoke_questions
                  elapsed_time (fresh_trace w)).2 →
  stage_called ev = Some s →
  s ∈ requested stages.
Proof.
  destruct (run_calls_requested K p dataset stages smoke_test smoke_messages
              smoke_questions elapsed_time (fresh_trace w)) as (t & -> & Ht).
  cbn. intros Hev. by apply (proj1 (Forall_forall _ _) Ht ev Hev).
Qed.

(** The sample run of Add and Search: the call of the search executor. *)
Lemma executors_only_when_requested_witness :
  "search" ∈ requested (Some ["add"; "search"]).
Proof.
  apply (executors_only_when_requested Example.collaborators
           Example.without_checkpoint 0%nat (Some ["add"; "search"]) false 0 0
           0%float Example.world (EvSearchStage (qa_pairs Example.dataset))
           "search").
  - vm_compute. do 4 apply list_elem_of_further. apply list_elem_of_here.
  - reflexivity.
Defined.

Section RunAssertions.
Context {E Index : Type} (K : Collaborators E Index).
Implicit Types (p : Pipeline) (w : World E) (l : Locals (Index:=Index)).

(** Assertions that hold between the parts of [run]. *)
Lemma run_hoare (I0 I1 I2 I3 I4 I5 I6 I7 X : World E → Prop)
    (Q : World E → Prop) p dataset stages smoke nm nq elapsed :
  hoare I0 (on_heap (preprocess (filter_categories p) dataset smoke nm nq))
    (λ _, I1) X →
  hoare I1 (try_load_checkpoint p) (λ _, I2) X →
  (∀ d r, hoare I2 (stage_add K d (requested stages) r) (λ _, I3) X) →
  (∀ b, hoare I3 (post_add_wait K (requested stages) b) (λ _, I4) X) →
  (∀ d l, hoare I4 (stage_search K p d (requested stages) l) (λ _, I5) X) →
  (∀ d l, hoare I5 (stage_answer K p d (requested stages) l) (λ _, I6) X) →
  (∀ l, hoare I6 (stage_evaluate K p (requested stages) l) (λ _, I7) X) →
  (∀ r, hoare I7 (_generate_report K r elapsed) (λ _, Q) X) →
  hoare I0 (run K p dataset stages smoke nm nq elapsed) (λ _, Q) X.
Proof.
  intros Hpre Hck Hadd Hwait Hsearch Hanswer Heval Hreport.
  unfold run, run_stages. fold (requested stages).
  eapply hoare_bind; [exact Hpre|intros d].
  eapply hoare_bind; [exact Hck|intros [sd ad]].
  eapply hoare_bind; [apply Hadd|intros [r b]].
  eapply hoare_bind; [apply Hwait|intros u].
  eapply hoare_bind; [apply Hsearch|intros l1].
  eapply hoare_bind; [apply Hanswer|intros l2].
  eapply hoare_bind; [apply Heval|intros l3].
  eapply hoare_bind; [apply Hreport|intros u'].
  by apply hoare_ret.
Qed.

Lemma ordered_snoc n m t ev :
  ordered_upto n t → (n ≤ rank ev)%nat → (rank ev ≤ m)%nat →
  ordered_upto m (t ++ [ev]).
Proof.
  intros [Hord Hle] Hn Hm. split.
  - intros i j a b Hij Ha Hb.
    assert (j < length (t ++ [ev]))%nat as Hj by (eapply lookup_lt_Some; eauto).
    rewrite length_app in Hj. cbn in Hj.
    rewrite lookup_app_l in Ha by lia.
    destruct (decide (j < length t)%nat) as [Hlt|Hge].
    + rewrite lookup_app_l in Hb by lia. eauto.
    + rewrite lookup_app_r in Hb by lia.
      replace (j - length t)%nat with 0%nat in Hb by lia.
      injection Hb as <-.
      pose proof (proj1 (Forall_lookup _ _) Hle i a Ha). cbn in *. lia.
  - apply Forall_app. split.
    + eapply Forall_impl; [exact Hle|]. cbn. intros. lia.
    + by constructor.
Qed.

Lemma appends_ordered {A} n m (c : M (World E) A) :
  appends (λ ev, rank ev = m) c → (n ≤ m)%nat → (m ≤ 6)%nat →
  hoare (λ w, ordered_upto n (w_trace w)) c
    (λ _ w, ordered_upto m (w_trace w)) (λ w, ordered_upto 6 (w_trace w)).
Proof.
  intros Hc Hn Hm.
  assert (∀ k k' t, (k ≤ k')%nat → ordered_upto k t → ordered_upto k' t) as Hweak.
  { intros k k' t Hk [Hord Hle]. split; [done|].
    eapply Forall_impl; [exact Hle|]. cbn. intros. lia. }
  eapply hoare_conseq.
  - apply (appends_hoare _ (ordered_upto m) c Hc).
    intros t ev Ht Hev. apply (ordered_snoc m m); [done|lia|lia].
  - intros w. by apply Hweak.
  - done.
  - intros w. by apply Hweak.
Qed.

End RunAssertions.

(** X6. The record of every run is in the order of
    the stages: the checkpoint load, then Add or the index rebuild, the
    wait, then what Search does (executor, artifact, checkpoint), what
    Answer does, what Evaluate does, and the report last; nothing of an
    earlier part happens after something of a later one. *)
Theorem events_in_stage_order {E Index} (K : Collaborators E Index)
    (p : Pipeline) (dataset : loc) (stages : option (list string))
    (smoke_test : bool) (smoke_messages smoke_questions : Z)
    (elapsed_time : float) (w : World E) :
  in_order (w_trace (run K p dataset stages smoke_test smoke_messages
                       smoke_questions elapsed_time (fresh_trace w)).2).
Proof.
  pose proof (hoare_run (λ w, ordered_upto 0 (w_trace w))
                (run K p dataset stages smoke_test smoke_messages
                   smoke_questions elapsed_time)
                (λ _ w, ordered_upto 6 (w_trace w))
                (λ w, ordered_upto 6 (w_trace w)) (fresh_trace w)) as Hrun.
  assert (ordered_upto 0 (w_trace (fresh_trace w))) as Hinit.
  { split; [|by constructor]. intros i j a b _ Ha. by destruct i. }
  match type of Hrun with
  | ?H → _ → _ => assert H as Hh
  end.
  { apply (run_hoare K (λ w, ordered_upto 0 (w_trace w))
             (λ w, ordered_upto 0 (w_trace w)) (λ w, ordered_upto 0 (w_trace w))
             (λ w, ordered_upto 1 (w_trace w)) (λ w, ordered_upto 2 (w_trace w))
             (λ w, ordered_upto 3 (w_trace w)) (λ w, ordered_upto 4 (w_trace w))
             (λ w, ordered_upto 5 (w_trace w))).
    - apply (appends_ordered 0 0); [apply appends_on_heap|lia|lia].
    - apply (appends_ordered 0 0); [|lia|lia].
      unfold try_load_checkpoint, load_checkpoint. appends_by ltac:(reflexivity).
    - intros d r. apply (appends_ordered 0 1); [|lia|lia].
      unfold stage_add, rebuild_index, is_completed. appends_by ltac:(reflexivity).
    - intros b. apply (appends_ordered 1 2); [|lia|lia].
      unfold post_add_wait. appends_by ltac:(reflexivity).
      by apply sleep_loop_appends.
    - intros d l. apply (appends_ordered 2 3); [|lia|lia].
      unfold stage_search, is_completed, mark_completed, save_search_json,
        save_checkpoint, load_search_json.
      appends_by ltac:(reflexivity).
    - intros d l. apply (appends_ordered 3 4); [|lia|lia].
      unfold stage_answer, is_completed, mark_completed, save_answer_json,
        save_checkpoint, load_answer_json, search_payload, read_var,
        comprehension.
      appends_by ltac:(reflexivity).
    - intros l. apply (appends_ordered 4 5); [|lia|lia].
      unfold stage_evaluate, is_completed, mark_completed, save_eval_json,
        save_checkpoint, search_payload, read_var, comprehension.
      appends_by ltac:(reflexivity).
    - intros r. apply (appends_ordered 5 6); [|lia|lia].
      unfold _generate_report, write_report. appends_by ltac:(reflexivity). }
  specialize (Hrun Hh Hinit).
  destruct (run K p dataset stages smoke_test smoke_messages smoke_questions
              elapsed_time (fresh_trace w)) as [[r|e] w']; apply Hrun.
Qed.

(** X7. With [use_checkpoint] off, no
    run calls the checkpoint manager: nothing is loaded from it and
    nothing saved to it, whatever the stages do. *)
Theorem checkpointing_off_no_manager_call {E Index} (K : Collaborators E Index)
    (p : Pipeline) (dataset : loc) (stages : option (list string))
    (smoke_test : bool) (smoke_messages smoke_questions : Z)
    (elapsed_time : float) (w : World E) :
  use_checkpoint p = false →
  Forall (λ ev, is_checkpoint_call ev = false)
    (w_trace (run K p dataset stages smoke_test smoke_messages smoke_questions
                elapsed_time (fresh_trace w)).2).
Proof.
  intros Hoff.
  assert (appends (λ ev, is_checkpoint_call ev = false)
            (run K p dataset stages smoke_test smoke_messages
               smoke_questions elapsed_time)) as Hrun.
  { apply run_appends; try reflexivity.
    - unfold try_load_checkpoint. rewrite Hoff. apply appends_ret.
    - intros d r. unfold stage_add, rebuild_index, is_completed.
      appends_by ltac:(reflexivity).
    - intros d l. unfold stage_search, is_completed, mark_completed,
        save_search_json, load_search_json.
      rewrite Hoff. appends_by ltac:(reflexivity).
    - intros d l. unfold stage_answer, is_completed, mark_completed,
        save_answer_json, load_answer_json, read_var.
      rewrite Hoff. appends_by ltac:(reflexivity).
    - intros l. unfold stage_evaluate, is_completed, mark_completed,
        save_eval_json, read_var.
      rewrite Hoff. appends_by ltac:(reflexivity). }
  destruct (Hrun (fresh_trace w)) as (t & -> & Ht). exact Ht.
Qed.

Lemma checkpointing_off_no_manager_call_witness :
  Forall (λ ev, is_checkpoint_call ev = false)
    (w_trace (run Example.collaborators Example.without_checkpoint 0%nat None
                false 0 0 0%float (fresh_trace Example.world)).2).
Proof.
  apply (checkpointing_off_no_manager_call Example.collaborators
           Example.without_checkpoint 0%nat None false 0 0 0%float Example.world).
  reflexivity.
Defined.

(** X8. The report is written exactly by the runs
    that return: a run that returns has written it once, as the last
    thing it did, and a run that ends with an exception has not written
    it. *)
Theorem report_iff_run_returns {E Index} (K : Collaborators E Index)
    (p : Pipeline) (dataset : loc) (stages : option (list string))
    (smoke_test : bool) (smoke_messages smoke_questions : Z)
    (elapsed_time : float) (w : World E) :
  match run K p dataset stages smoke_test smoke_messages smoke_questions
          elapsed_time (fresh_trace w) with
  | (Ret _, w') =>
      ∃ t, w_trace w' = t ++ [EvReport] ∧ (EvReport ∉ t) ∧
           is_Some (report_file (w_env w'))
  | (Raise _, w') => EvReport ∉ w_trace w'
  end.
Proof.
  set (I := λ w : World E, EvReport ∉ w_trace w).
  assert (∀ A (c : M (World E) A),
            appends (λ ev, rank ev ≠ 6%nat) c → hoare I c (λ _, I) I) as Hstage.
  { intros A c Hc. apply (appends_hoare _ (λ t, EvReport ∉ t) c Hc).
    intros t ev Ht Hev. rewrite elem_of_app, list_elem_of_singleton.
    intros [?| <-]; [done|]. by apply Hev. }
  assert (∀ A n (c : M (World E) A),
            appends (λ ev, rank ev = n) c → n ≠ 6%nat → hoare I c (λ _, I) I)
    as Hrank.
  { intros A n c Hc Hn. apply Hstage. eapply appends_weaken; [|exact Hc].
    cbn. intros ev ->. done. }
  pose proof (hoare_run I
                (run K p dataset stages smoke_test smoke_messages
                   smoke_questions elapsed_time)
                (λ _ w', ∃ t, w_trace w' = t ++ [EvReport] ∧ (EvReport ∉ t) ∧
                              is_Some (report_file (w_env w')))
                I (fresh_trace w)) as Hrun.
  match type of Hrun with
  | ?H → _ → _ => assert H as Hh
  end.
  { apply (run_hoare K I I I I I I I I).
    - apply (Hrank _ 0%nat); [apply appends_on_heap|done].
    - apply (Hrank _ 0%nat); [|done].
      unfold try_load_checkpoint, load_checkpoint. appends_by ltac:(reflexivity).
    - intros d r. apply (Hrank _ 1%nat); [|done].
      unfold stage_add, rebuild_index, is_completed. appends_by ltac:(reflexivity).
    - intros b. apply (Hrank _ 2%nat); [|done].
      unfold post_add_wait. appends_by ltac:(reflexivity).
      by apply sleep_loop_appends.
    - intros d l. apply (Hrank _ 3%nat); [|done].
      unfold stage_search, is_completed, mark_completed, save_search_json,
        save_checkpoint, load_search_json.
      appends_by ltac:(reflexivity).
    - intros d l. apply (Hrank _ 4%nat); [|done].
      unfold stage_answer, is_completed, mark_completed, save_answer_json,
        save_checkpoint, load_answer_json, search_payload, read_var,
        comprehension.
      appends_by ltac:(reflexivity).
    - intros l. apply (Hrank _ 5%nat); [|done].
      unfold stage_evaluate, is_completed, mark_completed, save_eval_json,
        save_checkpoint, search_payload, read_var, comprehension.
      appends_by ltac:(reflexivity).
    - intros r w0 Hw0. cbn. exists (w_trace w0). by eauto. }
  specialize (Hrun Hh ltac:(unfold I; cbn; set_solver)).
  destruct (run K p dataset stages smoke_test smoke_messages smoke_questions
              elapsed_time (fresh_trace w)) as [[r|e] w']; apply Hrun.
Qed.

(** ** The calls of [save_checkpoint] *)


Section CheckpointSaves.
Context {E Index : Type} (K : Collaborators E Index).
Implicit Types (p : Pipeline) (w : World E) (l : Locals (Index:=Index)).




End CheckpointSaves.



(** ** Smoke test: the edges *)

(** X10. A dataset that holds no
    conversation: [_apply_smoke_test] returns the dataset it was given,
    untouched, and [run] with [smoke_test] on then ends with an
    [IndexError] before any stage, having done nothing. *)
Theorem smoke_test_without_conversations {E Index} (K : Collaborators E Index)
    (p : Pipeline) (dataset : loc) (ds : Dataset) (stages : option (list string))
    (smoke_messages smoke_questions : Z) (elapsed_time : float) (w : World E) :
  h_datasets (w_heap w) !! dataset = Some ds →
  conversations ds = [] →
  _apply_smoke_test dataset smoke_messages smoke_questions (w_heap w)
    = (Ret dataset, w_heap w) ∧
  run K p dataset stages true smoke_messages smoke_questions elapsed_time w
    = (Raise (IndexError "list index out of range"), w).
Proof.
  intros Hds Hconvs. split.
  - by apply (apply_smoke_test_empty dataset ds).
  - rewrite run_unfold.
    rewrite (preprocess_smoke_empty _ dataset ds _ _ _ Hds Hconvs).
    by destruct w.
Qed.

Lemma smoke_test_without_conversations_witness :
  run Example.collaborators Example.with_checkpoint 0%nat None true 10 3 0%float
    {| w_heap := Example.empty_heap; w_env := Example.env;
       w_completed := ∅; w_trace := [] |}
  = (Raise (IndexError "list index out of range"),
     {| w_heap := Example.empty_heap; w_env := Example.env;
        w_completed := ∅; w_trace := [] |}).
Proof.
  apply (smoke_test_without_conversations Example.collaborators
           Example.with_checkpoint 0%nat Example.empty_dataset None 10 3 0%float
           {| w_heap := Example.empty_heap; w_env := Example.env;
              w_completed := ∅; w_trace := [] |});
    reflexivity.
Defined.

(** X11. The counts are tested with [> 0]:
    with a message count and a question count that are zero or negative,
    [_apply_smoke_test] writes no conversation, keeps every message of
    the first conversation and every question of it, and records the
    actual numbers in the metadata. *)
Theorem smoke_test_nonpositive_counts (d : loc) (ds : Dataset) (c : loc)
    (cs : list loc) (conv : Conversation) (nm nq : Z) (h : Heap) :
  h_datasets h !! d = Some ds →
  conversations ds = c :: cs →
  h_convs h !! c = Some conv →
  nm ≤ 0 → nq ≤ 0 →
  ∃ ds',
    _apply_smoke_test d nm nq h =
      (Ret (length (h_datasets h)),
       {| h_convs := h_convs h; h_datasets := h_datasets h ++ [ds'] |}) ∧
    conversations ds' = [c] ∧
    qa_pairs ds' = filter (qa_of_conv (conversation_id conv)) (qa_pairs ds) ∧
    metadata ds' !! "smoke_messages" = Some (PyInt (py_len (messages conv))) ∧
    metadata ds' !! "smoke_questions" = Some (PyInt (py_len (qa_pairs ds'))).
Proof.
  intros Hd Hc Hconv Hnm Hnq.
  exists (smoke_dataset nm nq conv ds c).
  rewrite (apply_smoke_test_run d ds c cs conv nm nq h Hd Hc Hconv).
  assert ((0 <? nm) = false) as Hm by lia.
  assert ((0 <? nq) = false) as Hq by lia.
  unfold smoke_dataset, selected_questions, truncated_conversation.
  rewrite Hm, Hq. cbn [conversations qa_pairs metadata].
  rewrite list_insert_id by done.
  repeat split.
  - rewrite lookup_insert_ne by done. by rewrite lookup_insert_eq.
  - by rewrite lookup_insert_eq.
Qed.

Lemma smoke_test_nonpositive_counts_witness :
  ∃ ds',
    _apply_smoke_test 0%nat (-1) (-2) Example.heap =
      (Ret 1%nat,
       {| h_convs := h_convs Example.heap;
          h_datasets := h_datasets Example.heap ++ [ds'] |}) ∧
    length (qa_pairs ds') = 4%nat ∧
    metadata ds' !! "smoke_messages" = Some (PyInt 5).
Proof.
  destruct (smoke_test_nonpositive_counts 0%nat Example.dataset 0%nat [1%nat]
              Example.conv_1 (-1) (-2) Example.heap)
    as (ds' & Hrun & _ & Hqa & Hm & _); [reflexivity..|lia|lia|].
  exists ds'. split; [exact Hrun|]. split; [by rewrite Hqa|exact Hm].
Defined.

(** X12. For a dataset with a first
    conversation, the dataset that [_apply_smoke_test] returns is a new
    object: the name of the original followed by "_smoke", and the
    metadata of the original with "smoke_test" set and the two counts
    recorded as they were asked for when positive, whatever the numbers
    of messages and questions actually kept.  The object it was given
    stays as it was. *)
Theorem smoke_dataset_description (d : loc) (ds : Dataset) (c : loc)
    (cs : list loc) (conv : Conversation) (nm nq : Z) (h : Heap) :
  h_datasets h !! d = Some ds →
  conversations ds = c :: cs →
  h_convs h !! c = Some conv →
  ∃ d' h' ds',
    _apply_smoke_test d nm nq h = (Ret d', h') ∧
    d' ≠ d ∧
    h_datasets h' !! d = Some ds ∧
    h_datasets h' !! d' = Some ds' ∧
    dataset_name ds' = (dataset_name ds ++ "_smoke")%string ∧
    metadata ds' !! "smoke_test" = Some (PyBool true) ∧
    (0 < nm → metadata ds' !! "smoke_messages" = Some (PyInt nm)) ∧
    (0 < nq → metadata ds' !! "smoke_questions" = Some (PyInt nq)) ∧
    (∀ k, k ∉ ["smoke_test"; "smoke_messages"; "smoke_questions"] →
          metadata ds' !! k = metadata ds !! k).
Proof.
  intros Hd Hc Hconv.
  eexists _, _, (smoke_dataset nm nq conv ds c).
  rewrite (apply_smoke_test_run d ds c cs conv nm nq h Hd Hc Hconv).
  split; [reflexivity|].
  pose proof (lookup_lt_Some _ _ _ Hd) as Hlt.
  split; [lia|]. cbn [h_datasets].
  split; [by rewrite lookup_app_l|].
  split; [rewrite lookup_app_r by lia; by rewrite Nat.sub_diag|].
  split; [done|]. unfold smoke_dataset. cbn [metadata].
  split; [do 2 (rewrite lookup_insert_ne by done); by rewrite lookup_insert_eq|].
  split; [intros Hnm; assert ((0 <? nm) = true) as -> by lia;
          rewrite lookup_insert_ne by done; by rewrite lookup_insert_eq|].
  split; [intros Hnq; assert ((0 <? nq) = true) as -> by lia;
          by rewrite lookup_insert_eq|].
  intros k Hk. rewrite !lookup_insert_ne; [done|set_solver..].
Qed.

Lemma smoke_dataset_description_witness :
  ∃ d' h' ds',
    _apply_smoke_test 0%nat 10 9 Example.heap = (Ret d', h') ∧
    h_datasets h' !! d' = Some ds' ∧
    dataset_name ds' = "locomo_smoke" ∧
    metadata ds' !! "smoke_messages" = Some (PyInt 10) ∧
    metadata ds' !! "smoke_questions" = Some (PyInt 9).
Proof.
  destruct (smoke_dataset_description 0%nat Example.dataset 0%nat [1%nat]
              Example.conv_1 10 9 Example.heap)
    as (d' & h' & ds' & Hrun & _ & _ & Hds & Hname & _ & Hm & Hq & _);
    [reflexivity..|].
  exists d', h', ds'. repeat split; [exact Hrun|exact Hds|exact Hname| |].
  - apply Hm. lia.
  - apply Hq. lia.
Defined.

(** ** Memu adapter: retrieval *)

Section MemuSearch.
Context {N : Type}.
Variable requests_post : Memu.Request → N → outcome Memu.Response * N.
Variable py_str : json → string.
Implicit Types (w : Memu.World N) (self : Memu.MemuAdapter).


Lemma request_memories_returns self query user_id top_k min_similarity w
    result n' :
  request_returns requests_post
    (Memu.search_request self query user_id top_k min_similarity)
    (Memu.net w) result n' →
  Memu.request_memories requests_post self query user_id top_k min_similarity w
  = (Ret result, {| Memu.net := n'; Memu.console := Memu.console w;
                    Memu.slept := Memu.slept w |}).
Proof.
  unfold Memu.request_memories, Memu.post, Memu.decode, m_bind.
  intros (response & Hpost & Hstatus & Hbody). by rewrite Hpost, Hstatus, Hbody.
Qed.

Lemma m_map_length {A B} (f : A → M (Memu.World N) B) (l : list A) w l' w' :
  Memu.m_map f l w = (Ret l', w') → length l' = length l.
Proof.
  revert w l' w'. induction l as [|x l IH]; intros w l' w'; simpl.
  - by intros [= <- _].
  - unfold m_bind at 1. destruct (f x w) as [[y|e] w1]; [|done].
    unfold m_bind at 1.
    destruct (Memu.m_map f l w1) as [[ys|e] w2] eqn:Hl; [|done].
    intros [= <- _]. simpl. f_equal. by eapply IH.
Qed.

Lemma m_map_Forall {A B} (P : B → Prop) (f : A → M (Memu.World N) B)
    (l : list A) w l' w' :
  (∀ x w y w', f x w = (Ret y, w') → P y) →
  Memu.m_map f l w = (Ret l', w') → Forall P l'.
Proof.
  intros Hf. revert w l' w'. induction l as [|x l IH]; intros w l' w'; simpl.
  - intros [= <- _]. constructor.
  - unfold m_bind at 1. destruct (f x w) as [[y|e] w1] eqn:Hx; [|done].
    unfold m_bind at 1.
    destruct (Memu.m_map f l w1) as [[ys|e] w2] eqn:Hl; [|done].
    intros [= <- _]. constructor; eauto.
Qed.

Lemma convert_item_shape user_id item w y w' :
  Memu.convert_item user_id item w = (Ret y, w') →
  ∃ content score metadata,
    y = JDict [("content", content); ("score", score);
               ("user_id", JStr user_id); ("metadata", metadata)].
Proof.
  unfold Memu.convert_item, Memu.dict_get, m_bind, m_ret, m_raise.
  destruct item; try done.
  destruct (default (JDict []) (Memu.assoc "memory" kvs)); try done.
  intros [= <- _]. by eauto.
Qed.


(** Every result of a search that returns carries the queried user id. *)
Lemma single_perspective_tagged self query conversation_id user_id top_k
    min_similarity w sr w' :
  Memu._search_single_perspective requests_post py_str self
    query conversation_id user_id top_k min_similarity w = (Ret sr, w') →
  Forall (λ r, ∃ content score metadata,
            r = JDict [("content", content); ("score", score);
                       ("user_id", JStr user_id); ("metadata", metadata)])
    (results sr).
Proof.
  unfold Memu._search_single_perspective, Memu.try_except.
  unfold m_bind at 1. unfold m_bind at 1.
  destruct (Memu.request_memories _ _ _ _ _ _ _) as [[result|[cls msg|cls msg]] w1].
  - cbn [m_ret]. unfold m_bind at 1.
    destruct (Memu.dict_get result _ _ w1) as [[related|e] w2]; [|done].
    unfold m_bind at 1.
    destruct (Memu.py_iter related w2) as [[items|e] w3]; [|done].
    unfold m_bind at 1.
    destruct (Memu.m_map _ items w3) as [[rs|e] w4] eqn:Hmap; [|done].
    unfold m_bind at 1.
    destruct (Memu._build_memu_context py_str rs w4) as [[ctx|e] w5]; [|done].
    unfold m_bind at 1.
    destruct (Memu.dict_get result _ _ w5) as [[total|e] w6]; [|done].
    intros [= <- _]. cbn.
    eapply m_map_Forall; [|exact Hmap].
    intros x w0 y w0'. apply convert_item_shape.
  - cbn. intros [= <- _]. constructor.
  - done.
Qed.

End MemuSearch.



(** X14. Only the request and the decoding are
    inside the [try]: when the request succeeds and the decoded body is
    not a JSON object, [_search_single_perspective] raises the
    [AttributeError] of [result.get], and prints nothing. *)
Theorem memu_search_body_not_object {N : Type}
    (requests_post : Memu.Request → N → outcome Memu.Response * N)
    (py_str : json → string) (self : Memu.MemuAdapter)
    (query conversation_id user_id : string) (top_k : Z)
    (min_similarity : float) (w : Memu.World N) (result : json) (n' : N) :
  request_returns requests_post
    (Memu.search_request self query user_id top_k min_similarity)
    (Memu.net w) result n' →
  (∀ kvs, result ≠ JDict kvs) →
  Memu._search_single_perspective requests_post py_str self
    query conversation_id user_id top_k min_similarity w
  = (Raise (AttributeError
              ("'" ++ Memu.py_type_name result ++
               "' object has no attribute 'get'")%string),
     {| Memu.net := n'; Memu.console := Memu.console w;
        Memu.slept := Memu.slept w |}).
Proof.
  intros Hret Hshape.
  unfold Memu._search_single_perspective, Memu.try_except.
  unfold m_bind at 1. unfold m_bind at 1.
  rewrite (request_memories_returns requests_post self query user_id top_k
             min_similarity w _ _ Hret).
  cbn [m_ret]. unfold m_bind at 1.
  destruct result; try done. by destruct (Hshape kvs).
Qed.

Lemma memu_search_body_not_object_witness :
  (Memu._search_single_perspective
     (λ _ n, (Ret {| Memu.raise_for_status := None;
                     Memu.json_body := Ret (JList []) |}, n))
     (λ _, ""%string) Example.memu
     "What did Caroline paint?" "conv_1" "conv_1_speaker_a" 10 0.5%float
     Example.memu_world).1
  = Raise (AttributeError "'list' object has no attribute 'get'").
Proof.
  rewrite (memu_search_body_not_object
             (λ _ n, (Ret {| Memu.raise_for_status := None;
                             Memu.json_body := Ret (JList []) |}, n))
             (λ _, ""%string)
             Example.memu "What did Caroline paint?" "conv_1"
             "conv_1_speaker_a" 10 0.5%float Example.memu_world (JList []) tt).
  - reflexivity.
  - eexists. split; [reflexivity|]. by split.
  - done.
Defined.

(** X15. When [_search_single_perspective]
    returns from a body whose "related_memories" is a list, its results
    are as many as the memories of the body, whatever [top_k] is, each
    one a dictionary of "content", "score", "user_id" and "metadata"
    whose "user_id" is the queried one; the formatted context it reports
    is the one built from the first ten results. *)
Theorem memu_search_keeps_every_memory {N : Type}
    (requests_post : Memu.Request → N → outcome Memu.Response * N)
    (py_str : json → string) (self : Memu.MemuAdapter)
    (q conversation_id user_id : string) (top_k : Z)
    (min_similarity : float) (w : Memu.World N) (kvs : list (string * json))
    (items : list json) (n' : N) (sr : SearchResult) (w' : Memu.World N) :
  request_returns requests_post
    (Memu.search_request self q user_id top_k min_similarity)
    (Memu.net w) (JDict kvs) n' →
  Memu.assoc "related_memories" kvs = Some (JList items) →
  Memu._search_single_perspective requests_post py_str self
    q conversation_id user_id top_k min_similarity w = (Ret sr, w') →
  query sr = q ∧
  sr_conversation_id sr = conversation_id ∧
  length (results sr) = length items ∧
  Forall (λ r, ∃ content score metadata,
            r = JDict [("content", content); ("score", score);
                       ("user_id", JStr user_id); ("metadata", metadata)])
    (results sr) ∧
  ∃ context w0,
    Memu.assoc "formatted_context"
      (match retrieval_metadata sr with JDict m => m | _ => [] end)
    = Some (JStr context) ∧
    Memu._build_memu_context py_str (take 10 (results sr)) w0 = (Ret context, w').
Proof.
  intros Hret Hitems.
  unfold Memu._search_single_perspective, Memu.try_except.
  unfold m_bind at 1. unfold m_bind at 1.
  rewrite (request_memories_returns requests_post self q user_id top_k
             min_similarity w _ _ Hret).
  cbn [m_ret]. unfold m_bind at 1. cbn [Memu.dict_get m_ret].
  rewrite Hitems. cbn [default id]. unfold m_bind at 1. cbn [Memu.py_iter m_ret].
  unfold m_bind at 1.
  match goal with
  | |- context [Memu.m_map ?f items ?v] =>
      destruct (Memu.m_map f items v) as [[rs|e] w1] eqn:Hmap; [|done]
  end.
  unfold m_bind at 1.
  destruct (Memu._build_memu_context py_str rs w1) as [[ctx|e] w2] eqn:Hctx;
    [|done].
  cbn. intros [= <- <-]. cbn.
  split; [done|]. split; [done|].
  split; [by eapply m_map_length|].
  split.
  { eapply m_map_Forall; [|exact Hmap].
    intros x w0 y w0'. apply convert_item_shape. }
  exists ctx, w1. split; [done|].
  revert Hctx. unfold Memu._build_memu_context.
  destruct rs as [|r rs']; [done|].
  change (take 10 (r :: rs')) with (r :: take 9 rs').
  change (take 10 (r :: take 9 rs')) with (r :: take 9 (take 9 rs')).
  by rewrite take_take.
Qed.

Lemma memu_search_keeps_every_memory_witness :
  ∃ sr w',
    Memu._search_single_perspective Example.answering (λ _, ""%string)
      Example.memu "What did Caroline paint?" "conv_1" "conv_1_speaker_a" 1
      0.5%float Example.memu_world = (Ret sr, w') ∧
    length (results sr) = 2%nat.
Proof.
  assert (∃ sr w',
            Memu._search_single_perspective Example.answering (λ _, ""%string)
              Example.memu "What did Caroline paint?" "conv_1"
              "conv_1_speaker_a" 1 0.5%float Example.memu_world = (Ret sr, w'))
    as (sr & w' & Hrun) by (eexists _, _; reflexivity).
  exists sr, w'. split; [exact Hrun|].
  destruct (memu_search_keeps_every_memory Example.answering (λ _, ""%string)
              Example.memu "What did Caroline paint?" "conv_1"
              "conv_1_speaker_a" 1 0.5%float Example.memu_world
              [("related_memories", JList Example.memories)] Example.memories
              tt sr w') as (_ & _ & Hlen & _).
  - eexists. split; [reflexivity|]. by split.
  - reflexivity.
  - exact Hrun.
  - exact Hlen.
Defined.

(** ** Memu adapter: the retry loop of the ingestion *)

Section MemuAdd.
Context {N : Type}.
Variable requests_post : Memu.Request → N → outcome Memu.Response * N.
Variable py_str : json → string.
Variable _conversation_to_messages : Conversation → string → string → outcome json.
Variable isoformat : string → string.
Implicit Types (w : Memu.World N) (self : Memu.MemuAdapter) (payload : json).

Abbreviation submit := (Memu.submit requests_post py_str).
Abbreviation retry_loop := (Memu.retry_loop requests_post py_str).

Lemma submit_fails_run self payload w cls msg n' :
  submit_fails requests_post (Memu.memorize_request self payload)
    (Memu.net w) (PyException cls msg) n' →
  submit self payload w
  = (Raise (PyException cls msg),
     {| Memu.net := n'; Memu.console := Memu.console w;
        Memu.slept := Memu.slept w |}).
Proof.
  unfold Memu.submit, Memu.post, Memu.decode, m_bind at 1.
  intros [[Hpost | (response & Hpost & Hresp)]
         |(result & (response & Hpost & Hstatus & Hbody) & Hshape & He)];
    rewrite Hpost; [done| |].
  - unfold m_bind at 1. by destruct Hresp as [-> | [-> ->]].
  - unfold m_bind at 1. rewrite Hstatus, Hbody. cbn [m_ret].
    unfold m_bind at 1. rewrite He.
    destruct result; try done. by destruct (Hshape kvs).
Qed.

Lemma submit_returns_run self payload w kvs n' :
  request_returns requests_post (Memu.memorize_request self payload)
    (Memu.net w) (JDict kvs) n' →
  ∃ line,
    submit self payload w
    = (Ret (default JNull (Memu.assoc "task_id" kvs)),
       {| Memu.net := n'; Memu.console := Memu.console w ++ [line];
          Memu.slept := Memu.slept w |}).
Proof.
  intros (response & Hpost & Hstatus & Hbody).
  eexists. unfold Memu.submit, Memu.post, Memu.decode, m_bind at 1.
  rewrite Hpost. unfold m_bind at 1. rewrite Hstatus, Hbody. reflexivity.
Qed.

(** The attempts that fail before the last one: each is followed by its
    pause, and the loop goes on. *)
Lemma retry_loop_fails self payload es :
  ∀ w n' (i : nat) rest,
    submits_fail requests_post (Memu.memorize_request self payload)
      (Memu.net w) es n' →
    Z.of_nat (i + length es) ≤ Memu.max_retries self - 1 →
    ∃ lines,
      length lines = length es ∧
      retry_loop self payload ((Z.of_nat <$> seq i (length es)) ++ rest) w
      = retry_loop self payload rest
          {| Memu.net := n';
             Memu.console := Memu.console w ++ lines;
             Memu.slept :=
               Memu.slept w ++ ((λ j, 2 ^ Z.of_nat j) <$> seq i (length es)) |}.
Proof.
  induction es as [|e es IH]; intros w n' i rest Hfail Hi.
  - inversion Hfail; subst. exists []. split; [done|].
    cbn. rewrite !app_nil_r. by destruct w.
  - inversion Hfail as [|n0 cls msg n1 es0 n2 Hone Hrest]; subst.
    cbn [length seq fmap list_fmap app].
    cbn [Memu.retry_loop]. unfold m_bind at 1, Memu.try_except.
    unfold m_bind at 1.
    rewrite (submit_fails_run self payload w cls msg n1 Hone).
    cbn [length] in Hi.
    assert ((Z.of_nat i <? Memu.max_retries self - 1) = true) as -> by lia.
    unfold m_bind at 1. cbn [Memu.console_print m_modify].
    unfold m_bind at 1. cbn [Memu.time_sleep m_modify m_ret].
    cbn [Memu.net Memu.console Memu.slept].
    match goal with
    | |- context [retry_loop self payload _ ?v] => set (w1 := v)
    end.
    destruct (IH w1 _ (S i) rest Hrest ltac:(lia)) as (lines & Hlen & ->).
    eexists (_ :: lines). split; [cbn; by rewrite Hlen|].
    subst w1. cbn [Memu.net Memu.console Memu.slept].
    by rewrite <- !app_assoc.
Qed.

Lemma bind_pure {S A B} (m : M S A) (k : A → M S B) :
  (∀ s, (m s).2 = s) → (∀ a s, (k a s).2 = s) → ∀ s, (m_bind m k s).2 = s.
Proof.
  intros Hm Hk s. unfold m_bind. specialize (Hm s).
  destruct (m s) as [[a|e] s']; cbn in Hm; subst; [apply Hk|done].
Qed.

Lemma getitem_int_pure v i w : (Memu.getitem_int (N:=N) v i w).2 = w.
Proof. unfold Memu.getitem_int, m_ret, m_raise. by repeat case_match. Qed.

Lemma getitem_str_pure v key w : (Memu.getitem_str v key w).2 = w.
Proof. unfold Memu.getitem_str, m_ret, m_raise. by repeat case_match. Qed.

Lemma conversation_message_pure base user_name i msg w :
  (Memu.conversation_message isoformat base user_name i msg w).2 = w.
Proof.
  unfold Memu.conversation_message.
  repeat (apply bind_pure;
          [intros; first [apply getitem_int_pure|apply getitem_str_pure]
          |intros ?]).
  done.
Qed.

Lemma conversation_messages_pure base user_name msgs :
  ∀ i w, (Memu.conversation_messages isoformat base user_name i msgs w).2 = w.
Proof.
  induction msgs as [|msg msgs IH]; intros i w; [done|].
  cbn [Memu.conversation_messages]. unfold m_bind at 1.
  pose proof (conversation_message_pure base user_name i msg w) as H1.
  destruct (Memu.conversation_message _ _ _ _ _ _) as [[m|e] w1];
    cbn in H1; subst; [|done].
  unfold m_bind at 1. specialize (IH (S i) w).
  destruct (Memu.conversation_messages _ _ _ _ _ _) as [[ms|e] w2];
    cbn in IH; by subst.
Qed.

(** [_add_single_user] up to the loop. *)
Lemma add_single_user_loop self conv user_id user_name session_date perspective
    w base cm :
  _conversation_to_messages conv "basic" perspective = Ret base →
  (Memu.conversation_messages isoformat base user_name 0 (messages conv) w).1
    = Ret cm →
  ∃ line,
    Memu._add_single_user requests_post py_str _conversation_to_messages
      isoformat self conv user_id user_name session_date perspective w
    = retry_loop self
        (Memu.memorize_payload self cm user_id user_name session_date)
        (Memu.py_range (Memu.max_retries self))
        {| Memu.net := Memu.net w; Memu.console := Memu.console w ++ [line];
           Memu.slept := Memu.slept w |}.
Proof.
  intros Hbase Hcm. eexists.
  unfold Memu._add_single_user. rewrite Hbase.
  unfold m_bind at 1. cbn [m_ret]. unfold m_bind at 1.
  pose proof (conversation_messages_pure base user_name (messages conv) 0 w) as Hw.
  destruct (Memu.conversation_messages _ _ _ _ _ _) as [[cm'|e] w1];
    cbn in Hcm, Hw; [|done].
  injection Hcm as ->. subst w1.
  unfold m_bind at 1. reflexivity.
Qed.

End MemuAdd.

(** X16. With [max_retries] at least 1 and every
    attempt failing with an instance of [Exception], [_add_single_user]
    makes exactly [max_retries] requests, pauses 1, 2, 4, ... seconds
    between them, and ends with the exception of the last attempt. *)
Theorem add_single_user_gives_up {N : Type}
    (requests_post : Memu.Request → N → outcome Memu.Response * N)
    (py_str : json → string)
    (_conversation_to_messages : Conversation → string → string → outcome json)
    (isoformat : string → string) (self : Memu.MemuAdapter) (conv : Conversation)
    (user_id user_name session_date perspective : string) (w : Memu.World N)
    (base : json) (cm : list json) (es : list exn) (cls msg : string) (n1 n2 : N) :
  _conversation_to_messages conv "basic" perspective = Ret base →
  (Memu.conversation_messages isoformat base user_name 0 (messages conv) w).1
    = Ret cm →
  Memu.max_retries self = Z.of_nat (S (length es)) →
  submits_fail requests_post
    (Memu.memorize_request self
       (Memu.memorize_payload self cm user_id user_name session_date))
    (Memu.net w) es n1 →
  submit_fails requests_post
    (Memu.memorize_request self
       (Memu.memorize_payload self cm user_id user_name session_date))
    n1 (PyException cls msg) n2 →
  ∃ w',
    Memu._add_single_user requests_post py_str _conversation_to_messages
      isoformat self conv user_id user_name session_date perspective w
    = (Raise (PyException cls msg), w') ∧
    Memu.net w' = n2 ∧
    Memu.slept w' = Memu.slept w ++ backoff (length es) ∧
    length (Memu.console w') = (length (Memu.console w) + length es + 2)%nat.
Proof.
  intros Hbase Hcm Hmax Hfail Hlast.
  destruct (add_single_user_loop requests_post py_str _conversation_to_messages
              isoformat self conv user_id user_name session_date perspective
              w base cm Hbase Hcm) as (line & ->).
  unfold Memu.py_range. rewrite Hmax, Nat2Z.id, seq_S, fmap_app. cbn [fmap list_fmap].
  match goal with
  | |- context [Memu.retry_loop _ _ _ _ _ ?v] => set (w0 := v)
  end.
  destruct (retry_loop_fails requests_post py_str self _ es w0 n1 0
              [Z.of_nat (0 + length es)] Hfail ltac:(lia))
    as (lines & Hlen & ->).
  cbn [Memu.retry_loop]. unfold m_bind at 1, Memu.try_except.
  unfold m_bind at 1.
  match goal with
  | |- context [Memu.submit _ _ _ ?pl ?v] =>
      rewrite (submit_fails_run requests_post py_str self pl v cls msg n2 Hlast)
  end.
  assert ((Z.of_nat (0 + length es) <? Memu.max_retries self - 1) = false)
    as -> by (apply Z.ltb_ge; lia).
  eexists. split; [reflexivity|]. cbn.
  split; [done|]. split; [done|].
  rewrite !length_app. cbn. lia.
Qed.

(** A network that refuses every connection, and an adapter that tries
    three times. *)
Lemma add_single_user_gives_up_witness :
  ∃ w',
    Memu._add_single_user Example.refused (λ _, ""%string)
      (λ _ _ _, Ret (JList [])) (λ t, t)
      {| Memu.base_url := "https://api.memu.so"; Memu.agent_id := "a";
         Memu.agent_name := "A"; Memu.max_retries := 3; Memu.headers := [];
         Memu._prompts := JNull |}
      {| conversation_id := "c"; messages := []; conv_metadata := ∅ |}
      "u" "User" "2024-01-01" "speaker_a" Example.memu_world
    = (Raise (PyException "ConnectionError" "connection refused"), w') ∧
    Memu.slept w' = [1; 2].
Proof.
  destruct (add_single_user_gives_up Example.refused (λ _, ""%string)
              (λ _ _ _, Ret (JList [])) (λ t, t)
              {| Memu.base_url := "https://api.memu.so"; Memu.agent_id := "a";
                 Memu.agent_name := "A"; Memu.max_retries := 3;
                 Memu.headers := []; Memu._prompts := JNull |}
              {| conversation_id := "c"; messages := []; conv_metadata := ∅ |}
              "u" "User" "2024-01-01" "speaker_a" Example.memu_world
              (JList []) []
              [PyException "ConnectionError" "connection refused";
               PyException "ConnectionError" "connection refused"]
              "ConnectionError" "connection refused" tt tt)
    as (w' & Hrun & _ & Hslept & _).
  - reflexivity.
  - reflexivity.
  - reflexivity.
  - repeat (econstructor; [by left; left|]). constructor.
  - by left; left.
  - exists w'. split; [exact Hrun|exact Hslept].
Defined.

(** X17. When the attempts fail with
    instances of [Exception] until one, within [max_retries], is answered
    with a JSON object, [_add_single_user] returns the "task_id" of that
    object ([None] when it has none), having paused 1, 2, 4, ... seconds
    after the failed attempts, and makes no further request. *)
Theorem add_single_user_returns_task_id {N : Type}
    (requests_post : Memu.Request → N → outcome Memu.Response * N)
    (py_str : json → string)
    (_conversation_to_messages : Conversation → string → string → outcome json)
    (isoformat : string → string) (self : Memu.MemuAdapter) (conv : Conversation)
    (user_id user_name session_date perspective : string) (w : Memu.World N)
    (base : json) (cm : list json) (es : list exn)
    (kvs : list (string * json)) (n1 n2 : N) :
  _conversation_to_messages conv "basic" perspective = Ret base →
  (Memu.conversation_messages isoformat base user_name 0 (messages conv) w).1
    = Ret cm →
  Z.of_nat (length es) < Memu.max_retries self →
  submits_fail requests_post
    (Memu.memorize_request self
       (Memu.memorize_payload self cm user_id user_name session_date))
    (Memu.net w) es n1 →
  request_returns requests_post
    (Memu.memorize_request self
       (Memu.memorize_payload self cm user_id user_name session_date))
    n1 (JDict kvs) n2 →
  ∃ w',
    Memu._add_single_user requests_post py_str _conversation_to_messages
      isoformat self conv user_id user_name session_date perspective w
    = (Ret (default JNull (Memu.assoc "task_id" kvs)), w') ∧
    Memu.net w' = n2 ∧
    Memu.slept w' = Memu.slept w ++ backoff (length es).
Proof.
  intros Hbase Hcm Hmax Hfail Hret.
  destruct (add_single_user_loop requests_post py_str _conversation_to_messages
              isoformat self conv user_id user_name session_date perspective
              w base cm Hbase Hcm) as (line & ->).
  unfold Memu.py_range.
  replace (Z.to_nat (Memu.max_retries self))
    with (length es + S (Z.to_nat (Memu.max_retries self) - S (length es)))%nat
    by lia.
  rewrite seq_app, fmap_app. cbn [seq fmap list_fmap].
  match goal with
  | |- context [Memu.retry_loop _ _ _ _ (_ ++ ?rest) ?v] =>
      destruct (retry_loop_fails requests_post py_str self _ es v n1 0 rest
                  Hfail ltac:(lia))
        as (lines & Hlen & ->)
  end.
  cbn [Memu.retry_loop]. unfold m_bind at 1, Memu.try_except.
  unfold m_bind at 1.
  match goal with
  | |- context [Memu.submit _ _ _ _ ?v] =>
      destruct (submit_returns_run requests_post py_str self
                  (Memu.memorize_payload self cm user_id user_name session_date)
                  v kvs n2 Hret) as (line' & ->)
  end.
  eexists. by split; [reflexivity|].
Qed.

(** The second attempt is answered. *)
Lemma add_single_user_returns_task_id_witness :
  let post : Memu.Request → nat → outcome Memu.Response * nat :=
    λ _ n, match n with
           | O => (Raise (PyException "Timeout" "timed out"), S n)
           | _ => (Ret {| Memu.raise_for_status := None;
                          Memu.json_body :=
                            Ret (JDict [("task_id", JStr "t1");
                                        ("status", JStr "PENDING")]) |}, S n)
           end in
  ∃ w',
    Memu._add_single_user post (λ _, ""%string)
      (λ _ _ _, Ret (JList [])) (λ t, t) Example.memu
      {| conversation_id := "c"; messages := []; conv_metadata := ∅ |}
      "u" "User" "2024-01-01" "speaker_a"
      {| Memu.net := O; Memu.console := []; Memu.slept := [] |}
    = (Ret (JStr "t1"), w') ∧
    Memu.net w' = 2%nat ∧ Memu.slept w' = [1].
Proof.
  intros post.
  apply (add_single_user_returns_task_id post (λ _, ""%string)
           (λ _ _ _, Ret (JList [])) (λ t, t) Example.memu
           {| conversation_id := "c"; messages := []; conv_metadata := ∅ |}
           "u" "User" "2024-01-01" "speaker_a"
           {| Memu.net := O; Memu.console := []; Memu.slept := [] |}
           (JList []) [] [PyException "Timeout" "timed out"]
           [("task_id", JStr "t1"); ("status", JStr "PENDING")] 1%nat 2%nat).
  - reflexivity.
  - reflexivity.
  - reflexivity.
  - econstructor; [by left; left|constructor].
  - eexists. split; [reflexivity|]. by split.
Defined.

(** X18. With [max_retries] zero or
    negative the loop has no round: [_add_single_user] makes no request,
    does not pause, raises nothing and returns [None]. *)
Theorem add_single_user_without_attempt {N : Type}
    (requests_post : Memu.Request → N → outcome Memu.Response * N)
    (py_str : json → string)
    (_conversation_to_messages : Conversation → string → string → outcome json)
    (isoformat : string → string) (self : Memu.MemuAdapter) (conv : Conversation)
    (user_id user_name session_date perspective : string) (w : Memu.World N)
    (base : json) (cm : list json) :
  _conversation_to_messages conv "basic" perspective = Ret base →
  (Memu.conversation_messages isoformat base user_name 0 (messages conv) w).1
    = Ret cm →
  Memu.max_retries self ≤ 0 →
  ∃ w',
    Memu._add_single_user requests_post py_str _conversation_to_messages
      isoformat self conv user_id user_name session_date perspective w
    = (Ret JNull, w') ∧
    Memu.net w' = Memu.net w ∧
    Memu.slept w' = Memu.slept w.
Proof.
  intros Hbase Hcm Hmax.
  destruct (add_single_user_loop requests_post py_str _conversation_to_messages
              isoformat self conv user_id user_name session_date perspective
              w base cm Hbase Hcm) as (line & ->).
  unfold Memu.py_range.
  replace (Z.to_nat (Memu.max_retries self)) with 0%nat by lia.
  eexists. by split; [reflexivity|].
Qed.

Lemma add_single_user_without_attempt_witness :
  ∃ w',
    Memu._add_single_user Example.refused (λ _, ""%string)
      (λ _ _ _, Ret (JList [])) (λ t, t)
      {| Memu.base_url := "https://api.memu.so"; Memu.agent_id := "a";
         Memu.agent_name := "A"; Memu.max_retries := 0; Memu.headers := [];
         Memu._prompts := JNull |}
      {| conversation_id := "c"; messages := []; conv_metadata := ∅ |}
      "u" "User" "2024-01-01" "speaker_a" Example.memu_world
    = (Ret JNull, w') ∧
    Memu.net w' = Memu.net Example.memu_world ∧
    Memu.slept w' = Memu.slept Example.memu_world.
Proof.
  apply (add_single_user_without_attempt Example.refused (λ _, ""%string)
           (λ _ _ _, Ret (JList [])) (λ t, t)
           {| Memu.base_url := "https://api.memu.so"; Memu.agent_id := "a";
              Memu.agent_name := "A"; Memu.max_retries := 0; Memu.headers := [];
              Memu._prompts := JNull |}
           {| conversation_id := "c"; messages := []; conv_metadata := ∅ |}
           "u" "User" "2024-01-01" "speaker_a" Example.memu_world
           (JList []) []).
  - reflexivity.
  - reflexivity.
  - cbn. lia.
Defined.

(** ** Memu adapter: two perspectives *)

Section StandardRole.

Lemma py_lower_app (a b : string) :
  Memu.py_lower (a ++ b) = (Memu.py_lower a ++ Memu.py_lower b)%string.
Proof. induction a as [|c a IH]; [done|]. simpl. rewrite IH. reflexivity. Qed.

Lemma prefix_app (p r : string) : String.prefix p (p ++ r) = true.
Proof.
  induction p as [|c p IH]; [by destruct r|].
  change (String c p ++ r)%string with (String c (p ++ r)%string).
  simpl. by destruct (ascii_dec c c).
Qed.

Lemma prefix_lower_split (p s : string) :
  String.prefix p (Memu.py_lower s) = true →
  ∃ role rest, s = (role ++ rest)%string ∧ Memu.py_lower role = p.
Proof.
  revert s. induction p as [|c p IH]; intros s.
  - intros _. by exists ""%string, s.
  - destruct s as [|d s]; [done|]. simpl.
    destruct (ascii_dec c (Memu.ascii_lower d)) as [->|]; [|done].
    intros (role & rest & -> & <-)%IH.
    by exists (String d role), rest.
Qed.

Lemma is_standard_role_spec (speaker : string) :
  Memu.is_standard_role speaker = true ↔
  ∃ role rest,
    speaker = (role ++ rest)%string ∧
    Memu.py_lower role ∈ ["user"; "assistant"]%string.
Proof.
  unfold Memu.is_standard_role. split.
  - case_bool_decide as Hin.
    + intros _. exists speaker, ""%string. split; [|done].
      clear. induction speaker as [|c s IH]; [done|].
      change (String c s ++ "")%string with (String c (s ++ "")%string).
      by rewrite <- IH.
    + destruct (String.prefix "user" _) eqn:Hu.
      * intros _. apply prefix_lower_split in Hu as (role & rest & -> & Hrole).
        exists role, rest. split; [done|]. rewrite Hrole. set_solver.
      * destruct (String.prefix "assistant" _) eqn:Ha; [|done].
        intros _. apply prefix_lower_split in Ha as (role & rest & -> & Hrole).
        exists role, rest. split; [done|]. rewrite Hrole. set_solver.
  - intros (role & rest & -> & Hrole).
    case_bool_decide; [done|].
    rewrite py_lower_app.
    apply elem_of_cons in Hrole as [->|Hrole].
    + by rewrite prefix_app.
    + apply list_elem_of_singleton in Hrole as ->.
      rewrite (prefix_app "assistant"). by rewrite orb_true_r.
Qed.

End StandardRole.

(** X19. [_need_dual_perspective] answers "no"
    exactly when each of the two names starts, in any letter case, with
    "user" or with "assistant", whatever follows; one name that does not
    is enough for two perspectives. *)
Theorem need_dual_perspective_iff (speaker_a speaker_b : string) :
  Memu._need_dual_perspective speaker_a speaker_b = false ↔
  (∃ role rest,
     speaker_a = (role ++ rest)%string ∧
     Memu.py_lower role ∈ ["user"; "assistant"]%string) ∧
  (∃ role rest,
     speaker_b = (role ++ rest)%string ∧
     Memu.py_lower role ∈ ["user"; "assistant"]%string).
Proof.
  unfold Memu._need_dual_perspective.
  rewrite negb_false_iff, andb_true_iff.
  by rewrite !is_standard_role_spec.
Qed.

Section MemuDual.
Context {N : Type}.
Variable requests_post : Memu.Request → N → outcome Memu.Response * N.
Variable py_str : json → string.
Variable sort_by_score : list json → outcome (list json).
Variable str_format : json → string → string → string → string → outcome string.
Implicit Types (w : Memu.World N) (self : Memu.MemuAdapter).

Lemma py_slice_to_sub {A} (k : Z) (l : list A) :
  Memu.py_slice_to k l ⊆ l ∧
  (0 ≤ k → Z.of_nat (length (Memu.py_slice_to k l)) ≤ k).
Proof.
  unfold Memu.py_slice_to. split.
  - destruct (0 <=? k); apply subseteq_take.
  - intros Hk. assert ((0 <=? k) = true) as -> by lia.
    rewrite length_take. lia.
Qed.

End MemuDual.



(** X21. When [_search_dual_perspective]
    returns, the sorting having left a permutation of the merged list,
    every result it returns carries the user id of one of the two
    perspectives, and with [top_k] not negative there are at most
    [top_k] of them, which is also what "total_found" says. *)
Theorem dual_search_results_bounded {N : Type}
    (requests_post : Memu.Request → N → outcome Memu.Response * N)
    (py_str : json → string)
    (sort_by_score : list json → outcome (list json))
    (str_format : json → string → string → string → string → outcome string)
    (self : Memu.MemuAdapter)
    (q conversation_id speaker_a speaker_b user_a user_b : string) (top_k : Z)
    (min_similarity : float) (w : Memu.World N) (sr : SearchResult)
    (w' : Memu.World N) :
  (∀ l l', sort_by_score l = Ret l' → l' ≡ₚ l) →
  Memu._search_dual_perspective requests_post py_str sort_by_score str_format
    self q conversation_id speaker_a speaker_b user_a user_b top_k
    min_similarity w = (Ret sr, w') →
  Forall (λ r, ∃ user content score metadata,
            user ∈ [user_a; user_b] ∧
            r = JDict [("content", content); ("score", score);
                       ("user_id", JStr user); ("metadata", metadata)])
    (results sr) ∧
  Memu.assoc "total_found"
    (match retrieval_metadata sr with JDict m => m | _ => [] end)
  = Some (JInt (py_len (results sr))) ∧
  (0 ≤ top_k → py_len (results sr) ≤ top_k).
Proof.
  intros Hsort.
  unfold Memu._search_dual_perspective.
  unfold m_bind at 1.
  destruct (Memu._search_single_perspective _ _ _ _ _ user_a _ _ w)
    as [[ra|e] w1] eqn:Ha; [|done].
  unfold m_bind at 1.
  destruct (Memu._search_single_perspective _ _ _ _ _ user_b _ _ w1)
    as [[rb|e] w2] eqn:Hb; [|done].
  apply single_perspective_tagged in Ha, Hb.
  unfold m_bind at 1.
  destruct (sort_by_score (results ra ++ results rb)) as [sorted|e] eqn:Hs;
    [|done].
  apply Hsort in Hs. cbn [m_ret].
  unfold m_bind at 1.
  match goal with
  | |- context [Memu._build_dual_perspective_context ?a ?b ?c ?d ?e ?f ?g ?v] =>
      destruct (Memu._build_dual_perspective_context a b c d e f g v)
        as [[ctx|e'] w3]; [|done]
  end.
  intros [= <- _]. cbn [results retrieval_metadata].
  destruct (py_slice_to_sub top_k sorted) as [Hsub Hlen].
  split; [|split; [done|exact Hlen]].
  apply Forall_forall. intros r Hr. apply Hsub in Hr.
  rewrite Hs in Hr. apply elem_of_app in Hr as [Hr|Hr].
  - destruct (proj1 (Forall_forall _ _) Ha r Hr) as (c & s & m & ->).
    exists user_a, c, s, m. split; [set_solver|done].
  - destruct (proj1 (Forall_forall _ _) Hb r Hr) as (c & s & m & ->).
    exists user_b, c, s, m. split; [set_solver|done].
Qed.

Lemma dual_search_results_bounded_witness :
  ∃ sr w',
    Memu._search_dual_perspective Example.answering (λ _, ""%string)
      (λ l, Ret l) (λ _ a ma b mb, Ret ""%string)
      Example.memu "What did Caroline paint?" "conv_1" "Caroline" "Melanie"
      "conv_1_speaker_a" "conv_1_speaker_b" 3 0.5%float Example.memu_world
    = (Ret sr, w') ∧
    py_len (results sr) ≤ 3.
Proof.
  assert (∃ sr w',
            Memu._search_dual_perspective Example.answering (λ _, ""%string)
              (λ l, Ret l) (λ _ a ma b mb, Ret ""%string)
              Example.memu "What did Caroline paint?" "conv_1" "Caroline"
              "Melanie" "conv_1_speaker_a" "conv_1_speaker_b" 3 0.5%float
              Example.memu_world = (Ret sr, w'))
    as (sr & w' & Hrun) by (eexists _, _; reflexivity).
  exists sr, w'. split; [exact Hrun|].
  destruct (dual_search_results_bounded Example.answering (λ _, ""%string)
              (λ l, Ret l) (λ _ a ma b mb, Ret ""%string)
              Example.memu "What did Caroline paint?" "conv_1" "Caroline"
              "Melanie" "conv_1_speaker_a" "conv_1_speaker_b" 3 0.5%float
              Example.memu_world sr w') as (_ & _ & Hlen).
  - by intros l l' [= ->].
  - exact Hrun.
  - apply Hlen. lia.
Defined.

(** ** Resuming from the checkpoint *)

Section Resumption.
Context {E Index : Type} (K : Collaborators E Index).
Implicit Types (p : Pipeline) (w : World E) (l : Locals (Index:=Index)).




Lemma post_add_wait_run stages b w :
  ∃ t, post_add_wait K stages b w = (Ret tt, logged t w) ∧
       Forall (λ ev, ev = EvSleep) t.
Proof.
  assert (∀ n w, ∃ t, sleep_loop n w = (Ret tt, logged t w) ∧
                      Forall (λ ev, ev = EvSleep) t) as Hloop.
  { clear. induction n as [|n IH]; intros w.
    - exists []. split; [|done]. unfold logged. rewrite app_nil_r. by destruct w.
    - cbn [sleep_loop]. unfold m_bind, log, m_modify.
      match goal with
      | |- context [sleep_loop n ?v] => destruct (IH v) as (t & -> & Ht)
      end.
      exists (EvSleep :: t). split; [|by constructor].
      unfold logged. cbn. by rewrite <- app_assoc. }
  unfold post_add_wait. destruct b; [|].
  - destruct (_ && _); [apply Hloop|].
    exists []. split; [|done]. unfold logged. rewrite app_nil_r. by destruct w.
  - exists []. split; [|done]. unfold logged. rewrite app_nil_r. by destruct w.
Qed.






End Resumption.



(** ** Completed stages are skipped *)

Section Completed.
Context {E Index : Type} (K : Collaborators E Index).
Implicit Types (p : Pipeline) (w : World E) (l : Locals (Index:=Index)).

Lemma keeps_ret {A} (a : A) : keeps_completed (E:=E) (m_ret a).
Proof. by intros w. Qed.

Lemma keeps_raise {A} e : keeps_completed (E:=E) (A:=A) (m_raise e).
Proof. by intros w. Qed.

Lemma keeps_gets {A} (f : World E → A) : keeps_completed (m_gets f).
Proof. by intros w. Qed.

Lemma keeps_bind {A B} (m : M (World E) A) (k : A → M (World E) B) :
  keeps_completed m → (∀ a, keeps_completed (k a)) → keeps_completed (m_bind m k).
Proof.
  intros Hm Hk w. unfold m_bind. specialize (Hm w).
  destruct (m w) as [[a|e] w1]; cbn in *; [|done].
  specialize (Hk a w1). set_solver.
Qed.

Lemma keeps_log ev : keeps_completed (E:=E) (log ev).
Proof. by intros w. Qed.

Lemma keeps_set_env env : keeps_completed (E:=E) (set_env env).
Proof. by intros w. Qed.

Lemma keeps_on_heap {A} (m : M Heap A) : keeps_completed (E:=E) (on_heap m).
Proof. intros w. unfold on_heap. by destruct (m (w_heap w)). Qed.

Lemma keeps_call {A} (f : Env E → outcome A * Env E) : keeps_completed (call f).
Proof. intros w. unfold call. by destruct (f (w_env w)). Qed.

Lemma keeps_mark s : keeps_completed (E:=E) (mark_completed s).
Proof. intros w. cbn. set_solver. Qed.

End Completed.

Ltac keeps_auto :=
  repeat first
    [ apply keeps_ret | apply keeps_raise | apply keeps_gets
    | apply keeps_set_env | apply keeps_mark | apply keeps_log
    | apply keeps_on_heap | apply keeps_call
    | apply keeps_bind; [| intros ?]
    | match goal with
      | |- keeps_completed (if ?b then _ else _) => destruct b
      | |- keeps_completed (match ?x with _ => _ end) => destruct x
      end ].

Section CompletedStages.
Context {E Index : Type} (K : Collaborators E Index).
Implicit Types (p : Pipeline) (w : World E) (l : Locals (Index:=Index)).

Lemma stage_search_keeps p d stages l :
  keeps_completed (stage_search K p d stages l).
Proof.
  unfold stage_search, is_completed, save_search_json, save_checkpoint,
    load_search_json.
  keeps_auto.
Qed.

Lemma stage_answer_keeps p d stages l :
  keeps_completed (stage_answer K p d stages l).
Proof.
  unfold stage_answer, is_completed, save_answer_json, save_checkpoint,
    load_answer_json, search_payload, read_var, comprehension.
  keeps_auto.
Qed.

Lemma stage_evaluate_keeps p stages l :
  keeps_completed (stage_evaluate K p stages l).
Proof.
  unfold stage_evaluate, is_completed, save_eval_json, save_checkpoint,
    search_payload, read_var, comprehension.
  keeps_auto.
Qed.

(** A gate lets its executor be called only when its stage is not in
    [self.completed_stages]. *)
Lemma stage_search_gate p d stages l w :
  ∃ t, w_trace (stage_search K p d stages l w).2 = w_trace w ++ t ∧
       calls_outside (w_completed w) t.
Proof.
  destruct (decide ("search" ∈ w_completed w)) as [Hdone|Hdone].
  - rewrite stage_search_completed by done.
    destruct (truthy _); [|destruct (search_file (w_env w))];
      eexists; (split; [cbn; try reflexivity; by rewrite app_nil_r|]);
      repeat constructor; by intros s [=].
  - destruct (stage_search_origin K p d stages l w) as (t & Ht & Ho).
    exists t. split; [done|].
    eapply Forall_impl; [exact Ho|]. cbn. intros ev Hev s Hs.
    destruct ev; cbn in Hs, Hev; by simplify_eq.
Qed.

Lemma stage_answer_gate p d stages l w :
  ∃ t, w_trace (stage_answer K p d stages l w).2 = w_trace w ++ t ∧
       calls_outside (w_completed w) t.
Proof.
  destruct (decide ("answer" ∈ w_completed w)) as [Hdone|Hdone].
  - rewrite stage_answer_completed by done.
    destruct (truthy _); [|destruct (answer_file (w_env w))];
      eexists; (split; [cbn; try reflexivity; by rewrite app_nil_r|]);
      repeat constructor; by intros s [=].
  - destruct (stage_answer_origin K p d stages l w) as (t & Ht & Ho).
    exists t. split; [done|].
    eapply Forall_impl; [exact Ho|]. cbn. intros ev Hev s Hs.
    destruct ev; cbn in Hs, Hev; by simplify_eq.
Qed.

Lemma stage_evaluate_gate p stages l w :
  ∃ t, w_trace (stage_evaluate K p stages l w).2 = w_trace w ++ t ∧
       calls_outside (w_completed w) t.
Proof.
  destruct (decide ("evaluate" ∈ w_completed w)) as [Hdone|Hdone].
  - rewrite stage_evaluate_skip
      by (by rewrite (bool_decide_eq_true_2 _ Hdone), andb_false_r).
    exists []. split; [by rewrite app_nil_r|constructor].
  - destruct (stage_evaluate_origin K p stages l w) as (t & Ht & Ho).
    exists t. split; [done|].
    eapply Forall_impl; [exact Ho|]. cbn. intros ev Hev s Hs.
    destruct ev; cbn in Hs, Hev; by simplify_eq.
Qed.

(** What the gates keep: the set only grows, and the executors called
    are those of stages outside the set the run started with. *)
Lemma gate_hoare {A} (c : gset string) (m : M (World E) A) :
  keeps_completed m →
  (∀ w, ∃ t, w_trace (m w).2 = w_trace w ++ t ∧ calls_outside (w_completed w) t) →
  hoare (λ w, c ⊆ w_completed w ∧ calls_outside c (w_trace w)) m
    (λ _ w, c ⊆ w_completed w ∧ calls_outside c (w_trace w))
    (λ w, calls_outside c (w_trace w)).
Proof.
  intros Hkeep Hgate w [Hc Ht].
  specialize (Hkeep w). destruct (Hgate w) as (t & Htrace & Hcalls).
  assert (calls_outside c (w_trace (m w).2)) as Hend.
  { rewrite Htrace. apply Forall_app. split; [done|].
    eapply Forall_impl; [exact Hcalls|]. cbn. intros ev Hev s Hs.
    specialize (Hev s Hs). set_solver. }
  destruct (m w) as [[a|e] w']; cbn in *; [|done].
  split; [set_solver|done].
Qed.

End CompletedStages.

(** X23. When Add is not executed (not requested, or completed), a run
    calls the executor of a stage only if the stage is not among the
    completed stages it starts from: those of the checkpoint when
    checkpointing is on and a checkpoint exists, those the pipeline
    object holds otherwise. *)
Theorem completed_stages_not_reexecuted {E Index} (K : Collaborators E Index)
    (p : Pipeline) (dataset : loc) (stages : option (list string))
    (smoke_test : bool) (smoke_messages smoke_questions : Z)
    (elapsed_time : float) (w : World E) (ev : event) (s : string) :
  "add" ∉ requested stages ∨ "add" ∈ effective_completed p w →
  ev ∈ w_trace (run K p dataset stages smoke_test smoke_messages smoke_questions
                  elapsed_time (fresh_trace w)).2 →
  stage_called ev = Some s →
  s ∉ effective_completed p w.
Proof.
  intros Hadd.
  set (c := effective_completed p w).
  set (I := λ w' : World E, c ⊆ w_completed w' ∧ calls_outside c (w_trace w')).
  set (X := λ w' : World E, calls_outside c (w_trace w')).
  set (I0 := λ w' : World E,
         w_trace w' = [] ∧ w_env w' = w_env w ∧ w_completed w' = w_completed w).
  assert (hoare I0
            (run K p dataset stages smoke_test smoke_messages smoke_questions
               elapsed_time)
            (λ _, X) X) as Hrun.
  { apply (run_hoare K I0 I0 I I I I I I X X).
    - intros w0 (Ht & Henv & Hc). unfold on_heap.
      destruct (preprocess _ _ _ _ _ _) as [[d|e] h]; cbn.
      + done.
      + unfold X. cbn. rewrite Ht. constructor.
    - intros w0 (Ht & Henv & Hc). rewrite try_load_checkpoint_run.
      unfold with_completed, logged. cbn.
      split.
      + unfold c, effective_completed. by rewrite Henv, Hc.
      + rewrite Ht. cbn.
        destruct (use_checkpoint p); repeat constructor; by intros s' [=].
    - intros d r w0 [Hc Ht].
      rewrite stage_add_skip.
      2:{ unfold has_stage. destruct Hadd as [Hadd|Hadd].
          - by rewrite (bool_decide_eq_false_2 _ Hadd).
          - rewrite (bool_decide_eq_true_2 ("add" ∈ w_completed w0))
              by set_solver.
            by rewrite andb_false_r. }
      assert (calls_outside c (w_trace w0 ++ [EvBuildLazyIndex])) as Ht'.
      { apply Forall_app. split; [done|]. repeat constructor. by intros s' [=]. }
      destruct (h_datasets (w_heap w0) !! d) as [ds|]; [|done].
      by destruct (build_lazy_index K _ _ _) as [[i|e] env].
    - intros b w0 [Hc Ht].
      destruct (post_add_wait_run K (requested stages) b w0) as (t & -> & Hsleep).
      split; [done|]. cbn. apply Forall_app. split; [done|].
      eapply Forall_impl; [exact Hsleep|]. cbn. by intros ev' -> s' [=].
    - intros d l. apply gate_hoare;
        [apply stage_search_keeps|apply stage_search_gate].
    - intros d l. apply gate_hoare;
        [apply stage_answer_keeps|apply stage_answer_gate].
    - intros l. apply gate_hoare;
        [apply stage_evaluate_keeps|apply stage_evaluate_gate].
    - intros r w0 [Hc Ht]. cbn. unfold X. cbn.
      apply Forall_app. split; [done|]. repeat constructor. by intros s' [=]. }
  pose proof (hoare_run I0 _ _ X (fresh_trace w) Hrun) as Hend.
  assert (calls_outside c
            (w_trace (run K p dataset stages smoke_test smoke_messages
                        smoke_questions elapsed_time (fresh_trace w)).2)) as Hcalls.
  { destruct (run K p dataset stages smoke_test smoke_messages smoke_questions
                elapsed_time (fresh_trace w)) as [[r|e] w']; by apply Hend. }
  intros Hev Hs. exact (proj1 (Forall_forall _ _) Hcalls ev Hev s Hs).
Qed.

(** The sample runs: with the checkpoint of a run of Add and Search, a
    run of all four stages calls the answer executor, and "answer" is
    not among the completed stages of that checkpoint. *)
Lemma completed_stages_not_reexecuted_witness :
  let first :=
    run Example.collaborators Example.with_checkpoint 0%nat
      (Some ["add"; "search"]) false 0 0 0%float (fresh_trace Example.world) in
  "answer" ∉ effective_completed Example.with_checkpoint first.2.
Proof.
  intros first.
  apply (completed_stages_not_reexecuted Example.collaborators
           Example.with_checkpoint 0%nat (Some ["search"; "answer"]) false 0 0
           0%float first.2
           (EvAnswerStage (qa_pairs Example.dataset)
              (Some (Example.search_of <$> qa_pairs Example.dataset)))
           "answer").
  - left. cbn. set_solver.
  - vm_compute. do 2 apply list_elem_of_further. apply list_elem_of_here.
  - reflexivity.
Defined.
